(** * nf_core/modules.py: DSL2 module imports from a GitHub repository

    A shallow embedding of [ModulesRepo] and [PipelineModules] from
    [nf_core/modules.py].  Python strings are [string], byte strings are
    [list byte], the object [self] is a record that the methods thread
    through a small state-and-exception monad, and the outside world
    (HTTP answers, the file system, the log) is part of that state. *)

From Stdlib Require Import Bool Arith ZArith NArith Lia List Ascii String.
From Stdlib Require Import DecimalString Init.Byte.
Import ListNotations.

Local Open Scope list_scope.
Local Open Scope string_scope.

(** ** Python [str] methods used by the module *)

Module PyStr.

(** The line feed, written [\n] in the Python source. *)
Definition nl : string := String (ascii_of_nat 10) EmptyString.

(** [s.startswith(prefix)] *)
Fixpoint startswith (s prefix : string) {struct prefix} : bool :=
  match prefix with
  | EmptyString => true
  | String p prefix' =>
      match s with
      | EmptyString => false
      | String c s' => Ascii.eqb c p && startswith s' prefix'
      end
  end.

(** [s.endswith(suffix)]: the last [len(suffix)] characters are [suffix]. *)
Definition endswith (s suffix : string) : bool :=
  (length suffix <=? length s)%nat
  && String.eqb (substring (length s - length suffix) (length suffix) s) suffix.

(** [sub in s] *)
Fixpoint contains (sub s : string) : bool :=
  startswith s sub
  || match s with
     | EmptyString => false
     | String _ s' => contains sub s'
     end.

(** One bound of a slice [s[i:j]]: a negative index counts from the end,
    and the result is clipped to [0, len]. *)
Definition slice_bound (len i : Z) : Z :=
  let i' := if (i <? 0)%Z then (i + len)%Z else i in
  Z.max 0 (Z.min len i').

(** [s[i:j]] *)
Definition slice (s : string) (i j : Z) : string :=
  let len := Z.of_nat (length s) in
  let lo := slice_bound len i in
  let hi := slice_bound len j in
  substring (Z.to_nat lo) (Z.to_nat (hi - lo)) s.

(** [sep.join(l)] *)
Fixpoint join (sep : string) (l : list string) : string :=
  match l with
  | [] => ""
  | [x] => x
  | x :: l' => x ++ sep ++ join sep l'
  end.

(** [s.rstrip("/")] *)
Fixpoint rstrip_sep (s : string) : string :=
  match s with
  | EmptyString => EmptyString
  | String c s' =>
      match rstrip_sep s' with
      | EmptyString => if Ascii.eqb c "/" then EmptyString else String c EmptyString
      | r => String c r
      end
  end.

(** [x in l] for a list of strings. *)
Definition mem (x : string) (l : list string) : bool :=
  existsb (String.eqb x) l.

End PyStr.

(** ** [os.path] on POSIX (posixpath.py) *)

Module OsPath.

(** One step of the loop of [posixpath.join]. *)
Definition join2 (path b : string) : string :=
  if PyStr.startswith b "/" then b
  else if String.eqb path "" || PyStr.endswith path "/" then path ++ b
  else path ++ "/" ++ b.

(** [os.path.join(a, *p)] *)
Definition join (a : string) (p : list string) : string :=
  fold_left join2 p a.

(** [p[:p.rfind("/") + 1]] *)
Fixpoint upto_last_sep (p : string) : string :=
  match p with
  | EmptyString => EmptyString
  | String c p' =>
      if PyStr.contains "/" p' then String c (upto_last_sep p')
      else if Ascii.eqb c "/" then "/"
      else EmptyString
  end.

(** [os.path.dirname(p)]: the head up to the last separator, without its
    trailing separators unless it consists of separators only. *)
Definition dirname (p : string) : string :=
  let head := upto_last_sep p in
  match PyStr.rstrip_sep head with
  | EmptyString => head
  | stripped => stripped
  end.

(** [p[p.rfind("/") + 1:]], which is [os.path.basename(p)]. *)
Fixpoint after_last_sep (p : string) : string :=
  match p with
  | EmptyString => EmptyString
  | String c p' =>
      if PyStr.contains "/" p' then after_last_sep p'
      else if Ascii.eqb c "/" then p'
      else p
  end.

(** [os.path.split(p)]: the head as [dirname] gives it, and the tail. *)
Definition split (p : string) : string * string :=
  (dirname p, after_last_sep p).

End OsPath.


(** ** Python values, exceptions and dictionaries *)

(** The values a method of [PipelineModules] hands back to its caller. *)
Inductive PyVal : Type :=
  | PyNone
  | PyBool (b : bool).

(** The exceptions the module can raise, directly or through the library
    calls it makes.  [sys.exit(n)] raises [SystemExit n]. *)
Inductive PyExc : Type :=
  | SystemExit (code : Z)
  | SystemError (msg : string)
  | AssertionError
  | KeyError (key : string)
  | ValueError (msg : string)
  | BinasciiError (msg : string)
  | FileNotFoundError (path : string)
  | FileExistsError (path : string)
  | NotADirectoryError (path : string)
  | IsADirectoryError (path : string).

(** How a call ends: with a value, or with an exception on its way up. *)
Inductive Outcome (A : Type) : Type :=
  | Ret (a : A)
  | Raise (e : PyExc).

Arguments Ret {A} a.
Arguments Raise {A} e.

(** A [dict] with [str] keys: insertion ordered, a second assignment to a
    key replaces the value and keeps the key's place. *)
Module PyDict.

Definition t (V : Type) : Type := list (string * V).

Definition empty {V : Type} : t V := [].

(** [d[k] = v] *)
Fixpoint set {V : Type} (d : t V) (k : string) (v : V) : t V :=
  match d with
  | [] => [(k, v)]
  | (k', v') :: d' =>
      if String.eqb k' k then (k', v) :: d' else (k', v') :: set d' k v
  end.

(** [d.get(k)] *)
Fixpoint get {V : Type} (d : t V) (k : string) : option V :=
  match d with
  | [] => None
  | (k', v') :: d' => if String.eqb k' k then Some v' else get d' k
  end.

(** [d.keys()] and [d.items()] *)
Definition keys {V : Type} (d : t V) : list string := map fst d.
Definition items {V : Type} (d : t V) : list (string * V) := d.

End PyDict.

(** ** [base64.b64decode] and the encoding it inverts *)

Module Base64.

Definition alphabet : string :=
  "ABCDEFGHIJKLMNOPQRSTUVWXYZabcdefghijklmnopqrstuvwxyz0123456789+/".

Definition pad : ascii := "="%char.

(** [table_b2a_base64]: the character of a 6-bit value. *)
Definition table_b2a (v : N) : ascii :=
  match String.get (N.to_nat v) alphabet with
  | Some c => c
  | None => pad
  end.

(** [table_a2b_base64]: the 6-bit value of a character of the alphabet,
    [None] for every other character. *)
Definition table_a2b (c : ascii) : option N :=
  let n := N_of_ascii c in
  if ((65 <=? n) && (n <=? 90))%N then Some (n - 65)%N
  else if ((97 <=? n) && (n <=? 122))%N then Some (n - 97 + 26)%N
  else if ((48 <=? n) && (n <=? 57))%N then Some (n - 48 + 52)%N
  else if (n =? 43)%N then Some 62%N
  else if (n =? 47)%N then Some 63%N
  else None.

(** A store into an [unsigned char]. *)
Definition byte_of_N (n : N) : byte :=
  match Byte.of_N (N.land n 255) with
  | Some b => b
  | None => x00
  end.

(** RFC 4648 base64 with padding, three bytes to four characters; this is
    what [base64.b64encode] produces. *)
Fixpoint b64encode (data : list byte) : string :=
  match data with
  | [] => EmptyString
  | [a] =>
      let a := Byte.to_N a in
      String (table_b2a (N.shiftr a 2))
        (String (table_b2a (N.shiftl (N.land a 3) 4))
           (String pad (String pad EmptyString)))
  | [a; b] =>
      let a := Byte.to_N a in
      let b := Byte.to_N b in
      String (table_b2a (N.shiftr a 2))
        (String (table_b2a (N.lor (N.shiftl (N.land a 3) 4) (N.shiftr b 4)))
           (String (table_b2a (N.shiftl (N.land b 15) 2))
              (String pad EmptyString)))
  | a :: b :: c :: rest =>
      let a := Byte.to_N a in
      let b := Byte.to_N b in
      let c := Byte.to_N c in
      String (table_b2a (N.shiftr a 2))
        (String (table_b2a (N.lor (N.shiftl (N.land a 3) 4) (N.shiftr b 4)))
           (String (table_b2a (N.lor (N.shiftl (N.land b 15) 2) (N.shiftr c 6)))
              (String (table_b2a (N.land c 63)) (b64encode rest))))
  end.

(** Append one decoded byte to what the rest of the input decodes to. *)
Definition emit (b : byte) (rest : Outcome (list byte)) : Outcome (list byte) :=
  match rest with
  | Ret l => Ret (b :: l)
  | Raise e => Raise e
  end.

(** [str(n)] for a count. *)
Definition str_of_count (n : N) : string := NilZero.string_of_uint (N.to_uint n).

(** The loop of CPython's [binascii.a2b_base64] without strict mode.
    [quad_pos] counts the data characters of the current group of four,
    [leftchar] holds the bits not yet written, [pads] the [=] seen since
    the last data character, [written] the bytes written so far.
    Characters outside the alphabet are skipped; a completed pad sequence
    ends the decoding; input that ends inside a group is an error. *)
Fixpoint a2b_base64_from (s : string) (quad_pos leftchar pads written : N)
  : Outcome (list byte) :=
  match s with
  | EmptyString =>
      if (quad_pos =? 0)%N then Ret []
      else if (quad_pos =? 1)%N then
        Raise (BinasciiError
                 ("Invalid base64-encoded string: number of data characters ("
                  ++ str_of_count (written / 3 * 4 + 1)
                  ++ ") cannot be 1 more than a multiple of 4"))
      else Raise (BinasciiError "Incorrect padding")
  | String this_ch s' =>
      if Ascii.eqb this_ch pad then
        if (2 <=? quad_pos)%N then
          if (4 <=? quad_pos + (pads + 1))%N then Ret []
          else a2b_base64_from s' quad_pos leftchar (pads + 1)%N written
        else a2b_base64_from s' quad_pos leftchar pads written
      else
        match table_a2b this_ch with
        | None => a2b_base64_from s' quad_pos leftchar pads written
        | Some v =>
            if (quad_pos =? 0)%N then
              a2b_base64_from s' 1%N v 0%N written
            else if (quad_pos =? 1)%N then
              emit (byte_of_N (N.lor (N.shiftl leftchar 2) (N.shiftr v 4)))
                (a2b_base64_from s' 2%N (N.land v 15) 0%N (written + 1)%N)
            else if (quad_pos =? 2)%N then
              emit (byte_of_N (N.lor (N.shiftl leftchar 4) (N.shiftr v 2)))
                (a2b_base64_from s' 3%N (N.land v 3) 0%N (written + 1)%N)
            else
              emit (byte_of_N (N.lor (N.shiftl leftchar 6) v))
                (a2b_base64_from s' 0%N 0%N 0%N (written + 1)%N)
        end
  end.

Definition a2b_base64 (s : string) : Outcome (list byte) :=
  a2b_base64_from s 0%N 0%N 0%N 0%N.

(** [s.encode("ascii")] succeeds when every character is below 128. *)
Fixpoint is_ascii (s : string) : bool :=
  match s with
  | EmptyString => true
  | String c s' => (N_of_ascii c <? 128)%N && is_ascii s'
  end.

(** [base64.b64decode(s)] for a [str] argument, with the default
    [altchars=None] and [validate=False]. *)
Definition b64decode (s : string) : Outcome (list byte) :=
  if is_ascii s then a2b_base64 s
  else Raise (ValueError "string argument should contain only ASCII characters").

End Base64.

(** ** The data of the module *)

(** One entry of the [tree] array of the GitHub git-trees answer. *)
Record FileTreeEntry : Type := mkEntry {
  path : string;
  type_ : string;
  url : string;
  sha : string
}.

(** What [r.json()] yields: the body of a tree listing, the body of a blob,
    or some other document that has none of the keys the code reads.  The
    bodies are those of the GitHub API: a tree listing carries all of
    [sha], [tree] and [truncated] and every entry all of its keys; a
    document with only some of them is outside this model. *)
Inductive Json : Type :=
  | TreeJson (tree_sha : string) (tree : list FileTreeEntry) (truncated : bool)
  | BlobJson (content : string)
  | OtherJson.

(** The answer of [requests.get]. *)
Record Response : Type := mkResponse {
  status_code : Z;
  json : Json
}.

(** [class ModulesRepo] *)
Record ModulesRepo : Type := mkModulesRepo {
  name : string;
  branch : string
}.

(** [ModulesRepo.__init__] with its default arguments. *)
Definition ModulesRepo_default : ModulesRepo :=
  mkModulesRepo "nf-core/modules" "master".

(** The attributes of a [PipelineModules] object.  [modules_file_tree]
    starts as the empty dict and is later the [tree] list; the code only
    iterates over it, so the empty list stands for both. *)
Record PipelineModules : Type := mkPipelineModules {
  modules_repo : ModulesRepo;
  pipeline_dir : string;
  modules_file_tree : list FileTreeEntry;
  modules_current_hash : option string;
  modules_avail_module_names : list string
}.

(** ** The world outside the object *)

(** *** A POSIX file system *)

(** What a place of the file system holds: a directory, or a regular
    file with its bytes.  There are no links, owners or permissions. *)
Inductive Node : Type :=
  | Dir
  | File (content : list byte).

(** A place is given by the names that lead to it from the root; the
    root itself is the empty list. *)
Definition Key : Type := list string.

Fixpoint key_eqb (k k' : Key) : bool :=
  match k, k' with
  | [], [] => true
  | x :: r, x' :: r' => String.eqb x x' && key_eqb r r'
  | _, _ => false
  end.

(** The file system: what every place holds, and the working directory
    of the process, from which relative path names start. *)
Record FileSystem : Type := mkFileSystem {
  nodes : Key -> option Node;
  cwd : Key
}.

(** The root is always a directory. *)
Definition node_at (f : FileSystem) (k : Key) : option Node :=
  match k with
  | [] => Some Dir
  | _ => nodes f k
  end.

Definition set_node (f : FileSystem) (k : Key) (n : Node) : FileSystem :=
  mkFileSystem (fun k' => if key_eqb k' k then Some n else nodes f k') (cwd f).

(** The error numbers of the system calls the module runs into. *)
Inductive Errno : Type := ENOENT | ENOTDIR | EEXIST | EISDIR.

(** How a system call ends. *)
Inductive Sys (A : Type) : Type :=
  | Done (a : A)
  | Failed (e : Errno).

Arguments Done {A} a.
Arguments Failed {A} e.

(** The pieces of a path name between its separators, the empty ones
    included: [p.split("/")]. *)
Fixpoint split_sep (p : string) : list string :=
  match p with
  | EmptyString => [EmptyString]
  | String c p' =>
      if Ascii.eqb c "/" then EmptyString :: split_sep p'
      else match split_sep p' with
           | [] => [String c EmptyString]
           | x :: r => String c x :: r
           end
  end.

(** The names the kernel walks through: repeated and trailing separators
    name nothing. *)
Definition components (p : string) : list string :=
  filter (fun c => negb (String.eqb c "")) (split_sep p).

Definition is_absolute (p : string) : bool := PyStr.startswith p "/".

Definition ends_with_sep (p : string) : bool := PyStr.endswith p "/".

(** Where the walk of a path name starts. *)
Definition start (f : FileSystem) (p : string) : Key :=
  if is_absolute p then [] else cwd f.

(** The names [.] and [..]. *)
Definition is_dot (c : string) : bool := String.eqb c "." || String.eqb c "..".

(** One step of the walk: the place we stand on has to be a directory;
    [.] stays, [..] goes up (and stays at the root), any other name goes
    down, whether or not there is something of that name. *)
Definition enter (f : FileSystem) (cur : Key) (c : string) : Sys Key :=
  match node_at f cur with
  | Some Dir =>
      if String.eqb c "." then Done cur
      else if String.eqb c ".." then Done (removelast cur)
      else Done (cur ++ [c])%list
  | Some (File _) => Failed ENOTDIR
  | None => Failed ENOENT
  end.

Fixpoint walk (f : FileSystem) (cur : Key) (cs : list string) : Sys Key :=
  match cs with
  | [] => Done cur
  | c :: cs' =>
      match enter f cur c with
      | Done k => walk f k cs'
      | Failed e => Failed e
      end
  end.

(** Where a path name leads: the place of what it names or, when the
    last name is not there yet, the place it would have.  The empty path
    name leads nowhere. *)
Definition place (f : FileSystem) (p : string) : option Key :=
  if String.eqb p "" then None
  else match walk f (start f p) (components p) with
       | Done k => Some k
       | Failed _ => None
       end.

(** [stat(2)], as far as the module looks: what the path name [p] names,
    if anything.  A name that ends in a separator names directories
    only. *)
Definition stat (f : FileSystem) (p : string) : option Node :=
  match place f p with
  | Some k =>
      match node_at f k with
      | Some (File content) =>
          if ends_with_sep p then None else Some (File content)
      | n => n
      end
  | None => None
  end.

(** A file system applied to a path name is what that name names. *)
Coercion stat : FileSystem >-> Funclass.

Arguments stat : simpl never.

(** The walk to the directory that holds the last name of [p]; the system
    calls that create something go on from there. *)
Definition walk_parent (f : FileSystem) (p : string) : Sys Key :=
  if String.eqb p "" then Failed ENOENT
  else match walk f (start f p) (removelast (components p)) with
       | Done parent =>
           match node_at f parent with
           | Some Dir => Done parent
           | Some (File _) => Failed ENOTDIR
           | None => Failed ENOENT
           end
       | Failed e => Failed e
       end.

(** The last name of [p], if it has one and it is not [.] or [..]. *)
Definition last_name (p : string) : option string :=
  match rev (components p) with
  | [] => None
  | c :: _ => if is_dot c then None else Some c
  end.

(** [mkdir(2)]: the directory that holds the last name has to be there;
    the root, [.] and [..] are there already; a separator at the end is
    allowed. *)
Definition sys_mkdir (f : FileSystem) (p : string) : Sys FileSystem :=
  match walk_parent f p with
  | Failed e => Failed e
  | Done parent =>
      match last_name p with
      | None => Failed EEXIST
      | Some c =>
          match node_at f (parent ++ [c])%list with
          | Some _ => Failed EEXIST
          | None => Done (set_node f (parent ++ [c])%list Dir)
          end
      end
  end.

(** [open(2)] with [O_WRONLY|O_CREAT|O_TRUNC] followed by the write of
    [data]: the root, [.] and [..], a name that ends in a separator and a
    directory cannot be opened for writing; otherwise the file is created
    or truncated and holds [data]. *)
Definition sys_open_wb (f : FileSystem) (p : string) (data : list byte)
  : Sys FileSystem :=
  match walk_parent f p with
  | Failed e => Failed e
  | Done parent =>
      match last_name p with
      | None => Failed EISDIR
      | Some c =>
          if ends_with_sep p then Failed EISDIR
          else match node_at f (parent ++ [c])%list with
               | Some Dir => Failed EISDIR
               | _ => Done (set_node f (parent ++ [c])%list (File data))
               end
      end
  end.

(** *** The log, the network and the state *)

Inductive LogLevel : Type := DEBUG | INFO | ERROR.

(** What a run does that can be seen from outside, in the order it is
    done: the requests sent, the calls of [os.makedirs], the files
    written, and what is logged and printed. *)
Inductive Event : Type :=
  | HttpGet (api_url : string)
  | MakeDirs (directory : string)
  | WriteFile (filename : string) (content : list byte)
  | Log (level : LogLevel) (msg : string)
  | Print (msg : string).

(** The state a method runs in: the object, the file system, the answers
    the network gives, and the events so far. *)
Record State : Type := mkState {
  self : PipelineModules;
  fs : FileSystem;
  net : string -> Response;
  trace : list Event
}.

(** ** A state-and-exception monad for method bodies *)

Definition M (A : Type) : Type := State -> Outcome A * State.

Definition ret {A : Type} (a : A) : M A := fun s => (Ret a, s).

Definition raise {A : Type} (e : PyExc) : M A := fun s => (Raise e, s).

Definition bind {A B : Type} (m : M A) (k : A -> M B) : M B :=
  fun s =>
    match m s with
    | (Ret a, s') => k a s'
    | (Raise e, s') => (Raise e, s')
    end.

Declare Scope py_scope.
Delimit Scope py_scope with py.
Notation "x <- m ;; k" := (bind m (fun x => k))
  (at level 61, m at next level, right associativity) : py_scope.
Notation "m ;; k" := (bind m (fun _ => k))
  (at level 61, right associativity) : py_scope.
Local Open Scope py_scope.

Definition get_self : M PipelineModules := fun s => (Ret (self s), s).

Definition put_self (o : PipelineModules) : M unit :=
  fun s => (Ret tt, mkState o (fs s) (net s) (trace s)).

Definition get_fs : M FileSystem := fun s => (Ret (fs s), s).

Definition put_fs (f : FileSystem) : M unit :=
  fun s => (Ret tt, mkState (self s) f (net s) (trace s)).

Definition emit_event (e : Event) : M unit :=
  fun s => (Ret tt, mkState (self s) (fs s) (net s) (trace s ++ [e])%list).

(** [for x in l: body(x)] *)
Fixpoint for_each {A : Type} (l : list A) (body : A -> M unit) : M unit :=
  match l with
  | [] => ret tt
  | x :: l' => body x ;; for_each l' body
  end.

(** ** Library calls with effects *)

Definition logging (level : LogLevel) (msg : string) : M unit :=
  emit_event (Log level msg).

Definition print (msg : string) : M unit := emit_event (Print msg).

(** [sys.exit(code)] *)
Definition sys_exit {A : Type} (code : Z) : M A := raise (SystemExit code).

(** [requests.get(api_url)] *)
Definition requests_get (api_url : string) : M Response :=
  emit_event (HttpGet api_url) ;;
  fun s => (Ret (net s api_url), s).

(** [os.path.exists(p)]: whether [os.stat(p)] succeeds. *)
Definition os_path_exists (p : string) : M bool :=
  f <- get_fs ;;
  ret (match f p with Some _ => true | None => false end).

(** The [OSError] subclass of an error number, with the path name the
    failed call was given. *)
Definition os_error (e : Errno) (p : string) : PyExc :=
  match e with
  | ENOENT => FileNotFoundError p
  | ENOTDIR => NotADirectoryError p
  | EEXIST => FileExistsError p
  | EISDIR => IsADirectoryError p
  end.

(** [os.mkdir(p)] *)
Definition os_mkdir (p : string) : M unit :=
  f <- get_fs ;;
  match sys_mkdir f p with
  | Done f' => put_fs f'
  | Failed e => raise (os_error e p)
  end.

(** [try: m] / [except FileExistsError: pass] *)
Definition except_file_exists (m : M unit) : M unit :=
  fun s =>
    match m s with
    | (Raise (FileExistsError _), s') => (Ret tt, s')
    | r => r
    end.

(** The body of [os.makedirs(name)] with [exist_ok=False] (os.py): make
    the head first when it is missing, then the leaf.  What was made
    stays when a later step fails.  The head is shorter than the name at
    every recursive call, so [fuel] at least the length of the name is
    never used up. *)
Fixpoint makedirs_from (fuel : nat) (name : string) : M unit :=
  match fuel with
  | O => os_mkdir name
  | S fuel' =>
      let (head, tail) := OsPath.split name in
      let (head, tail) :=
        if String.eqb tail "" then OsPath.split head else (head, tail) in
      if negb (String.eqb head "") && negb (String.eqb tail "") then
        present <- os_path_exists head ;;
        if negb present then
          except_file_exists (makedirs_from fuel' head) ;;
          if String.eqb tail "." then ret tt else os_mkdir name
        else os_mkdir name
      else os_mkdir name
  end.

(** [os.makedirs(name)] *)
Definition os_makedirs (name : string) : M unit :=
  emit_event (MakeDirs name) ;;
  makedirs_from (length name) name.

(** [with open(filename, "wb") as fh: fh.write(data)] *)
Definition open_wb_write (filename : string) (data : list byte) : M unit :=
  f <- get_fs ;;
  match sys_open_wb f filename data with
  | Done f' =>
      emit_event (WriteFile filename data) ;;
      put_fs f'
  | Failed e => raise (os_error e filename)
  end.

(** [str(n)] for an integer. *)
Definition str_of_int (n : Z) : string := NilZero.string_of_int (Z.to_int n).

(** [str(h)] for the hash attribute, [None] before the first fetch. *)
Definition str_of_hash (h : option string) : string :=
  match h with Some x => x | None => "None" end.

(** ** [class PipelineModules] *)

(** [PipelineModules.__init__]; [cwd] is what [os.getcwd()] answers. *)
Definition PipelineModules_init (modules_repo_obj : ModulesRepo) (cwd : string)
  : PipelineModules :=
  mkPipelineModules modules_repo_obj cwd [] None [].

(** [self.modules_current_hash = h] *)
Definition set_modules_current_hash (h : string) : M unit :=
  o <- get_self ;;
  put_self (mkPipelineModules (modules_repo o) (pipeline_dir o)
              (modules_file_tree o) (Some h) (modules_avail_module_names o)).

(** [self.modules_file_tree = t] *)
Definition set_modules_file_tree (t : list FileTreeEntry) : M unit :=
  o <- get_self ;;
  put_self (mkPipelineModules (modules_repo o) (pipeline_dir o)
              t (modules_current_hash o) (modules_avail_module_names o)).

(** [self.modules_avail_module_names.append(x)] *)
Definition append_modules_avail_module_names (x : string) : M unit :=
  o <- get_self ;;
  put_self (mkPipelineModules (modules_repo o) (pipeline_dir o)
              (modules_file_tree o) (modules_current_hash o)
              (modules_avail_module_names o ++ [x])%list).

(** The URL of the recursive tree listing of a repository branch. *)
Definition tree_api_url (r : ModulesRepo) : string :=
  "https://api.github.com/repos/" ++ name r ++ "/git/trees/" ++ branch r
  ++ "?recursive=1".

(** The test of the loop of [get_modules_file_tree] on one path. *)
Definition is_module_main (p : string) : bool :=
  PyStr.startswith p "software/"
  && PyStr.endswith p "/main.nf"
  && negb (PyStr.contains "/test/" p).

(** [PipelineModules.get_modules_file_tree] *)
Definition get_modules_file_tree : M unit :=
  o <- get_self ;;
  let api_url := tree_api_url (modules_repo o) in
  r <- requests_get api_url ;;
  (if (status_code r =? 404)%Z then
     logging ERROR
       ("Repository / branch not found: " ++ name (modules_repo o) ++ " ("
        ++ branch (modules_repo o) ++ ")" ++ PyStr.nl ++ api_url) ;;
     sys_exit 1
   else if negb (status_code r =? 200)%Z then
     raise (SystemError
              ("Could not fetch " ++ name (modules_repo o) ++ " ("
               ++ branch (modules_repo o) ++ ") tree: "
               ++ str_of_int (status_code r) ++ PyStr.nl ++ api_url))
   else ret tt) ;;
  match json r with
  | TreeJson tree_sha tree truncated =>
      (if Bool.eqb truncated false then ret tt else raise AssertionError) ;;
      set_modules_current_hash tree_sha ;;
      set_modules_file_tree tree ;;
      for_each tree (fun f =>
        if is_module_main (path f)
        then append_modules_avail_module_names (PyStr.slice (path f) 9 (-8))
        else ret tt)
  | _ => raise (KeyError "truncated")
  end.

(** [PipelineModules.list_modules] *)
Definition list_modules : M PyVal :=
  get_modules_file_tree ;;
  o <- get_self ;;
  (if (0 <? List.length (modules_avail_module_names o))%nat then
     logging INFO
       ("Software available from " ++ name (modules_repo o) ++ " ("
        ++ branch (modules_repo o) ++ "):" ++ PyStr.nl) ;;
     print (PyStr.join PyStr.nl (modules_avail_module_names o))
   else
     logging INFO
       ("No available software found in " ++ name (modules_repo o) ++ " ("
        ++ branch (modules_repo o) ++ "):" ++ PyStr.nl)) ;;
  ret PyNone.

(** The loop of [get_module_file_urls], with [results] as its variable. *)
Fixpoint module_file_urls_loop (tree : list FileTreeEntry) (module : string)
    (results : PyDict.t string) : M (PyDict.t string) :=
  match tree with
  | [] => ret results
  | f :: tree' =>
      if PyStr.startswith (path f) ("software/" ++ module)
         && String.eqb (type_ f) "blob"
      then module_file_urls_loop tree' module (PyDict.set results (path f) (url f))
      else module_file_urls_loop tree' module results
  end.

(** [PipelineModules.get_module_file_urls] *)
Definition get_module_file_urls (module : string) : M (PyDict.t string) :=
  o <- get_self ;;
  module_file_urls_loop (modules_file_tree o) module PyDict.empty.

(** [PipelineModules.download_gh_file] *)
Definition download_gh_file (dl_filename api_url : string) : M PyVal :=
  o <- get_self ;;
  let dl_directory := OsPath.dirname dl_filename in
  present <- os_path_exists dl_directory ;;
  (if negb present then os_makedirs dl_directory else ret tt) ;;
  r <- requests_get api_url ;;
  (if negb (status_code r =? 200)%Z then
     raise (SystemError
              ("Could not fetch " ++ name (modules_repo o) ++ " file: "
               ++ str_of_int (status_code r) ++ PyStr.nl ++ " " ++ api_url))
   else ret tt) ;;
  match json r with
  | BlobJson content =>
      match Base64.b64decode content with
      | Ret file_contents =>
          open_wb_write dl_filename file_contents ;;
          ret PyNone
      | Raise e => raise e
      end
  | _ => raise (KeyError "content")
  end.

(** [PipelineModules.install] *)
Definition install (module : string) : M PyVal :=
  get_modules_file_tree ;;
  o <- get_self ;;
  if negb (PyStr.mem module (modules_avail_module_names o)) then
    logging ERROR ("Module '" ++ module ++ "' not found in list of available modules.") ;;
    logging INFO "Use the command 'nf-core modules list' to view available software" ;;
    ret (PyBool false)
  else
    logging DEBUG
      ("Installing module '" ++ module ++ "' at modules hash "
       ++ str_of_hash (modules_current_hash o)) ;;
    let module_dir := OsPath.join (pipeline_dir o) ["modules"; "software"; module] in
    present <- os_path_exists module_dir ;;
    if present then
      logging ERROR ("Module directory already exists: " ++ module_dir) ;;
      logging INFO "To update an existing module, use the commands 'nf-core update' or 'nf-core fix'" ;;
      ret (PyBool false)
    else
      files <- get_module_file_urls module ;;
      logging DEBUG
        ("Fetching module files:" ++ PyStr.nl ++ " - "
         ++ PyStr.join (PyStr.nl ++ " - ") (PyDict.keys files)) ;;
      for_each (PyDict.items files) (fun item =>
        let dl_filename := OsPath.join (pipeline_dir o) ["modules"; fst item] in
        download_gh_file dl_filename (snd item) ;;
        ret tt) ;;
      ret PyNone.

(** [update], [remove] and [check_modules] only log that they are missing. *)
Definition update (module : string) : M PyVal :=
  logging ERROR "This command is not yet implemented" ;; ret PyNone.

Definition remove (module : string) : M PyVal :=
  logging ERROR "This command is not yet implemented" ;; ret PyNone.

Definition check_modules : M PyVal :=
  logging ERROR "This command is not yet implemented" ;; ret PyNone.

(** ** Specification-side definitions *)

(** Run a method and look at its outcome or at the state it leaves. *)
Definition outcome_of {A : Type} (m : M A) (s : State) : Outcome A := fst (m s).
Definition state_after {A : Type} (m : M A) (s : State) : State := snd (m s).

(** [s = p ++ _], [s = _ ++ p] and [s = _ ++ sub ++ _], the meaning of the
    three string tests. *)
Definition starts_with (s p : string) : Prop := exists t, s = p ++ t.
Definition ends_with (s p : string) : Prop := exists t, s = t ++ p.
Definition has_substring (s sub : string) : Prop := exists a b, s = a ++ sub ++ b.

(** The module names a tree listing gives rise to: the qualifying paths in
    listing order, each without its first 9 and last 8 characters. *)
Definition module_names (tree : list FileTreeEntry) : list string :=
  map (fun f => PyStr.slice (path f) 9 (-8))
      (filter (fun f => is_module_main (path f)) tree).

(** The entries [get_module_file_urls] selects for a module. *)
Definition selected (module : string) (f : FileTreeEntry) : bool :=
  PyStr.startswith (path f) ("software/" ++ module) && String.eqb (type_ f) "blob".

(** The dictionary [get_module_file_urls] builds, as a function of the
    file tree and the module name alone. *)
Definition module_file_urls (tree : list FileTreeEntry) (module : string)
  : PyDict.t string :=
  fold_left
    (fun results f =>
       if selected module f then PyDict.set results (path f) (url f) else results)
    tree PyDict.empty.

(** The last selected entry of the tree that has path [p]. *)
Definition last_selected (tree : list FileTreeEntry) (module p : string)
  : option FileTreeEntry :=
  find (fun f => selected module f && String.eqb (path f) p) (rev tree).

Definition is_log (e : Event) : bool :=
  match e with Log _ _ => true | _ => false end.

Definition is_http_get (e : Event) : bool :=
  match e with HttpGet _ => true | _ => false end.

Definition touches_files (e : Event) : bool :=
  match e with MakeDirs _ | WriteFile _ _ => true | _ => false end.

(** The directory [install] refuses to overwrite. *)
Definition module_dir (o : PipelineModules) (module : string) : string :=
  OsPath.join (pipeline_dir o) ["modules"; "software"; module].

(** The object [get_modules_file_tree] leaves after a successful fetch. *)
Definition fetched (o : PipelineModules) (tree_sha : string)
    (tree : list FileTreeEntry) : PipelineModules :=
  mkPipelineModules (modules_repo o) (pipeline_dir o) tree (Some tree_sha)
    (modules_avail_module_names o ++ module_names tree)%list.

(** The first step of [download_gh_file]: make the directory of the file
    if it does not exist. *)
Definition make_target_directory (dl_filename : string) : M unit :=
  let dl_directory := OsPath.dirname dl_filename in
  present <- os_path_exists dl_directory ;;
  if negb present then os_makedirs dl_directory else ret tt.

(** The rest of [download_gh_file], once the directory is seen to: the
    request, the decoding and the write.  [o] is the object the method
    was called on. *)
Definition fetch_and_write (o : PipelineModules) (dl_filename api_url : string)
  : M PyVal :=
  r <- requests_get api_url ;;
  (if negb (status_code r =? 200)%Z then
     raise (SystemError
              ("Could not fetch " ++ name (modules_repo o) ++ " file: "
               ++ str_of_int (status_code r) ++ PyStr.nl ++ " " ++ api_url))
   else ret tt) ;;
  match json r with
  | BlobJson content =>
      match Base64.b64decode content with
      | Ret file_contents =>
          open_wb_write dl_filename file_contents ;;
          ret PyNone
      | Raise e => raise e
      end
  | _ => raise (KeyError "content")
  end.

(** Everything that has a name in [f] has it in [f'], and leads to the
    same place. *)
Definition keeps (f f' : FileSystem) : Prop :=
  cwd f' = cwd f
  /\ forall p n, f p = Some n -> f' p = Some n /\ place f' p = place f p.

(** A state that differs from [s] at most by directories made. *)
Definition grows (s s' : State) : Prop :=
  self s' = self s /\ net s' = net s /\ trace s' = trace s
  /\ keeps (fs s) (fs s').


(** *** A small repository used in the examples *)

Definition blob_url (n : string) : string :=
  "https://api.github.com/repos/nf-core/modules/git/blobs/" ++ n.

Definition demo_tree : list FileTreeEntry :=
  [ mkEntry "README.md" "blob" (blob_url "00") "00";
    mkEntry "software" "tree" "https://api.github.com/repos/nf-core/modules/git/trees/01" "01";
    mkEntry "software/fastqc" "tree" "https://api.github.com/repos/nf-core/modules/git/trees/02" "02";
    mkEntry "software/fastqc/main.nf" "blob" (blob_url "03") "03";
    mkEntry "software/fastqc/meta.yml" "blob" (blob_url "04") "04";
    mkEntry "software/fastqc/test" "tree" "https://api.github.com/repos/nf-core/modules/git/trees/05" "05";
    mkEntry "software/fastqc/test/main.nf" "blob" (blob_url "06") "06";
    mkEntry "software/samtools/sort/main.nf" "blob" (blob_url "07") "07" ].

(** The bytes of [Hi!] followed by a line feed and a zero byte. *)
Definition demo_bytes : list byte := [x48; x69; x21; x0a; x00].

Definition demo_net (truncated : bool) (api_url : string) : Response :=
  if String.eqb api_url (tree_api_url ModulesRepo_default)
  then mkResponse 200 (TreeJson "5f1e0a" demo_tree truncated)
  else if PyStr.startswith api_url (blob_url "")
  then mkResponse 200 (BlobJson (Base64.b64encode demo_bytes))
  else mkResponse 404 OtherJson.

(** A network that answers every request with the given status. *)
Definition failing_net (code : Z) (api_url : string) : Response :=
  mkResponse code OtherJson.

(** A file system given by the list of its places. *)
Definition fs_of_list (l : list (Key * Node)) (wd : Key) : FileSystem :=
  mkFileSystem
    (fun k => option_map snd (find (fun e => key_eqb (fst e) k) l)) wd.

(** Nothing but the working directory [/work]. *)
Definition demo_fs : FileSystem := fs_of_list [ (["work"], Dir) ] ["work"].

(** The working directory already holds [modules/software/fastqc]. *)
Definition demo_fs_installed : FileSystem :=
  fs_of_list
    [ (["work"], Dir);
      (["work"; "modules"], Dir);
      (["work"; "modules"; "software"], Dir);
      (["work"; "modules"; "software"; "fastqc"], Dir);
      (["work"; "modules"; "software"; "fastqc"; "main.nf"], File [x6f; x6c; x64]) ]
    ["work"].

(** The working directory holds a file of the user. *)
Definition demo_fs_notes : FileSystem :=
  fs_of_list
    [ (["work"], Dir);
      (["work"; "notes.txt"], File [x6f; x6c; x64]) ]
    ["work"].

Definition demo_state (f : FileSystem) (n : string -> Response) : State :=
  mkState (PipelineModules_init ModulesRepo_default "/work") f n [].

(** Two listing entries with the same path and different addresses. *)
Definition twin_tree : list FileTreeEntry :=
  [ mkEntry "software/fastqc/main.nf" "blob" (blob_url "0a") "0a";
    mkEntry "software/fastqc/main.nf" "blob" (blob_url "0b") "0b" ].

(** A listing where the module [foo] has a neighbour [foobar]. *)
Definition foobar_tree : list FileTreeEntry :=
  [ mkEntry "software/foobar/main.nf" "blob" (blob_url "0c") "0c" ].

(** An object that already holds the listing [tree]. *)
Definition state_with_tree (tree : list FileTreeEntry) (f : FileSystem) : State :=
  mkState
    (mkPipelineModules ModulesRepo_default "/work" tree (Some "5f1e0a")
       (module_names tree))
    f (demo_net false) [].

(** ** Definitions for the properties beyond the listed ones *)

(** Where [install] puts the file of a listing path. *)
Definition install_target (o : PipelineModules) (p : string) : string :=
  OsPath.join (pipeline_dir o) ["modules"; p].

(** What one call of [download_gh_file] may add to the trace. *)
Definition download_event (dl_filename api_url : string) (e : Event) : Prop :=
  e = MakeDirs (OsPath.dirname dl_filename)
  \/ e = HttpGet api_url
  \/ exists data, e = WriteFile dl_filename data.



(** The two attributes no method assigns. *)
Definition same_identity (o o' : PipelineModules) : Prop :=
  modules_repo o' = modules_repo o /\ pipeline_dir o' = pipeline_dir o.

(** A listing whose only module entry is not a blob, and a network that
    serves it. *)
Definition ghost_tree : list FileTreeEntry :=
  [ mkEntry "software/ghost/main.nf" "tree"
      "https://api.github.com/repos/nf-core/modules/git/trees/0d" "0d" ].

Definition ghost_net (api_url : string) : Response :=
  if String.eqb api_url (tree_api_url ModulesRepo_default)
  then mkResponse 200 (TreeJson "77aa01" ghost_tree false)
  else mkResponse 404 OtherJson.


(** The demo network with every blob request refused. *)
Definition demo_net_no_blobs (api_url : string) : Response :=
  if String.eqb api_url (tree_api_url ModulesRepo_default)
  then mkResponse 200 (TreeJson "5f1e0a" demo_tree false)
  else mkResponse 403 OtherJson.

(** The demo network with only the first file of [fastqc] served. *)
Definition demo_net_main_only (api_url : string) : Response :=
  if String.eqb api_url (blob_url "03")
     || String.eqb api_url (tree_api_url ModulesRepo_default)
  then demo_net false api_url
  else mkResponse 500 OtherJson.

(** A network whose blob content stops in the middle of a group. *)
Definition demo_net_bad_content (api_url : string) : Response :=
  mkResponse 200 (BlobJson "SGk").

(** Every name of [f] names something of the same kind in [f'], at the
    same place: nothing is removed, no file becomes a directory and no
    directory a file. *)
Definition evolves (f f' : FileSystem) : Prop :=
  cwd f' = cwd f
  /\ forall p n, f p = Some n ->
       place f' p = place f p
       /\ match n with
          | Dir => f' p = Some Dir
          | File _ => exists content, f' p = Some (File content)
          end.

(** Whether the path name [t] leads to the place [k]. *)
Definition leads_to (f : FileSystem) (k : Key) (t : string) : bool :=
  match place f t with
  | Some k' => key_eqb k' k
  | None => false
  end.

(** The bytes of the last write, among the events [new], through a name
    that leads to the place [k]. *)
Definition last_written (f : FileSystem) (k : Key) (new : list Event)
  : option (list byte) :=
  fold_left
    (fun acc e =>
       match e with
       | WriteFile t data => if leads_to f k t then Some data else acc
       | _ => acc
       end)
    new None.

(** What the events [new] of a run from [s] to [s'] did to the file
    system: nothing is removed; a name that named something reads the
    bytes of the last write that led to its place, and what it named
    before if there was none; and every name written through names a
    file that holds the bytes of the last write that led to its place. *)
Definition written_stays (s : State) (new : list Event) (s' : State) : Prop :=
  evolves (fs s) (fs s')
  /\ (forall q n k, fs s q = Some n -> place (fs s') q = Some k ->
        fs s' q
        = match last_written (fs s') k new with
          | Some data => Some (File data)
          | None => Some n
          end)
  /\ (forall t data, In (WriteFile t data) new ->
        exists k data',
          place (fs s') t = Some k
          /\ last_written (fs s') k new = Some data'
          /\ fs s' t = Some (File data')).

















(** * Facts about the string primitives *)

Section StringFacts.

Lemma append_empty_r (s : string) : s ++ "" = s.
Proof. induction s as [|c s IH]; simpl; [reflexivity | now rewrite IH]. Qed.

Lemma append_assoc (a b c : string) : (a ++ b) ++ c = a ++ b ++ c.
Proof. induction a as [|x a IH]; simpl; [reflexivity | now rewrite IH]. Qed.

Lemma length_append (a b : string) : length (a ++ b) = length a + length b.
Proof. induction a as [|x a IH]; simpl; [reflexivity | now rewrite IH]. Qed.

Lemma substring_zero_length (s : string) (n : nat) : substring n 0 s = "".
Proof.
  revert s; induction n as [|n IH]; intros [|c s]; simpl; auto.
Qed.

Lemma substring_all (s : string) : substring 0 (length s) s = s.
Proof. induction s as [|c s IH]; simpl; [reflexivity | now rewrite IH]. Qed.

Lemma substring_prefix (p t : string) : substring 0 (length p) (p ++ t) = p.
Proof.
  induction p as [|c p IH]; simpl.
  - apply (substring_zero_length t 0).
  - now rewrite IH.
Qed.

Lemma substring_skip (a b : string) (m : nat) :
  substring (length a) m (a ++ b) = substring 0 m b.
Proof. induction a as [|c a IH]; simpl; auto. Qed.

Lemma substring_suffix (t p : string) :
  substring (length t) (length p) (t ++ p) = p.
Proof. rewrite substring_skip. apply substring_all. Qed.

(** A string is its first [n] characters followed by the rest. *)
Lemma substring_split (s : string) (n : nat) :
  n <= length s ->
  s = substring 0 n s ++ substring n (length s - n) s.
Proof.
  revert s; induction n as [|n IH]; intros s Hn.
  - rewrite (substring_zero_length s 0). simpl.
    rewrite Nat.sub_0_r. symmetry; apply substring_all.
  - destruct s as [|c s]; simpl in *; [lia|].
    f_equal. apply IH. lia.
Qed.

Lemma startswith_iff (s p : string) :
  PyStr.startswith s p = true <-> starts_with s p.
Proof.
  unfold starts_with. revert s; induction p as [|c p IH]; intros s; simpl.
  - split; [intros _; now exists s | reflexivity].
  - destruct s as [|d s].
    + split; [discriminate | intros [t Ht]; discriminate].
    + rewrite andb_true_iff, Ascii.eqb_eq, IH. split.
      * intros [-> [t ->]]. now exists t.
      * intros [t Ht]. injection Ht as -> ->. split; [reflexivity | now exists t].
Qed.

Lemma startswith_append (p t : string) : PyStr.startswith (p ++ t) p = true.
Proof. apply startswith_iff. now exists t. Qed.

Lemma endswith_iff (s p : string) :
  PyStr.endswith s p = true <-> ends_with s p.
Proof.
  unfold PyStr.endswith, ends_with.
  rewrite andb_true_iff, Nat.leb_le, String.eqb_eq. split.
  - intros [Hlen Hsub].
    exists (substring 0 (length s - length p) s).
    etransitivity; [apply (substring_split s (length s - length p)); lia|].
    f_equal.
    replace (length s - (length s - length p)) with (length p) by lia.
    exact Hsub.
  - intros [t ->]. rewrite length_append. split; [lia|].
    replace (length t + length p - length p) with (length t) by lia.
    apply substring_suffix.
Qed.

Lemma contains_iff (sub s : string) :
  PyStr.contains sub s = true <-> has_substring s sub.
Proof.
  unfold has_substring. induction s as [|c s IH].
  - simpl. rewrite orb_false_r, startswith_iff. split.
    + intros [t Ht]. exists "", t. exact Ht.
    + intros [a [b Hab]]. destruct a; simpl in Hab.
      * now exists b.
      * discriminate.
  - cbn [PyStr.contains]. rewrite orb_true_iff, startswith_iff, IH. split.
    + intros [[t Ht] | [a [b Hab]]].
      * exists "", t. exact Ht.
      * exists (String c a), b. simpl. now rewrite Hab.
    + intros [a [b Hab]]. destruct a as [|d a]; simpl in Hab.
      * left. now exists b.
      * right. injection Hab as _ Hs. now exists a, b.
Qed.

(** A slice that drops [a] in front and a non-empty [b] behind. *)
Lemma slice_middle (a m b : string) :
  b <> "" ->
  PyStr.slice (a ++ m ++ b) (Z.of_nat (length a)) (- Z.of_nat (length b)) = m.
Proof.
  intros Hb. unfold PyStr.slice, PyStr.slice_bound.
  rewrite !length_append.
  assert (0 < length b) by (destruct b; simpl; [congruence | lia]).
  destruct (Z.ltb_spec (Z.of_nat (length a)) 0); [lia|].
  destruct (Z.ltb_spec (- Z.of_nat (length b)) 0); [|lia].
  replace (Z.to_nat (Z.max 0 (Z.min (Z.of_nat (length a + (length m + length b)))
                                (Z.of_nat (length a))))) with (length a) by lia.
  match goal with |- substring _ ?n _ = _ =>
    replace n with (length m) by lia end.
  rewrite substring_skip. apply substring_prefix.
Qed.

(** What the slice [[9:-8]] keeps of a path that passes the test: the
    module name between [software/] and [/main.nf]; the two overlap in
    one path only, which gives the empty name. *)
Lemma is_module_main_shape (p : string) :
  is_module_main p = true ->
  p = "software/" ++ PyStr.slice p 9 (-8) ++ "/main.nf"
  \/ (p = "software/main.nf" /\ PyStr.slice p 9 (-8) = "").
Proof.
  unfold is_module_main. rewrite !andb_true_iff.
  intros [[Hpre Hsuf] _].
  apply startswith_iff in Hpre. destruct Hpre as [t ->].
  apply endswith_iff in Hsuf. destruct Hsuf as [u Hu].
  destruct (Nat.le_gt_cases 8 (length t)) as [Hlen|Hlen].
  - left.
    assert (Ht : exists m, t = m ++ "/main.nf").
    { assert (E : PyStr.endswith t "/main.nf" = true).
      { assert (E0 : PyStr.endswith ("software/" ++ t) "/main.nf" = true)
          by (apply endswith_iff; now exists u).
        unfold PyStr.endswith in *.
        rewrite andb_true_iff, Nat.leb_le, String.eqb_eq in *.
        destruct E0 as [_ E0]. split; [exact Hlen|].
        rewrite length_append in E0.
        change (length "software/") with 9 in E0.
        replace (9 + length t - length "/main.nf")
          with (length "software/" + (length t - length "/main.nf")) in E0
          by (simpl; lia).
        do 9 (simpl in E0). exact E0. }
      apply endswith_iff in E. exact E. }
    destruct Ht as [m ->].
    assert (E := slice_middle "software/" m "/main.nf" ltac:(discriminate)).
    change (Z.of_nat (length "software/")) with 9%Z in E.
    change (- Z.of_nat (length "/main.nf"))%Z with (-8)%Z in E.
    rewrite E. reflexivity.
  - right.
    assert (length ("software/" ++ t) = length (u ++ "/main.nf")) by now rewrite Hu.
    rewrite !length_append in H. simpl in H.
    destruct t as [|t1 [|t2 [|t3 [|t4 [|t5 [|t6 [|t7 [|t8 t]]]]]]]];
      simpl in Hlen; try lia;
      destruct u as [|u1 [|u2 [|u3 [|u4 [|u5 [|u6 [|u7 [|u8 [|u9 u]]]]]]]]];
      simpl in H; try lia; simpl in Hu; try discriminate.
    injection Hu; intros; subst. split; reflexivity.
Qed.

End StringFacts.

(** * The tree fetch *)

Ltac run_step :=
  unfold bind, ret, raise, get_self, put_self, get_fs, put_fs, emit_event,
    logging, print, sys_exit, requests_get; simpl.

(** The loop over the listing appends the names of the qualifying paths
    and touches nothing else. *)
Lemma names_loop_run (tree : list FileTreeEntry) (o : PipelineModules)
    (f : FileSystem) (n : string -> Response) (t : list Event) :
  for_each tree
    (fun e =>
       if is_module_main (path e)
       then append_modules_avail_module_names (PyStr.slice (path e) 9 (-8))
       else ret tt)
    (mkState o f n t)
  = (Ret tt,
     mkState (mkPipelineModules (modules_repo o) (pipeline_dir o)
                (modules_file_tree o) (modules_current_hash o)
                (modules_avail_module_names o ++ module_names tree)%list)
       f n t).
Proof.
  revert o. induction tree as [|e tree IH]; intros o.
  - unfold module_names; simpl. unfold ret. rewrite app_nil_r.
    destruct o; reflexivity.
  - cbn [for_each]. unfold bind at 1.
    unfold module_names; cbn [filter map].
    destruct (is_module_main (path e)).
    + unfold append_modules_avail_module_names; run_step.
      rewrite IH. cbn. rewrite <- app_assoc. reflexivity.
    + unfold ret at 1. rewrite IH. reflexivity.
Qed.

(** A 200 answer with an untruncated listing: the call returns, stores the
    listing and its hash, and appends the derived names. *)
Lemma get_modules_file_tree_ok (s : State) (tree_sha : string)
    (tree : list FileTreeEntry) :
  net s (tree_api_url (modules_repo (self s)))
  = mkResponse 200 (TreeJson tree_sha tree false) ->
  get_modules_file_tree s
  = (Ret tt,
     mkState (fetched (self s) tree_sha tree) (fs s) (net s)
       (trace s ++ [HttpGet (tree_api_url (modules_repo (self s)))])%list).
Proof.
  intros Hnet. unfold get_modules_file_tree. run_step. rewrite Hnet. simpl.
  unfold set_modules_current_hash, set_modules_file_tree. run_step.
  rewrite names_loop_run. reflexivity.
Qed.

(** Every other answer: the call raises and the object is as before. *)
Lemma get_modules_file_tree_raises (s : State) :
  let r := net s (tree_api_url (modules_repo (self s))) in
  (status_code r =? 200)%Z
  && match json r with TreeJson _ _ false => true | _ => false end = false ->
  exists e,
    outcome_of get_modules_file_tree s = Raise e
    /\ self (state_after get_modules_file_tree s) = self s
    /\ fs (state_after get_modules_file_tree s) = fs s.
Proof.
  intros r H. unfold outcome_of, state_after, get_modules_file_tree. run_step.
  fold r. destruct (Z.eqb_spec (status_code r) 404) as [E|E].
  - eexists; repeat split.
  - destruct (Z.eqb_spec (status_code r) 200) as [E2|E2]; simpl in *.
    + destruct (json r) as [h tr []| |]; simpl; try discriminate;
        eexists; repeat split.
    + eexists; repeat split.
Qed.

(** Two fetches in a row with the same answer: listing and hash are those
    of one fetch, the names are there twice. *)
Lemma get_modules_file_tree_twice (s : State) (tree_sha : string)
    (tree : list FileTreeEntry) :
  net s (tree_api_url (modules_repo (self s)))
  = mkResponse 200 (TreeJson tree_sha tree false) ->
  let s1 := state_after get_modules_file_tree s in
  let s2 := state_after get_modules_file_tree s1 in
  modules_file_tree (self s2) = modules_file_tree (self s1)
  /\ modules_current_hash (self s2) = modules_current_hash (self s1)
  /\ modules_avail_module_names (self s2)
     = (modules_avail_module_names (self s1) ++ module_names tree)%list.
Proof.
  intros Hnet s1 s2. subst s2 s1. unfold state_after.
  rewrite (get_modules_file_tree_ok s tree_sha tree Hnet). simpl.
  rewrite (get_modules_file_tree_ok _ tree_sha tree) by exact Hnet.
  simpl. repeat split.
Qed.

(** C1: after a successful fetch the available module names are the
    names of the listing entries whose path starts with [software/], ends
    with [/main.nf] and has no [/test/] in it, each name being the path
    without its first 9 and last 8 characters, in listing order; all other
    entries give no name.  The call appends them to the names the object
    holds, which are none for an object as constructed.  A qualifying
    path is [software/], the name, [/main.nf]; only in [software/main.nf]
    do the two overlap, and the name is empty. *)
Theorem C1_available_module_names (s : State) (tree_sha : string)
    (tree : list FileTreeEntry) :
  net s (tree_api_url (modules_repo (self s)))
  = mkResponse 200 (TreeJson tree_sha tree false) ->
  let qualifies (f : FileTreeEntry) :=
    PyStr.startswith (path f) "software/"
    && PyStr.endswith (path f) "/main.nf"
    && negb (PyStr.contains "/test/" (path f)) in
  let names := map (fun f => PyStr.slice (path f) 9 (-8)) (filter qualifies tree) in
  let s' := state_after get_modules_file_tree s in
  outcome_of get_modules_file_tree s = Ret tt
  /\ modules_avail_module_names (self s')
     = (modules_avail_module_names (self s) ++ names)%list
  /\ (modules_avail_module_names (self s) = [] ->
      modules_avail_module_names (self s') = names)
  /\ (forall f, qualifies f = true <->
        starts_with (path f) "software/" /\ ends_with (path f) "/main.nf"
        /\ ~ has_substring (path f) "/test/")
  /\ (forall f, qualifies f = true ->
        path f = "software/" ++ PyStr.slice (path f) 9 (-8) ++ "/main.nf"
        \/ (path f = "software/main.nf" /\ PyStr.slice (path f) 9 (-8) = "")).
Proof.
  intros Hnet qualifies names s'. subst s'.
  unfold outcome_of, state_after.
  rewrite (get_modules_file_tree_ok s tree_sha tree Hnet). simpl.
  split; [reflexivity|]. split; [reflexivity|]. split; [|split].
  - intros ->. reflexivity.
  - intros f. unfold qualifies.
    rewrite !andb_true_iff, negb_true_iff, startswith_iff, endswith_iff.
    rewrite <- contains_iff, not_true_iff_false. tauto.
  - intros f Hq. apply is_module_main_shape. exact Hq.
Qed.

Lemma C1_available_module_names_witness :
  modules_avail_module_names
    (self (state_after get_modules_file_tree (demo_state demo_fs (demo_net false))))
  = ["fastqc"; "samtools/sort"].
Proof.
  destruct (C1_available_module_names (demo_state demo_fs (demo_net false))
              "5f1e0a" demo_tree eq_refl) as (_ & _ & H & _).
  rewrite (H eq_refl). reflexivity.
Defined.

(** C2: on the demo repository a second fetch with the same answer keeps
    listing and hash but leaves every module name twice in
    [modules_avail_module_names], where one fetch leaves it once. *)
Theorem C2_second_fetch_repeats_names :
  let s1 := state_after get_modules_file_tree (demo_state demo_fs (demo_net false)) in
  let s2 := state_after get_modules_file_tree s1 in
  modules_avail_module_names (self s1) = ["fastqc"; "samtools/sort"]
  /\ modules_avail_module_names (self s2)
     = ["fastqc"; "samtools/sort"; "fastqc"; "samtools/sort"]
  /\ modules_file_tree (self s2) = modules_file_tree (self s1)
  /\ modules_current_hash (self s2) = modules_current_hash (self s1).
Proof. vm_compute. repeat split. Qed.

(** C7: how the tree fetch ends.  A 404 answer logs an error and raises
    [SystemExit 1], which ends the process; any other status but 200
    raises [SystemError]; a 200 answer with a truncated listing fails the
    assertion; in all three the object is unchanged.  A 200 answer with an
    untruncated listing returns and stores hash and listing; and the call
    returns only for such an answer. *)
Theorem C7_tree_fetch_outcomes (s : State) :
  let r := net s (tree_api_url (modules_repo (self s))) in
  let s' := state_after get_modules_file_tree s in
  (status_code r = 404%Z ->
     outcome_of get_modules_file_tree s = Raise (SystemExit 1)
     /\ self s' = self s)
  /\ (status_code r <> 404%Z -> status_code r <> 200%Z ->
     (exists msg, outcome_of get_modules_file_tree s = Raise (SystemError msg))
     /\ self s' = self s)
  /\ (forall tree_sha tree,
        status_code r = 200%Z -> json r = TreeJson tree_sha tree true ->
        outcome_of get_modules_file_tree s = Raise AssertionError
        /\ self s' = self s)
  /\ (forall tree_sha tree,
        status_code r = 200%Z -> json r = TreeJson tree_sha tree false ->
        outcome_of get_modules_file_tree s = Ret tt
        /\ self s' = fetched (self s) tree_sha tree)
  /\ (outcome_of get_modules_file_tree s = Ret tt \/ self s' <> self s ->
      status_code r = 200%Z /\ exists tree_sha tree, json r = TreeJson tree_sha tree false).
Proof.
  intros r s'. subst s'. repeat split.
  - unfold outcome_of, get_modules_file_tree. run_step. fold r. rewrite H. reflexivity.
  - unfold state_after, get_modules_file_tree. run_step. fold r. rewrite H. reflexivity.
  - unfold outcome_of, get_modules_file_tree. run_step. fold r.
    destruct (Z.eqb_spec (status_code r) 404); [contradiction|].
    destruct (Z.eqb_spec (status_code r) 200); [contradiction|].
    simpl. eexists; reflexivity.
  - unfold state_after, get_modules_file_tree. run_step. fold r.
    destruct (Z.eqb_spec (status_code r) 404); [contradiction|].
    destruct (Z.eqb_spec (status_code r) 200); [contradiction|].
    reflexivity.
  - unfold outcome_of, get_modules_file_tree. run_step. fold r.
    rewrite H, H0. reflexivity.
  - unfold state_after, get_modules_file_tree. run_step. fold r.
    rewrite H, H0. reflexivity.
  - unfold outcome_of.
    rewrite (get_modules_file_tree_ok s tree_sha tree); [reflexivity|].
    fold r. destruct r as [c j]; simpl in *; subst; reflexivity.
  - unfold state_after.
    rewrite (get_modules_file_tree_ok s tree_sha tree); [reflexivity|].
    fold r. destruct r as [c j]; simpl in *; subst; reflexivity.
  - destruct (Z.eqb_spec (status_code r) 200) as [E|E]; [exact E|].
    destruct (get_modules_file_tree_raises s) as (e & He & Hs & _).
    { fold r. apply Z.eqb_neq in E. rewrite E. reflexivity. }
    destruct H as [H|H]; [congruence | contradiction].
  - destruct ((status_code r =? 200)%Z
              && match json r with TreeJson _ _ false => true | _ => false end)
      eqn:E.
    + apply andb_true_iff in E. destruct E as [_ E].
      destruct (json r) as [h tr []| |]; try discriminate. now exists h, tr.
    + destruct (get_modules_file_tree_raises s E) as (e & He & Hs & _).
      destruct H as [H|H]; [congruence | contradiction].
Qed.

Lemma C7_tree_fetch_outcomes_witness :
  outcome_of get_modules_file_tree (demo_state demo_fs (failing_net 404))
  = Raise (SystemExit 1)
  /\ (exists msg,
        outcome_of get_modules_file_tree (demo_state demo_fs (failing_net 500))
        = Raise (SystemError msg))
  /\ outcome_of get_modules_file_tree (demo_state demo_fs (demo_net true))
     = Raise AssertionError
  /\ outcome_of get_modules_file_tree (demo_state demo_fs (demo_net false)) = Ret tt.
Proof.
  split; [|split; [|split]].
  - apply (C7_tree_fetch_outcomes (demo_state demo_fs (failing_net 404))).
    reflexivity.
  - apply (C7_tree_fetch_outcomes (demo_state demo_fs (failing_net 500)));
      simpl; lia.
  - apply (proj1 (proj2 (proj2 (C7_tree_fetch_outcomes
                                  (demo_state demo_fs (demo_net true)))))
             "5f1e0a" demo_tree); reflexivity.
  - apply (proj1 (proj2 (proj2 (proj2 (C7_tree_fetch_outcomes
                                  (demo_state demo_fs (demo_net false))))))
             "5f1e0a" demo_tree); reflexivity.
Defined.

(** * The files of a module *)

Module PyDictFacts.

Lemma get_set_same {V : Type} (d : PyDict.t V) (k : string) (v : V) :
  PyDict.get (PyDict.set d k v) k = Some v.
Proof.
  induction d as [|[k' v'] d IH]; simpl.
  - now rewrite String.eqb_refl.
  - destruct (String.eqb_spec k' k) as [->|Hne]; simpl.
    + now rewrite String.eqb_refl.
    + destruct (String.eqb_spec k' k); [contradiction | exact IH].
Qed.

Lemma get_set_other {V : Type} (d : PyDict.t V) (k k0 : string) (v : V) :
  k <> k0 -> PyDict.get (PyDict.set d k v) k0 = PyDict.get d k0.
Proof.
  intros Hne. induction d as [|[k' v'] d IH]; simpl.
  - destruct (String.eqb_spec k k0); [contradiction | reflexivity].
  - destruct (String.eqb_spec k' k) as [->|Hk]; simpl.
    + destruct (String.eqb_spec k k0); [contradiction | reflexivity].
    + destruct (String.eqb_spec k' k0); [reflexivity | exact IH].
Qed.

Lemma get_set {V : Type} (d : PyDict.t V) (k k0 : string) (v : V) :
  PyDict.get (PyDict.set d k v) k0
  = if String.eqb k k0 then Some v else PyDict.get d k0.
Proof.
  destruct (String.eqb_spec k k0) as [->|Hne].
  - apply get_set_same.
  - now apply get_set_other.
Qed.

(** A key is listed exactly when it has a value. *)
Lemma in_keys_iff {V : Type} (d : PyDict.t V) (k : string) :
  In k (PyDict.keys d) <-> PyDict.get d k <> None.
Proof.
  unfold PyDict.keys. induction d as [|[k' v'] d IH]; simpl.
  - tauto.
  - destruct (String.eqb_spec k' k) as [->|Hne].
    + split; [discriminate | now left].
    + rewrite <- IH. split; [intros [?|?]; [contradiction | assumption] | now right].
Qed.

(** Assignment never lists a key twice. *)
Lemma keys_set_nodup {V : Type} (d : PyDict.t V) (k : string) (v : V) :
  NoDup (PyDict.keys d) -> NoDup (PyDict.keys (PyDict.set d k v)).
Proof.
  unfold PyDict.keys. induction d as [|[k' v'] d IH]; simpl; intros Hnd.
  - constructor; [intros [] | constructor].
  - destruct (String.eqb_spec k' k) as [->|Hne]; simpl; [exact Hnd|].
    inversion Hnd as [|? ? Hnotin Hnd']; subst. constructor.
    + intros Hin. apply Hnotin.
      apply (in_keys_iff d k'). apply (in_keys_iff (PyDict.set d k v) k') in Hin.
      rewrite get_set_other in Hin by congruence. exact Hin.
    + now apply IH.
Qed.

End PyDictFacts.

(** The loop of [get_module_file_urls] is a fold over the listing and
    leaves the state alone. *)
Lemma module_file_urls_loop_run (tree : list FileTreeEntry) (module : string)
    (results : PyDict.t string) (s : State) :
  module_file_urls_loop tree module results s
  = (Ret (fold_left
            (fun results f =>
               if selected module f
               then PyDict.set results (path f) (url f) else results)
            tree results),
     s).
Proof.
  revert results. induction tree as [|f tree IH]; intros results;
    cbn [module_file_urls_loop fold_left].
  - reflexivity.
  - change (PyStr.startswith (path f) ("software/" ++ module)
            && String.eqb (type_ f) "blob")
      with (selected module f).
    destruct (selected module f); apply IH.
Qed.

Lemma get_module_file_urls_run (module : string) (s : State) :
  get_module_file_urls module s
  = (Ret (module_file_urls (modules_file_tree (self s)) module), s).
Proof.
  unfold get_module_file_urls, bind, get_self.
  apply module_file_urls_loop_run.
Qed.

Lemma find_snoc {A : Type} (p : A -> bool) (l : list A) (x : A) :
  find p (l ++ [x])
  = match find p l with
    | Some y => Some y
    | None => if p x then Some x else None
    end.
Proof.
  induction l as [|y l IH]; simpl; [reflexivity|].
  destruct (p y); [reflexivity | exact IH].
Qed.

(** What the fold stores under a key: the address of the last selected
    entry with that path, or what was stored before. *)
Lemma fold_urls_get (tree : list FileTreeEntry) (module p : string)
    (d0 : PyDict.t string) :
  PyDict.get
    (fold_left
       (fun results f =>
          if selected module f
          then PyDict.set results (path f) (url f) else results)
       tree d0) p
  = match last_selected tree module p with
    | Some f => Some (url f)
    | None => PyDict.get d0 p
    end.
Proof.
  unfold last_selected. revert d0.
  induction tree as [|f tree IH]; intros d0; simpl; [reflexivity|].
  rewrite IH, find_snoc.
  destruct (find _ (rev tree)); [reflexivity|].
  destruct (selected module f); simpl; [|reflexivity].
  rewrite PyDictFacts.get_set.
  destruct (String.eqb (path f) p); reflexivity.
Qed.

Lemma module_file_urls_get (tree : list FileTreeEntry) (module p : string) :
  PyDict.get (module_file_urls tree module) p
  = option_map url (last_selected tree module p).
Proof.
  unfold module_file_urls. rewrite fold_urls_get.
  destruct (last_selected tree module p); reflexivity.
Qed.

Lemma selected_iff (module : string) (f : FileTreeEntry) :
  selected module f = true
  <-> starts_with (path f) ("software/" ++ module) /\ type_ f = "blob".
Proof.
  unfold selected. now rewrite andb_true_iff, startswith_iff, String.eqb_eq.
Qed.

(** The last selected entry with path [p] exists exactly when some
    selected entry has path [p]; it is selected and has that path. *)
Lemma last_selected_some (tree : list FileTreeEntry) (module p : string)
    (f : FileTreeEntry) :
  last_selected tree module p = Some f ->
  In f tree /\ selected module f = true /\ path f = p.
Proof.
  unfold last_selected. intros H. apply find_some in H.
  destruct H as [Hin H]. apply andb_true_iff in H. destruct H as [H1 H2].
  apply String.eqb_eq in H2. apply in_rev in Hin. auto.
Qed.

Lemma last_selected_none (tree : list FileTreeEntry) (module p : string) :
  last_selected tree module p = None ->
  forall f, In f tree -> selected module f = true -> path f <> p.
Proof.
  unfold last_selected. intros H f Hin Hsel Hp.
  assert (Hf := find_none _ _ H f (proj1 (in_rev tree f) Hin)).
  simpl in Hf. rewrite Hsel in Hf. simpl in Hf.
  apply String.eqb_neq in Hf. contradiction.
Qed.

Lemma find_app {A : Type} (p : A -> bool) (l1 l2 : list A) :
  find p (l1 ++ l2)
  = match find p l1 with
    | Some y => Some y
    | None => find p l2
    end.
Proof.
  induction l1 as [|y l1 IH]; simpl; [reflexivity|].
  destruct (p y); [reflexivity | exact IH].
Qed.

Lemma find_all_false {A : Type} (p : A -> bool) (l : list A) :
  (forall x, In x l -> p x = false) -> find p l = None.
Proof.
  induction l as [|y l IH]; simpl; intros H; [reflexivity|].
  rewrite (H y) by now left. apply IH. intros x Hx. apply H. now right.
Qed.

(** The first hit from the back of a list splits it: the hit, and behind
    it no further hit. *)
Lemma find_rev_iff {A : Type} (p : A -> bool) (l : list A) (x : A) :
  find p (rev l) = Some x
  <-> exists before after,
        l = (before ++ x :: after)%list /\ p x = true
        /\ forall y, In y after -> p y = false.
Proof.
  split.
  - revert x. induction l as [|a l IH]; intros x; simpl; [discriminate|].
    rewrite find_snoc. destruct (find p (rev l)) as [y|] eqn:E.
    + intros H. injection H as ->.
      destruct (IH x eq_refl) as (b & c & -> & Hp & Hc).
      exists (a :: b), c. auto.
    + destruct (p a) eqn:Ea; [|discriminate].
      intros H. injection H as ->. exists [], l. repeat split; [exact Ea|].
      intros y Hy. apply (find_none _ _ E). now apply in_rev in Hy.
  - intros (b & c & -> & Hp & Hc).
    rewrite rev_app_distr. simpl. rewrite <- app_assoc, find_app.
    rewrite find_all_false.
    + simpl. now rewrite Hp.
    + intros y Hy. apply Hc. now apply in_rev.
Qed.

Lemma fold_urls_nodup (tree : list FileTreeEntry) (module : string)
    (d0 : PyDict.t string) :
  NoDup (PyDict.keys d0) ->
  NoDup (PyDict.keys
           (fold_left
              (fun results f =>
                 if selected module f
                 then PyDict.set results (path f) (url f) else results)
              tree d0)).
Proof.
  revert d0. induction tree as [|f tree IH]; intros d0 Hnd; simpl; [exact Hnd|].
  apply IH. destruct (selected module f); [|exact Hnd].
  now apply PyDictFacts.keys_set_nodup.
Qed.

(** C4 (amended): [get_module_file_urls] returns a dictionary whose keys
    are exactly the paths of the entries of the file tree whose path
    starts with [software/<module>] and whose type is [blob], each key
    once; entries of any other type are left out and no [/test/] test is
    made.  Each key maps to the address of the last such entry of the
    listing with that path, hence every such entry's path maps to its own
    address when no other such entry with the same path has another
    address. *)
Theorem C4_module_file_urls (s : State) (module : string) :
  let tree := modules_file_tree (self s) in
  let chosen (f : FileTreeEntry) :=
    starts_with (path f) ("software/" ++ module) /\ type_ f = "blob" in
  exists d,
    outcome_of (get_module_file_urls module) s = Ret d
    /\ (forall p, In p (PyDict.keys d) <->
                  exists f, In f tree /\ chosen f /\ path f = p)
    /\ NoDup (PyDict.keys d)
    /\ (forall p u, PyDict.get d p = Some u <->
          exists before f after,
            tree = (before ++ f :: after)%list
            /\ chosen f /\ path f = p /\ url f = u
            /\ forall g, In g after -> chosen g -> path g <> p)
    /\ (forall f, In f tree -> chosen f ->
          (forall g, In g tree -> chosen g -> path g = path f -> url g = url f) ->
          PyDict.get d (path f) = Some (url f)).
Proof.
  intros tree chosen.
  exists (module_file_urls tree module).
  assert (Hget : forall p u,
             PyDict.get (module_file_urls tree module) p = Some u <->
             exists before f after,
               tree = (before ++ f :: after)%list
               /\ chosen f /\ path f = p /\ url f = u
               /\ forall g, In g after -> chosen g -> path g <> p).
  { intros p u. rewrite module_file_urls_get. unfold last_selected. split.
    - destruct (find _ (rev tree)) as [f|] eqn:E; [|discriminate].
      simpl. intros H. injection H as <-.
      apply find_rev_iff in E. destruct E as (b & c & Ht & Hf & Hc).
      apply andb_true_iff in Hf. destruct Hf as [Hsel Hp].
      apply String.eqb_eq in Hp. apply selected_iff in Hsel.
      exists b, f, c. repeat split; try assumption; try apply Hsel.
      intros g Hg Hch Hpg. specialize (Hc g Hg).
      apply (proj2 (selected_iff module g)) in Hch.
      rewrite Hch, Hpg, String.eqb_refl in Hc. discriminate.
    - intros (b & f & c & Ht & Hch & Hp & Hu & Hc).
      assert (E : find (fun f0 => selected module f0 && String.eqb (path f0) p)
                    (rev tree) = Some f).
      { apply find_rev_iff. exists b, c. repeat split; [exact Ht| |].
        - apply andb_true_iff. split; [now apply selected_iff | now apply String.eqb_eq].
        - intros g Hg. destruct (selected module g) eqn:Eg; [|reflexivity].
          simpl. apply String.eqb_neq. apply Hc; [exact Hg | now apply selected_iff]. }
      rewrite E. simpl. now rewrite Hu. }
  assert (Hkey : forall p, In p (PyDict.keys (module_file_urls tree module)) <->
                           exists f, In f tree /\ chosen f /\ path f = p).
  { intros p. rewrite PyDictFacts.in_keys_iff, module_file_urls_get. split.
    - destruct (last_selected tree module p) as [f|] eqn:E; [|now intros []].
      intros _. apply last_selected_some in E. destruct E as (Hin & Hsel & Hp).
      exists f. repeat split; try assumption; now apply selected_iff in Hsel.
    - intros (f & Hin & Hch & Hp).
      destruct (last_selected tree module p) as [g|] eqn:E; [discriminate|].
      exfalso. apply (last_selected_none _ _ _ E f Hin); [|exact Hp].
      now apply selected_iff. }
  split; [|split; [|split; [|split]]].
  - unfold outcome_of. now rewrite get_module_file_urls_run.
  - exact Hkey.
  - apply fold_urls_nodup. constructor.
  - exact Hget.
  - intros f Hin Hch Hsame.
    rewrite module_file_urls_get.
    destruct (last_selected tree module (path f)) as [g|] eqn:E.
    + apply last_selected_some in E. destruct E as (Hg & Hsel & Hp).
      simpl. f_equal. apply Hsame; [exact Hg | now apply selected_iff | exact Hp].
    + exfalso. apply (last_selected_none _ _ _ E f Hin); [|reflexivity].
      now apply selected_iff.
Qed.

Lemma C4_module_file_urls_witness :
  exists d,
    outcome_of (get_module_file_urls "fastqc") (state_with_tree demo_tree demo_fs)
    = Ret d
    /\ PyDict.get d "software/fastqc/test/main.nf" = Some (blob_url "06").
Proof.
  destruct (C4_module_file_urls (state_with_tree demo_tree demo_fs) "fastqc")
    as (d & Hd & _ & _ & _ & Hown).
  exists d. split; [exact Hd|].
  apply (Hown (mkEntry "software/fastqc/test/main.nf" "blob" (blob_url "06") "06")).
  - simpl. tauto.
  - split; [now exists "/test/main.nf" | reflexivity].
  - intros g Hg _ Hp. simpl in Hg.
    repeat (destruct Hg as [<-|Hg]; [first [reflexivity | discriminate Hp]|]).
    destruct Hg.
Defined.

(** C4 as stated fails on a listing that has one path twice: both entries
    are selected, but the path of the first does not map to its address. *)
Lemma C4_counterexample_twin_paths :
  ~ (forall f,
       In f twin_tree ->
       starts_with (path f) ("software/" ++ "fastqc") -> type_ f = "blob" ->
       exists d,
         outcome_of (get_module_file_urls "fastqc") (state_with_tree twin_tree demo_fs)
         = Ret d
         /\ PyDict.get d (path f) = Some (url f)).
Proof.
  intros H.
  destruct (H (mkEntry "software/fastqc/main.nf" "blob" (blob_url "0a") "0a"))
    as (d & Hd & Hget).
  - now left.
  - now exists "/main.nf".
  - reflexivity.
  - vm_compute in Hd. injection Hd as <-. vm_compute in Hget. discriminate.
Qed.

(** A prefix of the form [software/<module><more>] passes the test for
    [<module>], whatever [<more>] is. *)
Lemma startswith_longer_name (module more rest : string) :
  PyStr.startswith (("software/" ++ module ++ more) ++ rest) ("software/" ++ module)
  = true.
Proof.
  apply startswith_iff. exists (more ++ rest).
  now rewrite <- !append_assoc.
Qed.

(** C9: the test of [get_module_file_urls] is a plain string prefix
    test: a file tree with the blob [software/foobar/main.nf] makes the
    call for module [foo] return that entry, path mapped to address. *)
Theorem C9_prefix_match_crosses_segments :
  exists f,
    In f foobar_tree /\ type_ f = "blob"
    /\ starts_with (path f) "software/foobar/"
    /\ forall (o : PipelineModules) (files : FileSystem)
              (n : string -> Response) (t : list Event),
         exists d,
           outcome_of (get_module_file_urls "foo")
             (mkState
                (mkPipelineModules (modules_repo o) (pipeline_dir o) foobar_tree
                   (modules_current_hash o) (modules_avail_module_names o))
                files n t)
           = Ret d
           /\ PyDict.get d (path f) = Some (url f).
Proof.
  exists (mkEntry "software/foobar/main.nf" "blob" (blob_url "0c") "0c").
  split; [now left|]. split; [reflexivity|]. split; [now exists "main.nf"|].
  intros o files n t. eexists. unfold outcome_of.
  rewrite get_module_file_urls_run. split; reflexivity.
Qed.

(** C10: [get_module_file_urls] only reads.  It returns, it leaves the
    whole state as it was (object attributes, file system, and the trace,
    so nothing was fetched or written), and its result is a function of
    the file tree and the module name: any state with the same file tree
    gives the same dictionary. *)
Theorem C10_get_module_file_urls_reads_only (s : State) (module : string) :
  state_after (get_module_file_urls module) s = s
  /\ outcome_of (get_module_file_urls module) s
     = Ret (module_file_urls (modules_file_tree (self s)) module)
  /\ forall s2,
       modules_file_tree (self s2) = modules_file_tree (self s) ->
       outcome_of (get_module_file_urls module) s2
       = outcome_of (get_module_file_urls module) s.
Proof.
  unfold state_after, outcome_of. rewrite get_module_file_urls_run.
  repeat split. intros s2 H. rewrite get_module_file_urls_run. simpl.
  now rewrite H.
Qed.

Lemma C10_get_module_file_urls_reads_only_witness :
  outcome_of (get_module_file_urls "fastqc") (state_with_tree demo_tree demo_fs_installed)
  = outcome_of (get_module_file_urls "fastqc") (state_with_tree demo_tree demo_fs).
Proof.
  apply (C10_get_module_file_urls_reads_only (state_with_tree demo_tree demo_fs) "fastqc").
  reflexivity.
Defined.

(** * Installing a module *)

Lemma mem_iff (x : string) (l : list string) :
  PyStr.mem x l = true <-> In x l.
Proof.
  unfold PyStr.mem. rewrite existsb_exists. split.
  - intros (y & Hy & E). apply String.eqb_eq in E. now subst.
  - intros H. exists x. split; [exact H | apply String.eqb_refl].
Qed.

Lemma mem_false_iff (x : string) (l : list string) :
  PyStr.mem x l = false <-> ~ In x l.
Proof. rewrite <- mem_iff. now destruct (PyStr.mem x l). Qed.

(** [install] after a successful fetch, for a name that is not among the
    available modules: two log lines and [False]. *)
Lemma install_unknown_run (s : State) (module tree_sha : string)
    (tree : list FileTreeEntry) :
  net s (tree_api_url (modules_repo (self s)))
  = mkResponse 200 (TreeJson tree_sha tree false) ->
  PyStr.mem module (modules_avail_module_names (fetched (self s) tree_sha tree))
  = false ->
  exists m1 m2,
    install module s
    = (Ret (PyBool false),
       mkState (fetched (self s) tree_sha tree) (fs s) (net s)
         (trace s ++ [HttpGet (tree_api_url (modules_repo (self s)));
                      Log ERROR m1; Log INFO m2])%list).
Proof.
  intros Hnet Hmem. unfold install. unfold bind at 1.
  rewrite (get_modules_file_tree_ok s tree_sha tree Hnet).
  unfold bind at 1, get_self at 1. cbn [self].
  rewrite Hmem. cbn [negb]. run_step.
  simpl. repeat (rewrite <- app_assoc; simpl). do 2 eexists. reflexivity.
Qed.

(** [install] after a successful fetch, for an available module whose
    directory is already there: three log lines and [False]. *)
Lemma install_present_run (s : State) (module tree_sha : string)
    (tree : list FileTreeEntry) :
  net s (tree_api_url (modules_repo (self s)))
  = mkResponse 200 (TreeJson tree_sha tree false) ->
  PyStr.mem module (modules_avail_module_names (fetched (self s) tree_sha tree))
  = true ->
  fs s (module_dir (self s) module) <> None ->
  exists m1 m2 m3,
    install module s
    = (Ret (PyBool false),
       mkState (fetched (self s) tree_sha tree) (fs s) (net s)
         (trace s ++ [HttpGet (tree_api_url (modules_repo (self s)));
                      Log DEBUG m1; Log ERROR m2; Log INFO m3])%list).
Proof.
  intros Hnet Hmem Hdir. unfold install. unfold bind at 1.
  rewrite (get_modules_file_tree_ok s tree_sha tree Hnet).
  unfold bind at 1, get_self at 1. cbn [self].
  rewrite Hmem. cbn [negb].
  unfold os_path_exists. run_step.
  unfold module_dir, OsPath.join in Hdir. cbn [fold_left] in Hdir.
  match goal with |- context [match stat (fs s) ?p with Some _ => true | None => false end] =>
    destruct (fs s p) end; [|contradiction].
  simpl. repeat (rewrite <- app_assoc; simpl). do 3 eexists. reflexivity.
Qed.

(** [install] never hands [True] to its caller. *)
Lemma install_never_true (s : State) (module : string) :
  outcome_of (install module) s <> Ret (PyBool true).
Proof.
  unfold outcome_of, install. unfold bind at 1.
  destruct (get_modules_file_tree s) as [[[]|e] s1]; [|simpl; discriminate].
  unfold bind at 1, get_self at 1.
  destruct (negb (PyStr.mem module (modules_avail_module_names (self s1)))).
  - run_step. discriminate.
  - unfold bind at 1. unfold logging at 1, emit_event at 1.
    unfold bind at 1. unfold os_path_exists at 1. unfold bind at 1, get_fs at 1.
    unfold ret at 1. cbn [fs].
    match goal with |- context [match stat ?f ?p with Some _ => true | None => false end] =>
      destruct (f p) end.
    + run_step. discriminate.
    + unfold bind at 1. rewrite get_module_file_urls_run.
      unfold bind at 1. unfold logging at 1, emit_event at 1.
      unfold bind at 1.
      match goal with |- context [for_each ?l ?b ?st] =>
        destruct (for_each l b st) as [[[]|e] s3] end;
        simpl; discriminate.
Qed.

(** C5: when the tree fetch succeeds and the module name is not among
    the available names, [install] returns [False]; the file system is as
    before, and what the call added to the trace is the one GET of the
    tree listing and log lines: no directory made, no file written, no
    blob fetched. *)
Theorem C5_install_unknown_module (s : State) (module tree_sha : string)
    (tree : list FileTreeEntry) :
  net s (tree_api_url (modules_repo (self s)))
  = mkResponse 200 (TreeJson tree_sha tree false) ->
  ~ In module
      (modules_avail_module_names (self (state_after get_modules_file_tree s))) ->
  let s' := state_after (install module) s in
  outcome_of (install module) s = Ret (PyBool false)
  /\ fs s' = fs s
  /\ exists new,
       trace s' = (trace s ++ new)%list
       /\ filter is_http_get new = [HttpGet (tree_api_url (modules_repo (self s)))]
       /\ existsb touches_files new = false.
Proof.
  intros Hnet Hmem s'. subst s'.
  unfold state_after in Hmem.
  rewrite (get_modules_file_tree_ok s tree_sha tree Hnet) in Hmem. cbn [snd self] in Hmem.
  apply mem_false_iff in Hmem.
  destruct (install_unknown_run s module tree_sha tree Hnet Hmem) as (m1 & m2 & E).
  unfold outcome_of, state_after. rewrite E. cbn [fst snd fs trace].
  split; [reflexivity|]. split; [reflexivity|].
  eexists. split; [reflexivity|]. split; reflexivity.
Qed.

Lemma C5_install_unknown_module_witness :
  outcome_of (install "doesnotexist") (demo_state demo_fs (demo_net false))
  = Ret (PyBool false).
Proof.
  apply (C5_install_unknown_module (demo_state demo_fs (demo_net false))
           "doesnotexist" "5f1e0a" demo_tree).
  - reflexivity.
  - vm_compute. intros [H|[H|[]]]; discriminate H.
Defined.



(** The target directory is the working directory followed by
    [/modules/software/<module>] for a working directory without a
    trailing separator and a module name that is not absolute. *)
Lemma module_dir_plain (o : PipelineModules) (module : string) :
  pipeline_dir o <> "" ->
  PyStr.endswith (pipeline_dir o) "/" = false ->
  PyStr.startswith module "/" = false ->
  module_dir o module = pipeline_dir o ++ "/modules/software/" ++ module.
Proof.
  intros Hne Hend Hmod. unfold module_dir, OsPath.join. cbn [fold_left].
  assert (E1 : OsPath.join2 (pipeline_dir o) "modules" = pipeline_dir o ++ "/modules").
  { unfold OsPath.join2. cbn [PyStr.startswith Ascii.eqb Bool.eqb andb].
    rewrite Hend. apply String.eqb_neq in Hne. now rewrite Hne. }
  rewrite E1.
  assert (Hend2 : forall a b c, PyStr.endswith (a ++ String b c) "/"
                                = PyStr.endswith (String b c) "/").
  { intros a b c. unfold PyStr.endswith. rewrite length_append.
    cbn [length]. replace (1 <=? length a + S (length c))%nat with true
      by (symmetry; apply Nat.leb_le; lia).
    replace (1 <=? S (length c))%nat with true by (symmetry; apply Nat.leb_le; lia).
    cbn [andb]. f_equal.
    replace (length a + S (length c) - 1) with (length a + length c) by lia.
    replace (S (length c) - 1) with (length c) by lia.
    clear. induction a as [|x a IH]; [reflexivity|exact IH]. }
  assert (E2 : OsPath.join2 (pipeline_dir o ++ "/modules") "software"
               = pipeline_dir o ++ "/modules/software").
  { unfold OsPath.join2. cbn [PyStr.startswith Ascii.eqb Bool.eqb andb].
    rewrite Hend2.
    replace (String.eqb (pipeline_dir o ++ "/modules") "") with false
      by (destruct (pipeline_dir o); reflexivity).
    cbn. now rewrite append_assoc. }
  rewrite E2. unfold OsPath.join2. rewrite Hmod, Hend2.
  replace (String.eqb (pipeline_dir o ++ "/modules/software") "") with false
    by (destruct (pipeline_dir o); reflexivity).
  cbn. now rewrite !append_assoc.
Qed.

(** C3: on the demo repository [install] of an available module that is
    not there yet runs through the download loop, writes the files of the
    module, and returns [None], which is not [True]. *)
Theorem C3_install_success_returns_none :
  let s := demo_state demo_fs (demo_net false) in
  outcome_of (install "fastqc") s = Ret PyNone
  /\ outcome_of (install "fastqc") s <> Ret (PyBool true)
  /\ fs (state_after (install "fastqc") s) "/work/modules/software/fastqc/main.nf"
     = Some (File demo_bytes)
  /\ fs (state_after (install "fastqc") s) "/work/modules/software/fastqc/test/main.nf"
     = Some (File demo_bytes).
Proof.
  vm_compute. repeat split. discriminate.
Qed.

(** * Base64: decoding inverts encoding *)


Module Base64Facts.
Import Base64.










End Base64Facts.


Module Base64Roundtrip.
Import Base64 Base64Facts.









End Base64Roundtrip.

(** * Facts about path names *)

Section PathFacts.






End PathFacts.

Lemma endswith_sep_append (a : string) (c : ascii) (b : string) :
  PyStr.endswith (a ++ String c b) "/" = PyStr.endswith (String c b) "/".
Proof.
  unfold PyStr.endswith. rewrite length_append. cbn [length].
  replace (1 <=? length a + S (length b))%nat with true
    by (symmetry; apply Nat.leb_le; lia).
  replace (1 <=? S (length b))%nat with true by (symmetry; apply Nat.leb_le; lia).
  cbn [andb]. f_equal.
  replace (length a + S (length b) - 1) with (length a + length b) by lia.
  replace (S (length b) - 1) with (length b) by lia.
  clear. induction a as [|x a IH]; [reflexivity | exact IH].
Qed.

(** * The file system *)

Section FileSystemFacts.

Local Open Scope list_scope.

Lemma key_eqb_eq (k k' : Key) : key_eqb k k' = true <-> k = k'.
Proof.
  revert k'. induction k as [|x k IH]; intros [|x' k']; cbn [key_eqb];
    try (split; [discriminate | discriminate]); [tauto|].
  rewrite andb_true_iff, String.eqb_eq, IH. split.
  - now intros [-> ->].
  - intros H. now injection H.
Qed.

Lemma key_eqb_refl (k : Key) : key_eqb k k = true.
Proof. now apply key_eqb_eq. Qed.

Lemma key_eqb_neq (k k' : Key) : key_eqb k k' = false <-> k <> k'.
Proof.
  rewrite <- key_eqb_eq. destruct (key_eqb k k'); split; congruence.
Qed.

(** What a place holds after another place was set. *)
Lemma node_at_set_node (f : FileSystem) (k : Key) (n : Node) (k' : Key) :
  k <> [] ->
  node_at (set_node f k n) k' = if key_eqb k' k then Some n else node_at f k'.
Proof.
  intros Hk. destruct k' as [|x k']; cbn [node_at set_node nodes].
  - destruct (key_eqb [] k) eqn:E; [|reflexivity].
    apply key_eqb_eq in E. now symmetry in E.
  - reflexivity.
Qed.

Lemma node_at_set_node_same (f : FileSystem) (k : Key) (n : Node) :
  k <> [] -> node_at (set_node f k n) k = Some n.
Proof. intros Hk. now rewrite node_at_set_node, key_eqb_refl. Qed.

Lemma node_at_set_node_other (f : FileSystem) (k : Key) (n : Node) (k' : Key) :
  k <> [] -> k' <> k -> node_at (set_node f k n) k' = node_at f k'.
Proof.
  intros Hk Hne. rewrite node_at_set_node by exact Hk.
  apply key_eqb_neq in Hne. now rewrite Hne.
Qed.

Lemma walk_app (f : FileSystem) (cur : Key) (a b : list string) :
  walk f cur (a ++ b)
  = match walk f cur a with
    | Done k => walk f k b
    | Failed e => Failed e
    end.
Proof.
  revert cur. induction a as [|c a IH]; intros cur; cbn [walk app];
    [reflexivity|].
  destruct (enter f cur c); [apply IH | reflexivity].
Qed.

(** A step that succeeds stands on a directory. *)
Lemma enter_done (f : FileSystem) (cur : Key) (c : string) (k : Key) :
  enter f cur c = Done k -> node_at f cur = Some Dir.
Proof.
  unfold enter. destruct (node_at f cur) as [[|x]|]; [reflexivity | | ];
    discriminate.
Qed.

(** Setting a place that is no directory does not disturb the walks that
    succeed: they stand on directories only. *)
Lemma enter_set_node (f : FileSystem) (k : Key) (n : Node) (cur : Key)
    (c : string) (r : Key) :
  k <> [] -> node_at f k <> Some Dir ->
  enter f cur c = Done r -> enter (set_node f k n) cur c = Done r.
Proof.
  intros Hk Hnd H. pose proof (enter_done _ _ _ _ H) as Hcur.
  unfold enter in *. rewrite node_at_set_node_other; [exact H | exact Hk |].
  intros ->. now apply Hnd.
Qed.

Lemma walk_set_node (f : FileSystem) (k : Key) (n : Node) (cs : list string)
    (cur r : Key) :
  k <> [] -> node_at f k <> Some Dir ->
  walk f cur cs = Done r -> walk (set_node f k n) cur cs = Done r.
Proof.
  intros Hk Hnd. revert cur. induction cs as [|c cs IH]; intros cur;
    cbn [walk]; [trivial|].
  destruct (enter f cur c) as [k1|e] eqn:E; [|discriminate].
  rewrite (enter_set_node f k n cur c k1 Hk Hnd E). apply IH.
Qed.

Lemma start_set_node (f : FileSystem) (k : Key) (n : Node) (p : string) :
  start (set_node f k n) p = start f p.
Proof. reflexivity. Qed.

Lemma place_set_node (f : FileSystem) (k : Key) (n : Node) (p : string)
    (r : Key) :
  k <> [] -> node_at f k <> Some Dir ->
  place f p = Some r -> place (set_node f k n) p = Some r.
Proof.
  intros Hk Hnd. unfold place. destruct (String.eqb p ""); [discriminate|].
  rewrite start_set_node.
  destruct (walk f (start f p) (components p)) as [k1|e] eqn:E; [|discriminate].
  intros H. injection H as <-.
  now rewrite (walk_set_node f k n _ _ k1 Hk Hnd E).
Qed.

(** What has a name keeps it, and keeps what it is unless it is at the
    place that was set. *)
Lemma stat_set_node (f : FileSystem) (k : Key) (n : Node) (p : string)
    (m : Node) :
  k <> [] -> node_at f k <> Some Dir ->
  f p = Some m ->
  place (set_node f k n) p = place f p
  /\ (place f p <> Some k -> set_node f k n p = Some m).
Proof.
  intros Hk Hnd Hp. unfold stat in Hp.
  destruct (place f p) as [r|] eqn:Er; [|discriminate].
  rewrite (place_set_node f k n p r Hk Hnd Er). split; [reflexivity|].
  intros Hne. unfold stat. rewrite (place_set_node f k n p r Hk Hnd Er).
  rewrite node_at_set_node_other; [exact Hp | exact Hk | congruence].
Qed.

Lemma keeps_refl (f : FileSystem) : keeps f f.
Proof. split; [reflexivity | intros p n H; now split]. Qed.

Lemma keeps_trans (f g h : FileSystem) : keeps f g -> keeps g h -> keeps f h.
Proof.
  intros [Hc1 H1] [Hc2 H2]. split; [congruence|].
  intros p n Hp. destruct (H1 p n Hp) as [Hg Hpl].
  destruct (H2 p n Hg) as [Hh Hpl']. split; [exact Hh | congruence].
Qed.

(** A new directory where nothing was disturbs nothing. *)
Lemma keeps_set_dir (f : FileSystem) (k : Key) :
  k <> [] -> node_at f k = None -> keeps f (set_node f k Dir).
Proof.
  intros Hk Hnone. split; [reflexivity|]. intros p n Hp.
  assert (Hnd : node_at f k <> Some Dir) by (rewrite Hnone; discriminate).
  destruct (stat_set_node f k Dir p n Hk Hnd Hp) as [Hpl Hst].
  split; [|exact Hpl]. apply Hst. intros Heq.
  unfold stat in Hp. rewrite Heq, Hnone in Hp. discriminate.
Qed.

(** The walk of a path name that has a last name: first to the directory
    that holds it, then one step down. *)
Lemma last_name_components (p c : string) :
  last_name p = Some c ->
  components p = removelast (components p) ++ [c]
  /\ String.eqb c "." = false /\ String.eqb c ".." = false.
Proof.
  unfold last_name. destruct (rev (components p)) as [|x r] eqn:E;
    [discriminate|].
  destruct (is_dot x) eqn:Ed; [discriminate|]. intros H. injection H as ->.
  unfold is_dot in Ed. apply orb_false_iff in Ed. split; [|exact Ed].
  assert (Hc : components p = rev r ++ [c]).
  { rewrite <- (rev_involutive (components p)), E. reflexivity. }
  rewrite Hc at 1. f_equal. rewrite Hc. now rewrite removelast_last.
Qed.

Lemma walk_parent_done (f : FileSystem) (p : string) (parent : Key) :
  walk_parent f p = Done parent ->
  String.eqb p "" = false
  /\ walk f (start f p) (removelast (components p)) = Done parent
  /\ node_at f parent = Some Dir.
Proof.
  unfold walk_parent. destruct (String.eqb p ""); [discriminate|].
  destruct (walk f (start f p) (removelast (components p))) as [k|e];
    [|discriminate].
  destruct (node_at f k) as [[|x]|] eqn:E; try discriminate.
  intros H. injection H as <-. auto.
Qed.

(** After the walk to the parent, the path name leads to the place of its
    last name. *)
Lemma place_of_child (f : FileSystem) (p c : string) (parent : Key) :
  String.eqb p "" = false ->
  walk f (start f p) (removelast (components p)) = Done parent ->
  node_at f parent = Some Dir ->
  last_name p = Some c ->
  place f p = Some (parent ++ [c]).
Proof.
  intros Hp Hw Hd Hl. apply last_name_components in Hl.
  destruct Hl as (Hc & Hdot & Hdots).
  unfold place. rewrite Hp, Hc, walk_app, Hw. cbn [walk]. unfold enter.
  now rewrite Hd, Hdot, Hdots.
Qed.

Lemma app_single_not_nil {A : Type} (l : list A) (x : A) : l ++ [x] <> [].
Proof. destruct l; discriminate. Qed.

(** [mkdir]: when it succeeds there was nothing at the place the name
    leads to, and now a directory is there. *)
Lemma sys_mkdir_done (f : FileSystem) (p : string) (f' : FileSystem) :
  sys_mkdir f p = Done f' ->
  exists k,
    k <> [] /\ node_at f k = None /\ f' = set_node f k Dir
    /\ place f' p = Some k.
Proof.
  unfold sys_mkdir. destruct (walk_parent f p) as [parent|e] eqn:Ew;
    [|discriminate].
  destruct (last_name p) as [c|] eqn:El; [|discriminate].
  destruct (node_at f (parent ++ [c])) as [n|] eqn:En; [discriminate|].
  intros H. injection H as <-.
  apply walk_parent_done in Ew. destruct Ew as (Hp & Hw & Hd).
  exists (parent ++ [c]). split; [apply app_single_not_nil|].
  split; [exact En|]. split; [reflexivity|].
  apply place_set_node; [apply app_single_not_nil | rewrite En; discriminate |].
  now apply place_of_child.
Qed.

(** [open] for writing: when it succeeds the name does not end in a
    separator, there was no directory at the place it leads to, and now
    a file with the data is there. *)
Lemma sys_open_wb_done (f : FileSystem) (p : string) (data : list byte)
    (f' : FileSystem) :
  sys_open_wb f p data = Done f' ->
  exists k,
    k <> [] /\ node_at f k <> Some Dir /\ f' = set_node f k (File data)
    /\ place f p = Some k /\ ends_with_sep p = false
    /\ exists parent c, k = parent ++ [c] /\ node_at f parent = Some Dir
         /\ walk f (start f p) (removelast (components p)) = Done parent
         /\ last_name p = Some c.
Proof.
  unfold sys_open_wb. destruct (walk_parent f p) as [parent|e] eqn:Ew;
    [|discriminate].
  destruct (last_name p) as [c|] eqn:El; [|discriminate].
  destruct (ends_with_sep p) eqn:Es; [discriminate|].
  apply walk_parent_done in Ew. destruct Ew as (Hp & Hw & Hd).
  intros H. exists (parent ++ [c]).
  split; [apply app_single_not_nil|].
  assert (Hnd : node_at f (parent ++ [c]) <> Some Dir /\
                f' = set_node f (parent ++ [c]) (File data)).
  { destruct (node_at f (parent ++ [c])) as [[|x]|]; try discriminate;
      injection H as <-; split; (discriminate || reflexivity). }
  destruct Hnd as [Hnd ->]. split; [exact Hnd|]. split; [reflexivity|].
  split; [now apply place_of_child|]. split; [reflexivity|].
  exists parent, c. auto.
Qed.

(** What the written name names afterwards. *)
Lemma stat_after_open (f : FileSystem) (p : string) (data : list byte)
    (k : Key) :
  k <> [] -> node_at f k <> Some Dir -> place f p = Some k ->
  ends_with_sep p = false ->
  set_node f k (File data) p = Some (File data).
Proof.
  intros Hk Hnd Hpl Hs. unfold stat.
  rewrite (place_set_node f k _ p k Hk Hnd Hpl).
  now rewrite node_at_set_node_same, Hs.
Qed.

(** A file written where no directory was: every name keeps what it
    named, except the names that lead to the written place. *)
Lemma stat_after_open_other (f : FileSystem) (k : Key) (data : list byte)
    (p : string) (m : Node) :
  k <> [] -> node_at f k <> Some Dir -> f p = Some m ->
  place (set_node f k (File data)) p = place f p
  /\ (place f p <> Some k -> set_node f k (File data) p = Some m)
  /\ (place f p = Some k ->
      set_node f k (File data) p = Some (File data) /\ exists c, m = File c).
Proof.
  intros Hk Hnd Hp.
  destruct (stat_set_node f k (File data) p m Hk Hnd Hp) as [Hpl Hst].
  split; [exact Hpl|]. split; [exact Hst|]. intros Heq.
  unfold stat in Hp |- *. rewrite Hpl, Heq. rewrite Heq in Hp.
  rewrite node_at_set_node_same by exact Hk.
  destruct (node_at f k) as [[|c]|]; [now elim Hnd | | discriminate].
  destruct (ends_with_sep p); [discriminate|]. split; [reflexivity|].
  injection Hp as <-. now exists c.
Qed.

End FileSystemFacts.
(** * The names of a path *)

Section PathNameFacts.


Lemma split_sep_not_nil (p : string) : split_sep p <> []%list.
Proof.
  destruct p as [|c p]; cbn [split_sep]; [discriminate|].
  destruct (Ascii.eqb c "/"); [discriminate|].
  destruct (split_sep p); discriminate.
Qed.

(** The pieces of two path names joined by a separator. *)
Lemma split_sep_append (a b : string) :
  split_sep (a ++ "/" ++ b) = (split_sep a ++ split_sep b)%list.
Proof.
  induction a as [|c a IH].
  - reflexivity.
  - cbn [append split_sep]. cbn [append] in IH. rewrite IH.
    destruct (Ascii.eqb c "/"); [reflexivity|].
    pose proof (split_sep_not_nil a) as Hn.
    destruct (split_sep a); [contradiction | reflexivity].
Qed.

Lemma components_append (a b : string) :
  components (a ++ "/" ++ b) = (components a ++ components b)%list.
Proof. unfold components. now rewrite split_sep_append, filter_app. Qed.
















End PathNameFacts.
(** * The library calls on the file system *)

Lemma grows_refl (s : State) : grows s s.
Proof. unfold grows. auto using keeps_refl. Qed.

Lemma grows_trans (s1 s2 s3 : State) : grows s1 s2 -> grows s2 s3 -> grows s1 s3.
Proof.
  intros (Ha & Hb & Hc & Hd) (Ha' & Hb' & Hc' & Hd').
  split; [congruence|]. split; [congruence|]. split; [congruence|].
  apply (keeps_trans _ _ _ Hd Hd').
Qed.

Lemma os_mkdir_run (s : State) (p : string) :
  os_mkdir p s
  = match sys_mkdir (fs s) p with
    | Done f' => (Ret tt, mkState (self s) f' (net s) (trace s))
    | Failed e => (Raise (os_error e p), s)
    end.
Proof.
  unfold os_mkdir, bind at 1, get_fs at 1.
  destruct (sys_mkdir (fs s) p); reflexivity.
Qed.

(** [os.mkdir] raises and changes nothing, or makes one directory where
    nothing was. *)
Lemma os_mkdir_cases (s : State) (p : string) :
  (exists e, os_mkdir p s = (Raise e, s))
  \/ (exists k,
        k <> []%list /\ node_at (fs s) k = None
        /\ place (set_node (fs s) k Dir) p = Some k
        /\ os_mkdir p s
           = (Ret tt, mkState (self s) (set_node (fs s) k Dir) (net s) (trace s))).
Proof.
  rewrite (os_mkdir_run s p).
  destruct (sys_mkdir (fs s) p) as [f'|e] eqn:E.
  - right. destruct (sys_mkdir_done _ _ _ E) as (k & Hk & Hn & -> & Hp).
    exists k. auto.
  - left. eexists. reflexivity.
Qed.

Lemma os_mkdir_grows (s : State) (p : string) : grows s (snd (os_mkdir p s)).
Proof.
  destruct (os_mkdir_cases s p) as [[e ->]|(k & Hk & Hn & _ & ->)];
    cbn [snd]; [apply grows_refl|].
  pose proof (keeps_set_dir (fs s) k Hk Hn). unfold grows.
  cbn [self net trace fs]. auto.
Qed.

(** After [os.mkdir(p)] has returned, [p] names a directory. *)
Lemma os_mkdir_ok (s s' : State) (p : string) :
  os_mkdir p s = (Ret tt, s') -> fs s' p = Some Dir.
Proof.
  destruct (os_mkdir_cases s p) as [[e ->]|(k & Hk & Hn & Hp & ->)];
    [discriminate|].
  intros H. injection H as <-. cbn [fs]. unfold stat. rewrite Hp.
  now rewrite node_at_set_node_same.
Qed.

Lemma except_file_exists_grows (m : M unit) (s : State) :
  grows s (snd (m s)) -> grows s (snd (except_file_exists m s)).
Proof.
  unfold except_file_exists. destruct (m s) as [[[]|e] s']; cbn [snd]; auto.
  destruct e; auto.
Qed.

(** [os.makedirs] makes directories and nothing else: what had a name
    keeps it, whether the call returns or raises. *)
Lemma makedirs_from_grows (fuel : nat) (name : string) (s : State) :
  grows s (snd (makedirs_from fuel name s)).
Proof.
  revert name s. induction fuel as [|fuel IH]; intros name s;
    cbn [makedirs_from]; [apply os_mkdir_grows|].
  destruct (OsPath.split name) as [head0 tail0].
  destruct (if String.eqb tail0 "" then OsPath.split head0 else (head0, tail0))
    as [head tail].
  destruct (negb (String.eqb head "") && negb (String.eqb tail ""));
    [|apply os_mkdir_grows].
  unfold bind at 1, os_path_exists at 1, bind at 1, get_fs at 1, ret at 1.
  destruct (fs s head) as [n|]; cbn [negb]; [apply os_mkdir_grows|].
  unfold bind at 1.
  pose proof (except_file_exists_grows (makedirs_from fuel head) s (IH head s))
    as H1.
  destruct (except_file_exists (makedirs_from fuel head) s) as [[[]|e] s1];
    cbn [snd] in *; [|exact H1].
  destruct (String.eqb tail "."); [exact H1|].
  apply (grows_trans _ _ _ H1). apply os_mkdir_grows.
Qed.

(** The same for [os.makedirs] itself, which is seen in the trace. *)
Lemma os_makedirs_frame (s : State) (name : string) :
  let s' := snd (os_makedirs name s) in
  self s' = self s /\ net s' = net s
  /\ trace s' = (trace s ++ [MakeDirs name])%list
  /\ keeps (fs s) (fs s').
Proof.
  unfold os_makedirs, bind at 1, emit_event at 1.
  match goal with |- context [makedirs_from ?n ?d ?st] =>
    destruct (makedirs_from_grows n d st) as (Ha & Hb & Hc & Hd) end.
  cbn [self net trace fs] in *. auto.
Qed.

(** The directory step of [download_gh_file]. *)
Lemma make_target_directory_present (s : State) (dl_filename : string) :
  fs s (OsPath.dirname dl_filename) <> None ->
  make_target_directory dl_filename s = (Ret tt, s).
Proof.
  intros H. unfold make_target_directory, bind at 1, os_path_exists at 1,
    bind at 1, get_fs at 1, ret at 1.
  destruct (fs s (OsPath.dirname dl_filename)); [reflexivity | contradiction].
Qed.

Lemma make_target_directory_missing (s : State) (dl_filename : string) :
  fs s (OsPath.dirname dl_filename) = None ->
  make_target_directory dl_filename s
  = os_makedirs (OsPath.dirname dl_filename) s.
Proof.
  intros H. unfold make_target_directory, bind at 1, os_path_exists at 1,
    bind at 1, get_fs at 1, ret at 1.
  now rewrite H.
Qed.

Lemma make_target_directory_frame (s : State) (dl_filename : string) :
  let d := OsPath.dirname dl_filename in
  let s1 := snd (make_target_directory dl_filename s) in
  self s1 = self s /\ net s1 = net s
  /\ trace s1 = (trace s ++ match fs s d with Some _ => [] | None => [MakeDirs d] end)%list
  /\ keeps (fs s) (fs s1).
Proof.
  intros d s1. subst s1. destruct (fs s d) as [n|] eqn:E.
  - rewrite make_target_directory_present by (fold d; congruence).
    cbn [snd]. rewrite app_nil_r. auto using keeps_refl.
  - rewrite make_target_directory_missing by exact E.
    apply os_makedirs_frame.
Qed.

Lemma bind_assoc_run {A B C : Type} (m : M A) (f : A -> M B) (g : B -> M C)
    (s : State) :
  bind m (fun x => bind (f x) g) s
  = match bind m f s with
    | (Ret b, s1) => g b s1
    | (Raise e, s1) => (Raise e, s1)
    end.
Proof.
  unfold bind. destruct (m s) as [[a|e] s']; [|reflexivity].
  destruct (f a s') as [[b|e] s1]; reflexivity.
Qed.

(** [download_gh_file] is the directory step followed by the rest. *)
Lemma download_gh_file_split (s : State) (dl_filename api_url : string) :
  download_gh_file dl_filename api_url s
  = match make_target_directory dl_filename s with
    | (Ret _, s1) => fetch_and_write (self s) dl_filename api_url s1
    | (Raise e, s1) => (Raise e, s1)
    end.
Proof.
  unfold download_gh_file, bind at 1, get_self at 1.
  exact (bind_assoc_run _ _
           (fun _ => fetch_and_write (self s) dl_filename api_url) s).
Qed.

Lemma open_wb_write_run (s : State) (filename : string) (data : list byte) :
  open_wb_write filename data s
  = match sys_open_wb (fs s) filename data with
    | Done f' =>
        (Ret tt,
         mkState (self s) f' (net s) (trace s ++ [WriteFile filename data])%list)
    | Failed e => (Raise (os_error e filename), s)
    end.
Proof.
  unfold open_wb_write, bind at 1, get_fs at 1.
  destruct (sys_open_wb (fs s) filename data); reflexivity.
Qed.

(** Writing a file raises and changes nothing, or puts the data at the
    place the name leads to, where no directory is. *)
Lemma open_wb_write_cases (s : State) (filename : string) (data : list byte) :
  (exists e, open_wb_write filename data s = (Raise e, s))
  \/ (exists k,
        k <> []%list /\ node_at (fs s) k <> Some Dir
        /\ place (fs s) filename = Some k /\ ends_with_sep filename = false
        /\ open_wb_write filename data s
           = (Ret tt,
              mkState (self s) (set_node (fs s) k (File data)) (net s)
                (trace s ++ [WriteFile filename data])%list)).
Proof.
  rewrite (open_wb_write_run s filename data).
  destruct (sys_open_wb (fs s) filename data) as [f'|e] eqn:E.
  - right. destruct (sys_open_wb_done _ _ _ _ E) as (k & Hk & Hn & -> & Hp & Hs & _).
    exists k. auto.
  - left. eexists. reflexivity.
Qed.

(** The rest of [download_gh_file] asks for the blob once; it writes only
    on a 200 answer whose content decodes, and then exactly the decoded
    bytes; it returns only after writing. *)
Lemma fetch_and_write_cases (s1 : State) (o : PipelineModules)
    (dl_filename api_url : string) :
  (exists e,
     fetch_and_write o dl_filename api_url s1
     = (Raise e,
        mkState (self s1) (fs s1) (net s1) (trace s1 ++ [HttpGet api_url])%list))
  \/ (exists content data k,
        net s1 api_url = mkResponse 200 (BlobJson content)
        /\ Base64.b64decode content = Ret data
        /\ k <> []%list /\ node_at (fs s1) k <> Some Dir
        /\ place (fs s1) dl_filename = Some k
        /\ ends_with_sep dl_filename = false
        /\ fetch_and_write o dl_filename api_url s1
           = (Ret PyNone,
              mkState (self s1) (set_node (fs s1) k (File data)) (net s1)
                (trace s1 ++ [HttpGet api_url; WriteFile dl_filename data])%list)).
Proof.
  destruct (fetch_and_write o dl_filename api_url s1) as [out s'] eqn:E.
  unfold fetch_and_write in E.
  unfold bind at 1, requests_get at 1, bind at 1, emit_event at 1 in E.
  cbn [net self fs trace] in E.
  destruct (net s1 api_url) as [code j] eqn:En. cbn [status_code json] in E.
  destruct (Z.eqb_spec code 200) as [->|Hc]; cbn [negb] in E.
  - unfold bind at 1, ret at 1 in E.
    destruct j as [h tr tc|content|];
      try (left; unfold raise in E; injection E as <- <-; eexists; reflexivity).
    destruct (Base64.b64decode content) as [data|e] eqn:Ed;
      [|left; unfold raise in E; injection E as <- <-; eexists; reflexivity].
    unfold bind at 1 in E.
    match type of E with context [open_wb_write dl_filename data ?st] =>
      destruct (open_wb_write_cases st dl_filename data)
        as [[e He]|(k & Hk & Hn & Hp & Hs & He)];
        rewrite He in E end.
    + left. injection E as <- <-. eexists. reflexivity.
    + right. exists content, data, k. cbn [fs] in Hn, Hp.
      split; [reflexivity|]. split; [exact Ed|].
      split; [exact Hk|]. split; [exact Hn|]. split; [exact Hp|].
      split; [exact Hs|].
      unfold ret in E. cbn [self fs net trace] in E. rewrite <- app_assoc in E.
      symmetry. exact E.
  - left. unfold bind at 1, raise at 1 in E. injection E as <- <-.
    eexists. reflexivity.
Qed.

(** * What a name says about the names before it *)

Lemma components_cons_sep (b : string) :
  components (String "/" b) = components b.
Proof. reflexivity. Qed.

Lemma components_cons_other (c : ascii) (b : string) :
  Ascii.eqb c "/" = false -> components (String c b) <> []%list.
Proof.
  intros Hc. unfold components. cbn [split_sep]. rewrite Hc.
  destruct (split_sep b); cbn [filter String.eqb negb]; discriminate.
Qed.

(** A path name without names after the separator ends in a separator. *)
Lemma components_nil_ends (a b : string) :
  components b = []%list -> ends_with_sep (a ++ "/" ++ b) = true.
Proof.
  revert a. induction b as [|c b IH]; intros a Hb.
  - unfold ends_with_sep. change ("/" ++ "") with (String "/"%char "").
    now rewrite endswith_sep_append.
  - destruct (Ascii.eqb_spec c "/") as [->|Hc].
    + rewrite components_cons_sep in Hb.
      specialize (IH (a ++ "/") Hb). now rewrite append_assoc in IH.
    + apply Ascii.eqb_neq in Hc. now apply components_cons_other in Hb.
Qed.

Lemma is_absolute_append (a b : string) :
  a <> "" -> is_absolute (a ++ b) = is_absolute a.
Proof. destruct a; [contradiction | reflexivity]. Qed.

Lemma append_not_empty (a b : string) : a <> "" -> a ++ b <> "".
Proof. destruct a; [contradiction | discriminate]. Qed.

(** When a path name names something, every part of it that ends before
    a separator names a directory. *)
Lemma stat_prefix_dir (f : FileSystem) (a b : string) (n : Node) :
  a <> "" -> f (a ++ "/" ++ b) = Some n -> f a = Some Dir.
Proof.
  intros Ha H. unfold stat, place in *.
  pose proof (append_not_empty a ("/" ++ b) Ha) as Hne.
  apply String.eqb_neq in Hne. rewrite Hne in H.
  apply String.eqb_neq in Ha. rewrite Ha. apply String.eqb_neq in Ha.
  unfold start in *. rewrite (is_absolute_append a _ Ha) in H.
  rewrite components_append, walk_app in H.
  destruct (walk f (if is_absolute a then []%list else cwd f) (components a))
    as [ka|e]; [|discriminate].
  assert (Hd : node_at f ka = Some Dir).
  { destruct (components b) as [|c cs] eqn:Eb.
    - cbn [walk] in H. rewrite (components_nil_ends a b Eb) in H.
      destruct (node_at f ka) as [[|x]|]; [reflexivity | discriminate | discriminate].
    - cbn [walk] in H. destruct (enter f ka c) as [k1|e] eqn:Ee; [|discriminate].
      now apply enter_done in Ee. }
  now rewrite Hd.
Qed.
(** * The fuel of [os.makedirs] *)




(** * Downloading one file *)






(** Without a directory part in the file name the call fails before it
    asks for anything: [os.makedirs] is given the empty name. *)
Lemma download_bare_name_fails (s : State) (dl_filename api_url : string) :
  OsPath.dirname dl_filename = "" ->
  download_gh_file dl_filename api_url s
  = (Raise (FileNotFoundError ""),
     mkState (self s) (fs s) (net s) (trace s ++ [MakeDirs ""])%list).
Proof.
  intros Hd. rewrite download_gh_file_split.
  rewrite make_target_directory_missing by (now rewrite Hd).
  rewrite Hd. reflexivity.
Qed.

(** The decoder skips a line feed wherever it stands, as in the [content]
    GitHub sends, which is broken into lines. *)
Lemma a2b_base64_skips_line_feed (s : string)
    (quad_pos leftchar pads written : N) :
  Base64.a2b_base64_from (String (ascii_of_nat 10) s) quad_pos leftchar pads written
  = Base64.a2b_base64_from s quad_pos leftchar pads written.
Proof. reflexivity. Qed.

(** * Further properties: fetching and listing *)

(** What [get_modules_file_tree] leaves alone, whatever the answer. *)
Lemma tree_fetch_frame (s : State) :
  let s' := state_after get_modules_file_tree s in
  fs s' = fs s
  /\ net s' = net s
  /\ same_identity (self s) (self s')
  /\ exists logs,
       trace s'
       = (trace s ++ HttpGet (tree_api_url (modules_repo (self s))) :: logs)%list
       /\ forallb is_log logs = true.
Proof.
  unfold state_after, same_identity, get_modules_file_tree. run_step.
  set (r := net s (tree_api_url (modules_repo (self s)))).
  destruct (Z.eqb_spec (status_code r) 404) as [E|E].
  - simpl. repeat split. rewrite <- app_assoc. eexists. split; reflexivity.
  - destruct (Z.eqb_spec (status_code r) 200) as [E2|E2]; simpl.
    + destruct (json r) as [h tr tc| |]; simpl.
      * destruct tc; simpl.
        -- repeat split. exists []. split; reflexivity.
        -- unfold set_modules_current_hash, set_modules_file_tree. run_step.
           rewrite names_loop_run. simpl.
           repeat split. exists []. split; reflexivity.
      * repeat split. exists []. split; reflexivity.
      * repeat split. exists []. split; reflexivity.
    + repeat split. exists []. split; reflexivity.
Qed.

(** X1: whatever the tree endpoint answers, [get_modules_file_tree] makes
    exactly one request, to the tree URL of the repository and branch,
    adds nothing else to the trace but log lines, leaves the file system
    alone, and keeps the repository reference and the working directory
    of the object. *)
Theorem X1_get_modules_file_tree_frame (s : State) :
  let s' := state_after get_modules_file_tree s in
  fs s' = fs s
  /\ net s' = net s
  /\ same_identity (self s) (self s')
  /\ exists logs,
       trace s'
       = (trace s ++ HttpGet (tree_api_url (modules_repo (self s))) :: logs)%list
       /\ forallb is_log logs = true.
Proof. exact (tree_fetch_frame s). Qed.

(** X2: after a successful fetch [list_modules] returns [None] and leaves
    the file system alone.  When the object then holds module names it
    logs one line and prints the names, one per line, in the order held;
    when it holds none it logs one line and prints nothing. *)
Theorem X2_list_modules_prints_names (s : State) (tree_sha : string)
    (tree : list FileTreeEntry) :
  net s (tree_api_url (modules_repo (self s)))
  = mkResponse 200 (TreeJson tree_sha tree false) ->
  let names := (modules_avail_module_names (self s) ++ module_names tree)%list in
  let s' := state_after list_modules s in
  outcome_of list_modules s = Ret PyNone
  /\ fs s' = fs s
  /\ self s' = fetched (self s) tree_sha tree
  /\ exists msg,
       trace s'
       = (trace s
          ++ HttpGet (tree_api_url (modules_repo (self s)))
          :: Log INFO msg
          :: match names with
             | [] => []
             | _ :: _ => [Print (PyStr.join PyStr.nl names)]
             end)%list.
Proof.
  intros Hnet names s'. subst s'.
  assert (E : exists msg,
             list_modules s
             = (Ret PyNone,
                mkState (fetched (self s) tree_sha tree) (fs s) (net s)
                  (trace s
                   ++ HttpGet (tree_api_url (modules_repo (self s)))
                   :: Log INFO msg
                   :: match names with
                      | [] => []
                      | _ :: _ => [Print (PyStr.join PyStr.nl names)]
                      end)%list)).
  { unfold list_modules. unfold bind at 1.
    rewrite (get_modules_file_tree_ok s tree_sha tree Hnet).
    unfold bind at 1, get_self at 1. cbn [self fetched modules_avail_module_names].
    fold names. destruct names as [|x names]; run_step.
    - eexists. rewrite <- app_assoc. reflexivity.
    - eexists. rewrite <- !app_assoc. reflexivity. }
  destruct E as (msg & E). unfold outcome_of, state_after. rewrite E.
  cbn [fst snd fs self trace]. repeat split. now exists msg.
Qed.

Lemma X2_list_modules_prints_names_witness :
  exists msg,
    trace (state_after list_modules (demo_state demo_fs (demo_net false)))
    = [ HttpGet (tree_api_url ModulesRepo_default); Log INFO msg;
        Print ("fastqc" ++ PyStr.nl ++ "samtools/sort") ].
Proof.
  destruct (X2_list_modules_prints_names (demo_state demo_fs (demo_net false))
              "5f1e0a" demo_tree eq_refl) as (_ & _ & _ & msg & H).
  exists msg. exact H.
Defined.

(** X3: when the tree fetch raises, [install] and [list_modules] raise the
    same exception and stop there: the state is the one the fetch left.
    The repository reference and the working directory of the object are
    kept, the file system is as before the call, and the only request
    made is the one for the tree. *)
Theorem X3_fetch_failure_stops_install_and_list (s : State) (module : string)
    (e : PyExc) :
  outcome_of get_modules_file_tree s = Raise e ->
  outcome_of (install module) s = Raise e
  /\ outcome_of list_modules s = Raise e
  /\ state_after (install module) s = state_after get_modules_file_tree s
  /\ state_after list_modules s = state_after get_modules_file_tree s
  /\ same_identity (self s) (self (state_after (install module) s))
  /\ fs (state_after (install module) s) = fs s
  /\ exists new,
       trace (state_after (install module) s) = (trace s ++ new)%list
       /\ filter is_http_get new = [HttpGet (tree_api_url (modules_repo (self s)))]
       /\ existsb touches_files new = false.
Proof.
  intros He.
  assert (Hst : state_after (install module) s = state_after get_modules_file_tree s
                /\ outcome_of (install module) s = Raise e
                /\ state_after list_modules s = state_after get_modules_file_tree s
                /\ outcome_of list_modules s = Raise e).
  { unfold outcome_of in He.
    assert (E1 : install module s = (Raise e, snd (get_modules_file_tree s))).
    { unfold install. unfold bind at 1.
      destruct (get_modules_file_tree s) as [[[]|e'] s1]; simpl in *;
        [discriminate | congruence]. }
    assert (E2 : list_modules s = (Raise e, snd (get_modules_file_tree s))).
    { unfold list_modules. unfold bind at 1.
      destruct (get_modules_file_tree s) as [[[]|e'] s1]; simpl in *;
        [discriminate | congruence]. }
    unfold outcome_of, state_after. rewrite E1, E2. repeat split. }
  destruct Hst as (Hs1 & Ho1 & Hs2 & Ho2).
  destruct (tree_fetch_frame s) as (Hfs & _ & Hid & logs & Ht & Hl).
  split; [exact Ho1|]. split; [exact Ho2|]. split; [exact Hs1|].
  split; [exact Hs2|]. rewrite Hs1. split; [exact Hid|]. split; [exact Hfs|].
  exists (HttpGet (tree_api_url (modules_repo (self s))) :: logs).
  split; [exact Ht|]. split.
  - simpl. f_equal. clear -Hl. induction logs as [|x l IH]; [reflexivity|].
    simpl in *. apply andb_true_iff in Hl. destruct Hl as [Hx Hl].
    destruct x; try discriminate. simpl. now apply IH.
  - simpl. clear -Hl. induction logs as [|x l IH]; [reflexivity|].
    simpl in *. apply andb_true_iff in Hl. destruct Hl as [Hx Hl].
    destruct x; try discriminate. simpl. now apply IH.
Qed.

Lemma X3_fetch_failure_stops_install_and_list_witness :
  outcome_of (install "fastqc") (demo_state demo_fs (failing_net 404))
  = Raise (SystemExit 1)
  /\ outcome_of list_modules (demo_state demo_fs (demo_net true))
     = Raise AssertionError.
Proof.
  split.
  - apply (X3_fetch_failure_stops_install_and_list
             (demo_state demo_fs (failing_net 404)) "fastqc" (SystemExit 1)).
    reflexivity.
  - apply (X3_fetch_failure_stops_install_and_list
             (demo_state demo_fs (demo_net true)) "fastqc" AssertionError).
    reflexivity.
Defined.

(** * Further properties: downloading *)

(** The runs of [download_gh_file]: the directory step raises; or the
    call raises later, with the one request sent and no file written; or
    it returns, having written the decoded content.  [made] is the state
    after the directory step. *)
Lemma download_gh_file_cases (s : State) (dl_filename api_url : string) :
  let d := OsPath.dirname dl_filename in
  let made := snd (make_target_directory dl_filename s) in
  (exists e, fs s d = None
             /\ download_gh_file dl_filename api_url s = (Raise e, made))
  \/ (exists e,
        download_gh_file dl_filename api_url s
        = (Raise e,
           mkState (self s) (fs made) (net s)
             (trace made ++ [HttpGet api_url])%list))
  \/ (exists content data k,
        net s api_url = mkResponse 200 (BlobJson content)
        /\ Base64.b64decode content = Ret data
        /\ k <> []%list /\ node_at (fs made) k <> Some Dir
        /\ place (fs made) dl_filename = Some k
        /\ ends_with_sep dl_filename = false
        /\ download_gh_file dl_filename api_url s
           = (Ret PyNone,
              mkState (self s) (set_node (fs made) k (File data)) (net s)
                (trace made ++ [HttpGet api_url; WriteFile dl_filename data])%list)).
Proof.
  intros d made.
  destruct (make_target_directory_frame s dl_filename) as (Hself & Hnet & _ & _).
  fold made in Hself, Hnet.
  rewrite download_gh_file_split.
  destruct (make_target_directory dl_filename s) as [[[]|e] s1] eqn:E;
    cbn [snd] in made; subst made.
  - right.
    destruct (fetch_and_write_cases s1 (self s) dl_filename api_url)
      as [[e He]|(c & data & k & Hn & Hdec & Hk & Hnd & Hp & Hs & He)];
      rewrite He, Hself, Hnet.
    + left. now exists e.
    + right. exists c, data, k. rewrite <- Hnet. auto 10.
  - left. exists e. split; [|reflexivity].
    destruct (fs s d) eqn:Hd; [|reflexivity].
    rewrite make_target_directory_present in E by (fold d; congruence).
    discriminate.
Qed.

(** X4: [download_gh_file] keeps the object and the network as they are;
    what it adds to the trace is at most making the directory of the
    file, one request to the given URL and one write to the given file.
    It writes only on a 200 answer whose content decodes, and then the
    file holds exactly the decoded bytes and the call returns [None]; and
    it returns only after having written. *)
Theorem X4_download_writes_only_decoded (s : State)
    (dl_filename api_url : string) :
  let s' := state_after (download_gh_file dl_filename api_url) s in
  let out := outcome_of (download_gh_file dl_filename api_url) s in
  self s' = self s
  /\ net s' = net s
  /\ exists new,
       trace s' = (trace s ++ new)%list
       /\ (forall e, In e new -> download_event dl_filename api_url e)
       /\ (forall f data, In (WriteFile f data) new ->
             f = dl_filename /\ out = Ret PyNone
             /\ fs s' dl_filename = Some (File data)
             /\ exists content,
                  net s api_url = mkResponse 200 (BlobJson content)
                  /\ Base64.b64decode content = Ret data)
       /\ (out = Ret PyNone -> exists data, In (WriteFile dl_filename data) new).
Proof.
  intros s' out. subst s' out. unfold outcome_of, state_after, download_event.
  destruct (make_target_directory_frame s dl_filename) as (Hself & Hnet & Htr & _).
  cbv zeta in Hself, Hnet, Htr.
  destruct (download_gh_file_cases s dl_filename api_url)
    as [(e & Hd & He)|[(e & He)|(c & data & k & Hn & Hdec & Hk & Hnd & Hp & Hs & He)]];
    cbv zeta in *; rewrite He; cbn [fst snd self net trace fs].
  - split; [exact Hself|]. split; [exact Hnet|]. rewrite Htr, Hd.
    exists [MakeDirs (OsPath.dirname dl_filename)].
    split; [reflexivity|]. split; [|split].
    + intros x [<-|[]]. auto.
    + intros f data [H|[]]. discriminate.
    + discriminate.
  - split; [reflexivity|]. split; [reflexivity|]. rewrite Htr.
    exists (match fs s (OsPath.dirname dl_filename) with
            | Some _ => []
            | None => [MakeDirs (OsPath.dirname dl_filename)]
            end ++ [HttpGet api_url])%list.
    split; [now rewrite app_assoc|]. split; [|split].
    + intros x Hx. apply in_app_or in Hx. destruct Hx as [Hx|[<-|[]]]; [|auto].
      destruct (fs s (OsPath.dirname dl_filename)); [destruct Hx|].
      destruct Hx as [<-|[]]. auto.
    + intros f data Hx. apply in_app_or in Hx. destruct Hx as [Hx|[Hx|[]]];
        [|discriminate].
      destruct (fs s (OsPath.dirname dl_filename)); [destruct Hx|].
      destruct Hx as [Hx|[]]. discriminate.
    + discriminate.
  - split; [reflexivity|]. split; [reflexivity|]. rewrite Htr.
    exists (match fs s (OsPath.dirname dl_filename) with
            | Some _ => []
            | None => [MakeDirs (OsPath.dirname dl_filename)]
            end ++ [HttpGet api_url; WriteFile dl_filename data])%list.
    split; [now rewrite app_assoc|]. split; [|split].
    + intros x Hx. apply in_app_or in Hx.
      destruct Hx as [Hx|[<-|[<-|[]]]]; [|auto|eauto].
      destruct (fs s (OsPath.dirname dl_filename)); [destruct Hx|].
      destruct Hx as [<-|[]]. auto.
    + intros f data' Hx. apply in_app_or in Hx.
      destruct Hx as [Hx|[Hx|[Hx|[]]]]; [|discriminate|].
      * destruct (fs s (OsPath.dirname dl_filename)); [destruct Hx|].
        destruct Hx as [Hx|[]]. discriminate.
      * injection Hx as <- <-. split; [reflexivity|]. split; [reflexivity|].
        split; [now apply stat_after_open|]. now exists c.
    + intros _. exists data. apply in_or_app. right. simpl. auto.
Qed.

Lemma X4_download_writes_only_decoded_witness :
  exists new data,
    trace (state_after
             (download_gh_file "/work/modules/software/fastqc/main.nf" (blob_url "03"))
             (demo_state demo_fs (demo_net false)))
    = ([] ++ new)%list
    /\ In (WriteFile "/work/modules/software/fastqc/main.nf" data) new.
Proof.
  destruct (X4_download_writes_only_decoded
              (demo_state demo_fs (demo_net false))
              "/work/modules/software/fastqc/main.nf" (blob_url "03"))
    as (_ & _ & new & Htr & _ & _ & Hret).
  destruct (Hret eq_refl) as (data & Hin).
  exists new, data. split; [exact Htr | exact Hin].
Defined.

(** [os.makedirs] that returns has made its directory, when the last
    name of the directory is a name of its own. *)
Lemma os_makedirs_ok (s : State) (d : string) :
  outcome_of (os_makedirs d) s = Ret tt ->
  OsPath.after_last_sep d <> "" ->
  OsPath.after_last_sep d <> "." ->
  fs (state_after (os_makedirs d) s) d = Some Dir.
Proof.
  unfold outcome_of, state_after, os_makedirs, bind at 1 2, emit_event at 1 2.
  intros Hout Ht Hdot.
  match goal with |- context [makedirs_from _ _ ?st] => set (s0 := st) in * end.
  clearbody s0.
  assert (Hm : forall s1 : State,
             fst (os_mkdir d s1) = Ret tt -> fs (snd (os_mkdir d s1)) d = Some Dir).
  { intros s1 H. destruct (os_mkdir d s1) as [[[]|e] s2] eqn:E; [|discriminate].
    exact (os_mkdir_ok _ _ _ E). }
  destruct (length d) as [|n]; cbn [makedirs_from] in *; [now apply Hm|].
  unfold OsPath.split in *.
  apply String.eqb_neq in Ht. apply String.eqb_neq in Hdot.
  rewrite Ht in Hout |- *. cbv beta iota in Hout |- *.
  rewrite Ht, Hdot in Hout |- *.
  destruct (negb (String.eqb (OsPath.dirname d) "") && negb false);
    [|now apply Hm].
  unfold bind at 1, os_path_exists at 1, bind at 1, get_fs at 1, ret at 1 in Hout.
  unfold bind at 1, os_path_exists at 1, bind at 1, get_fs at 1, ret at 1.
  destruct (fs s0 (OsPath.dirname d)); cbn [negb] in *; [now apply Hm|].
  unfold bind at 1 in Hout. unfold bind at 1.
  destruct (except_file_exists (makedirs_from n (OsPath.dirname d)) s0)
    as [[[]|e] s1]; [now apply Hm | discriminate].
Qed.

(** X5: a refused blob request leaves its mark.  When the directory of
    the file is missing, [os.makedirs] makes it, and the answer is not
    200, the call raises [SystemError] after the directory has been
    made: the file system is the one [os.makedirs] left, in which the
    directory and every directory above it are there and everything that
    had a name before still has it; no file is written. *)
Theorem X5_download_refused_leaves_directory (s : State)
    (dl_filename api_url : string) :
  let d := OsPath.dirname dl_filename in
  let s' := state_after (download_gh_file dl_filename api_url) s in
  status_code (net s api_url) <> 200%Z ->
  fs s d = None ->
  outcome_of (os_makedirs d) s = Ret tt ->
  OsPath.after_last_sep d <> "" ->
  OsPath.after_last_sep d <> "." ->
  (exists msg,
     outcome_of (download_gh_file dl_filename api_url) s = Raise (SystemError msg))
  /\ fs s' = fs (state_after (os_makedirs d) s)
  /\ fs s' d = Some Dir
  /\ (forall a b, d = a ++ "/" ++ b -> a <> "" -> fs s' a = Some Dir)
  /\ (forall q n, fs s q = Some n -> fs s' q = Some n)
  /\ trace s' = (trace s ++ [MakeDirs d; HttpGet api_url])%list.
Proof.
  intros d s' Hst Hd Hout Ht Hdot. subst s'.
  pose proof (os_makedirs_ok s d Hout Ht Hdot) as Hdir.
  destruct (os_makedirs_frame s d) as (Hself & Hnet & Htr & Hkeep).
  cbv zeta in Hself, Hnet, Htr, Hkeep.
  unfold outcome_of, state_after in *.
  assert (E : exists msg,
             download_gh_file dl_filename api_url s
             = (Raise (SystemError msg),
                mkState (self s) (fs (snd (os_makedirs d s))) (net s)
                  (trace s ++ [MakeDirs d; HttpGet api_url])%list)).
  { rewrite download_gh_file_split.
    rewrite (make_target_directory_missing s dl_filename Hd). fold d.
    destruct (os_makedirs d s) as [out s1]. cbn [fst snd] in *. subst out.
    unfold fetch_and_write.
    unfold bind at 1, requests_get at 1, bind at 1, emit_event at 1.
    cbn [net self fs trace]. rewrite Hnet.
    apply Z.eqb_neq in Hst. rewrite Hst. cbn [negb].
    unfold bind at 1, raise at 1. eexists.
    rewrite Hself, Htr, <- app_assoc. reflexivity. }
  destruct E as (msg & E). rewrite E. cbn [fst snd fs trace].
  split; [now exists msg|]. split; [reflexivity|]. split; [exact Hdir|].
  split; [|split; [|reflexivity]].
  - intros a b Eab Ha. apply (stat_prefix_dir _ a b Dir Ha).
    rewrite <- Eab. exact Hdir.
  - intros q n Hq. destruct Hkeep as [_ Hkeep]. now apply Hkeep.
Qed.

Lemma X5_download_refused_leaves_directory_witness :
  fs (state_after
        (download_gh_file "/work/modules/software/fastqc/main.nf" (blob_url "03"))
        (demo_state demo_fs demo_net_no_blobs))
     "/work/modules/software/fastqc"
  = Some Dir
  /\ fs (state_after
           (download_gh_file "/work/modules/software/fastqc/main.nf" (blob_url "03"))
           (demo_state demo_fs demo_net_no_blobs))
        "/work/modules/software"
     = Some Dir.
Proof.
  destruct (X5_download_refused_leaves_directory
              (demo_state demo_fs demo_net_no_blobs)
              "/work/modules/software/fastqc/main.nf" (blob_url "03"))
    as (_ & _ & H & Hup & _).
  - vm_compute. discriminate.
  - reflexivity.
  - reflexivity.
  - discriminate.
  - discriminate.
  - split; [exact H|].
    apply (Hup "/work/modules/software" "fastqc"); [reflexivity | discriminate].
Defined.




(** * Further properties: the files of a module and their order *)


Lemma in_items_get {V : Type} (d : PyDict.t V) (k : string) (v : V) :
  NoDup (PyDict.keys d) -> In (k, v) d -> PyDict.get d k = Some v.
Proof.
  unfold PyDict.keys. induction d as [|[k' v'] d IH]; simpl; intros Hnd Hin.
  - contradiction.
  - inversion Hnd as [|? ? Hnotin Hnd']; subst.
    destruct Hin as [E|Hin].
    + injection E as -> ->. now rewrite String.eqb_refl.
    + destruct (String.eqb_spec k' k) as [->|_].
      * exfalso. apply Hnotin. apply (in_map fst) in Hin. exact Hin.
      * now apply IH.
Qed.

(** Every item of the dictionary comes from a selected entry. *)
Lemma module_file_urls_item (tree : list FileTreeEntry) (module p u : string) :
  In (p, u) (module_file_urls tree module) ->
  exists f, In f tree /\ selected module f = true /\ path f = p /\ url f = u.
Proof.
  intros Hin.
  assert (Hnd : NoDup (PyDict.keys (module_file_urls tree module)))
    by (apply fold_urls_nodup; constructor).
  apply (in_items_get _ _ _ Hnd) in Hin.
  rewrite module_file_urls_get in Hin.
  destruct (last_selected tree module p) as [f|] eqn:E; [|discriminate].
  injection Hin as <-. apply last_selected_some in E.
  exists f. tauto.
Qed.




(** X8: listing and installing agree on blobs.  After a successful fetch
    every listing entry that is a blob and passes the module test gives a
    module name that is available, and [get_module_file_urls] for that
    name returns a dictionary that has the entry's path as a key. *)
Theorem X8_available_module_has_its_main_file (s : State) (tree_sha : string)
    (tree : list FileTreeEntry) (f : FileTreeEntry) :
  net s (tree_api_url (modules_repo (self s)))
  = mkResponse 200 (TreeJson tree_sha tree false) ->
  In f tree ->
  PyStr.startswith (path f) "software/" = true ->
  PyStr.endswith (path f) "/main.nf" = true ->
  PyStr.contains "/test/" (path f) = false ->
  type_ f = "blob" ->
  let s1 := state_after get_modules_file_tree s in
  let module := PyStr.slice (path f) 9 (-8) in
  In module (modules_avail_module_names (self s1))
  /\ exists d,
       outcome_of (get_module_file_urls module) s1 = Ret d
       /\ In (path f) (PyDict.keys d).
Proof.
  intros Hnet Hin Hpre Hsuf Htest Hblob s1 module. subst s1.
  assert (Hmain : is_module_main (path f) = true)
    by (unfold is_module_main; now rewrite Hpre, Hsuf, Htest).
  unfold state_after, outcome_of.
  rewrite (get_modules_file_tree_ok s tree_sha tree Hnet). cbn [snd].
  rewrite get_module_file_urls_run. cbn [fst self fetched modules_avail_module_names
                                           modules_file_tree].
  split.
  - apply in_or_app. right. unfold module_names.
    apply in_map_iff. exists f. split; [reflexivity|].
    apply filter_In. now split.
  - eexists. split; [reflexivity|].
    apply PyDictFacts.in_keys_iff. rewrite module_file_urls_get.
    destruct (last_selected tree module (path f)) eqn:E; [discriminate|].
    exfalso. apply (last_selected_none _ _ _ E f Hin); [|reflexivity].
    apply selected_iff. split; [|exact Hblob].
    destruct (is_module_main_shape (path f) Hmain) as [Hshape|[Hp Hs]].
    + fold module in Hshape. exists "/main.nf".
      rewrite Hshape at 1. now rewrite append_assoc.
    + subst module. rewrite Hs, Hp. now exists "main.nf".
Qed.

Lemma X8_available_module_has_its_main_file_witness :
  In "samtools/sort"
    (modules_avail_module_names
       (self (state_after get_modules_file_tree (demo_state demo_fs (demo_net false))))).
Proof.
  apply (X8_available_module_has_its_main_file
           (demo_state demo_fs (demo_net false)) "5f1e0a" demo_tree
           (mkEntry "software/samtools/sort/main.nf" "blob" (blob_url "07") "07"));
    try reflexivity.
  simpl. tauto.
Defined.

(** * Further properties: installing *)

(** What any run of [download_gh_file] keeps and what it may add. *)
Lemma download_frame (s : State) (dl_filename api_url : string) :
  let s' := snd (download_gh_file dl_filename api_url s) in
  self s' = self s
  /\ net s' = net s
  /\ exists new,
       trace s' = (trace s ++ new)%list
       /\ forall e, In e new -> download_event dl_filename api_url e.
Proof.
  unfold download_event.
  destruct (make_target_directory_frame s dl_filename) as (Hself & Hnet & Htr & _).
  cbv zeta in Hself, Hnet, Htr.
  assert (Hd : forall e,
             In e match fs s (OsPath.dirname dl_filename) with
                  | Some _ => []
                  | None => [MakeDirs (OsPath.dirname dl_filename)]
                  end ->
             e = MakeDirs (OsPath.dirname dl_filename)).
  { intros e He. destruct (fs s (OsPath.dirname dl_filename)); [destruct He|].
    destruct He as [<-|[]]. reflexivity. }
  destruct (download_gh_file_cases s dl_filename api_url)
    as [(e & _ & He)|[(e & He)|(c & data & k & _ & _ & _ & _ & _ & _ & He)]];
    cbv zeta in *; rewrite He; cbn [fst snd self net trace fs].
  - split; [exact Hself|]. split; [exact Hnet|]. rewrite Htr.
    eexists. split; [reflexivity|]. intros x Hx. left. now apply Hd.
  - split; [reflexivity|]. split; [reflexivity|]. rewrite Htr, <- app_assoc.
    eexists. split; [reflexivity|]. intros x Hx. apply in_app_or in Hx.
    destruct Hx as [Hx|[<-|[]]]; [left; now apply Hd | auto].
  - split; [reflexivity|]. split; [reflexivity|]. rewrite Htr, <- app_assoc.
    eexists. split; [reflexivity|]. intros x Hx. apply in_app_or in Hx.
    destruct Hx as [Hx|[<-|[<-|[]]]]; [left; now apply Hd | auto | eauto].
Qed.

(** The download loop of [install]: object and network stay, and every
    event added belongs to the download of one of the items. *)
Lemma install_loop_frame (o : PipelineModules) (items : list (string * string))
    (st : State) :
  let s' :=
    snd (for_each items
           (fun item =>
              bind (download_gh_file (install_target o (fst item)) (snd item))
                (fun _ => ret tt))
           st) in
  self s' = self st
  /\ net s' = net st
  /\ exists new,
       trace s' = (trace st ++ new)%list
       /\ forall e, In e new ->
            exists item, In item items
              /\ download_event (install_target o (fst item)) (snd item) e.
Proof.
  revert st. induction items as [|item items IH]; intros st.
  - cbn [for_each]. unfold ret. cbn [snd]. repeat split. exists [].
    rewrite app_nil_r. split; [reflexivity | intros e []].
  - set (body := fun item0 : string * string =>
                   bind (download_gh_file (install_target o (fst item0)) (snd item0))
                     (fun _ => ret tt)) in *.
    assert (E : for_each (item :: items) body st
                = (let (out, s1) :=
                     download_gh_file (install_target o (fst item)) (snd item) st in
                   match out with
                   | Ret _ => for_each items body s1
                   | Raise e => (Raise e, s1)
                   end)).
    { cbn [for_each]. unfold body at 1. unfold bind.
      destruct (download_gh_file (install_target o (fst item)) (snd item) st)
        as [[v|e] s1]; reflexivity. }
    rewrite E. clear E.
    destruct (download_frame st (install_target o (fst item)) (snd item))
      as (Hself & Hnet & new & Htr & Hev).
    destruct (download_gh_file (install_target o (fst item)) (snd item) st)
      as [[v|e] s1]; cbn [snd] in *.
    + destruct (IH s1) as (Hself' & Hnet' & new' & Htr' & Hev').
      rewrite Hself', Hnet', Htr', Htr, Hself, Hnet.
      repeat split. exists (new ++ new')%list.
      split; [now rewrite app_assoc|].
      intros x Hx. apply in_app_or in Hx. destruct Hx as [Hx|Hx].
      * exists item. split; [now left | now apply Hev].
      * destruct (Hev' x Hx) as (it & Hit & Hd). exists it. split; [now right|exact Hd].
    + repeat split; try assumption. exists new. split; [exact Htr|].
      intros x Hx. exists item. split; [now left | now apply Hev].
Qed.

(** [install] after a successful fetch, for an available module whose
    directory is not there: two log lines, then the download loop over
    the files of the module, then [None] unless a download raised. *)
Lemma install_proceeds_run (s : State) (module tree_sha : string)
    (tree : list FileTreeEntry) :
  net s (tree_api_url (modules_repo (self s)))
  = mkResponse 200 (TreeJson tree_sha tree false) ->
  PyStr.mem module (modules_avail_module_names (fetched (self s) tree_sha tree))
  = true ->
  fs s (module_dir (self s) module) = None ->
  exists m1 m2,
    install module s
    = (let (out, sf) :=
         for_each (module_file_urls tree module)
           (fun item =>
              bind (download_gh_file (install_target (self s) (fst item)) (snd item))
                (fun _ => ret tt))
           (mkState (fetched (self s) tree_sha tree) (fs s) (net s)
              (trace s ++ [HttpGet (tree_api_url (modules_repo (self s)));
                           Log DEBUG m1; Log DEBUG m2])%list) in
       (match out with Ret _ => Ret PyNone | Raise e => Raise e end, sf)).
Proof.
  intros Hnet Hmem Hdir. unfold install. unfold bind at 1.
  rewrite (get_modules_file_tree_ok s tree_sha tree Hnet).
  unfold bind at 1, get_self at 1. cbn [self].
  rewrite Hmem. cbn [negb].
  unfold bind at 1, logging at 1, emit_event at 1.
  unfold bind at 1, os_path_exists at 1, bind at 1, get_fs at 1, ret at 1.
  cbn [fs self net trace].
  change (OsPath.join (pipeline_dir (fetched (self s) tree_sha tree))
            ["modules"; "software"; module])
    with (module_dir (self s) module).
  rewrite Hdir.
  unfold bind at 1. rewrite get_module_file_urls_run.
  cbn [self fetched modules_file_tree].
  unfold bind at 1, logging at 1, emit_event at 1.
  cbn [fs self net trace]. rewrite <- !app_assoc. cbn [app].
  unfold bind at 1. unfold PyDict.items.
  exists ("Installing module '" ++ module ++ "' at modules hash "
          ++ str_of_hash (Some tree_sha)),
         ("Fetching module files:" ++ PyStr.nl ++ " - "
          ++ PyStr.join (PyStr.nl ++ " - ")
               (PyDict.keys (module_file_urls tree module))).
  change (pipeline_dir (fetched (self s) tree_sha tree)) with (pipeline_dir (self s)).
  change (modules_current_hash (fetched (self s) tree_sha tree)) with (Some tree_sha).
  unfold install_target.
  match goal with |- context [for_each ?l ?b ?st] =>
    destruct (for_each l b st) as [[[]|e] sf] end; reflexivity.
Qed.

Lemma fold_urls_none_selected (tree : list FileTreeEntry) (module : string)
    (d0 : PyDict.t string) :
  (forall f, In f tree -> selected module f = false) ->
  fold_left
    (fun results f =>
       if selected module f then PyDict.set results (path f) (url f) else results)
    tree d0
  = d0.
Proof.
  revert d0. induction tree as [|f tree IH]; intros d0 H; cbn [fold_left].
  - reflexivity.
  - rewrite (H f) by now left. apply IH. intros g Hg. apply H. now right.
Qed.

Lemma only_logs_no_requests (logs : list Event) :
  forallb is_log logs = true ->
  filter is_http_get logs = [] /\ existsb touches_files logs = false.
Proof.
  induction logs as [|x l IH]; [now split|].
  simpl. intros H. apply andb_true_iff in H. destruct H as [Hx Hl].
  destruct x; try discriminate. simpl. now apply IH.
Qed.

(** X9: an available module without files.  When the fetch succeeds, the
    name is available, the target directory is not there, and no listing
    entry under [software/<module>] is a blob, [install] downloads
    nothing, leaves the file system as it is, and returns [None] like a
    successful installation. *)
Theorem X9_install_without_files (s : State) (module tree_sha : string)
    (tree : list FileTreeEntry) :
  net s (tree_api_url (modules_repo (self s)))
  = mkResponse 200 (TreeJson tree_sha tree false) ->
  In module
    (modules_avail_module_names (self (state_after get_modules_file_tree s))) ->
  fs s (OsPath.join (pipeline_dir (self s)) ["modules"; "software"; module])
  = None ->
  (forall f, In f tree ->
     PyStr.startswith (path f) ("software/" ++ module) = true ->
     type_ f <> "blob") ->
  let s' := state_after (install module) s in
  outcome_of (install module) s = Ret PyNone
  /\ fs s' = fs s
  /\ exists new,
       trace s' = (trace s ++ new)%list
       /\ filter is_http_get new = [HttpGet (tree_api_url (modules_repo (self s)))]
       /\ existsb touches_files new = false.
Proof.
  intros Hnet Hin Hdir Hnone s'. subst s'.
  unfold state_after in Hin.
  rewrite (get_modules_file_tree_ok s tree_sha tree Hnet) in Hin. cbn [snd self] in Hin.
  apply mem_iff in Hin.
  destruct (install_proceeds_run s module tree_sha tree Hnet Hin Hdir)
    as (m1 & m2 & E).
  assert (Hfiles : module_file_urls tree module = []).
  { unfold module_file_urls. apply fold_urls_none_selected.
    intros f Hf. unfold selected.
    destruct (PyStr.startswith (path f) ("software/" ++ module)) eqn:Hp;
      [|reflexivity].
    cbn [andb]. apply String.eqb_neq. now apply Hnone. }
  rewrite Hfiles in E. cbn [for_each] in E. unfold ret in E.
  unfold outcome_of, state_after. rewrite E. cbn [fst snd fs trace].
  repeat split. eexists. split; [reflexivity|]. split; reflexivity.
Qed.

Lemma X9_install_without_files_witness :
  outcome_of (install "ghost") (demo_state demo_fs ghost_net) = Ret PyNone.
Proof.
  apply (X9_install_without_files (demo_state demo_fs ghost_net)
           "ghost" "77aa01" ghost_tree).
  - reflexivity.
  - vm_compute. now left.
  - reflexivity.
  - intros f [<-|[]] _. discriminate.
Defined.

(** X10: what [install] can touch.  After a successful fetch, every
    request [install] makes beyond the one for the tree goes to the
    address of a listing entry selected for the module (path starting
    with [software/<module>], type [blob]); every file it writes is
    [os.path.join(pipeline_dir, "modules", path)] for such an entry, and
    every call of [os.makedirs] it makes is on the directory of such a
    file (the directories above it are made inside that call and are no
    events of their own).  The object is the one the fetch left. *)
Theorem X10_install_touches_only_module_files (s : State)
    (module tree_sha : string) (tree : list FileTreeEntry) :
  net s (tree_api_url (modules_repo (self s)))
  = mkResponse 200 (TreeJson tree_sha tree false) ->
  let s' := state_after (install module) s in
  let picked (f : FileTreeEntry) :=
    In f tree
    /\ PyStr.startswith (path f) ("software/" ++ module) = true
    /\ type_ f = "blob" in
  self s' = fetched (self s) tree_sha tree
  /\ net s' = net s
  /\ exists new,
       trace s'
       = (trace s ++ HttpGet (tree_api_url (modules_repo (self s))) :: new)%list
       /\ forall e, In e new ->
            match e with
            | HttpGet u => exists f, picked f /\ u = url f
            | WriteFile t _ =>
                exists f, picked f
                  /\ t = OsPath.join (pipeline_dir (self s)) ["modules"; path f]
            | MakeDirs d =>
                exists f, picked f
                  /\ d = OsPath.dirname
                           (OsPath.join (pipeline_dir (self s)) ["modules"; path f])
            | Log _ _ | Print _ => True
            end.
Proof.
  intros Hnet s' picked. subst s'. unfold state_after.
  destruct (PyStr.mem module
              (modules_avail_module_names (fetched (self s) tree_sha tree)))
    eqn:Hmem.
  - destruct (fs s (module_dir (self s) module)) as [n|] eqn:Hdir.
    + destruct (install_present_run s module tree_sha tree Hnet Hmem)
        as (m1 & m2 & m3 & E); [congruence|].
      rewrite E. cbn [snd self net trace]. repeat split.
      eexists. split; [reflexivity|].
      intros e [<-|[<-|[<-|[]]]]; exact I.
    + destruct (install_proceeds_run s module tree_sha tree Hnet Hmem Hdir)
        as (m1 & m2 & E).
      rewrite E. clear E.
      match goal with |- context [for_each ?l ?b ?st] =>
        destruct (install_loop_frame (self s) l st)
          as (Hself & Hnet' & new & Htr & Hev);
        destruct (for_each l b st) as [out sf] end.
      cbn [snd self net trace] in *. rewrite Hself, Hnet', Htr.
      repeat split.
      exists ([Log DEBUG m1; Log DEBUG m2] ++ new)%list.
      split; [now rewrite <- app_assoc|].
      intros e He. apply in_app_or in He. destruct He as [[<-|[<-|[]]]|He];
        try exact I.
      destruct (Hev e He) as ([p u] & Hit & Hd).
      apply module_file_urls_item in Hit.
      destruct Hit as (f & Hf & Hsel & Hp & Hu).
      apply andb_true_iff in Hsel. destruct Hsel as [Hs1 Hs2].
      apply String.eqb_eq in Hs2.
      cbn [fst snd] in Hd. unfold install_target in Hd. subst p u.
      destruct Hd as [->|[->|[data ->]]]; exists f; repeat split; assumption.
  - destruct (install_unknown_run s module tree_sha tree Hnet Hmem) as (m1 & m2 & E).
    rewrite E. cbn [snd self net trace]. repeat split.
    eexists. split; [reflexivity|].
    intros e [<-|[<-|[]]]; exact I.
Qed.

Lemma X10_install_touches_only_module_files_witness :
  self (state_after (install "fastqc") (demo_state demo_fs (demo_net false)))
  = fetched (PipelineModules_init ModulesRepo_default "/work") "5f1e0a" demo_tree.
Proof.
  apply (X10_install_touches_only_module_files
           (demo_state demo_fs (demo_net false)) "fastqc" "5f1e0a" demo_tree).
  reflexivity.
Defined.

(** [install] leaves the object as the tree fetch left it. *)
Lemma install_self (s : State) (module : string) :
  self (snd (install module s)) = self (snd (get_modules_file_tree s)).
Proof.
  unfold install. unfold bind at 1.
  destruct (get_modules_file_tree s) as [[[]|e] s1]; cbn [snd]; [|reflexivity].
  unfold bind at 1, get_self at 1.
  destruct (negb (PyStr.mem module (modules_avail_module_names (self s1)))).
  - run_step. reflexivity.
  - unfold bind at 1, logging at 1, emit_event at 1.
    unfold bind at 1, os_path_exists at 1, bind at 1, get_fs at 1, ret at 1.
    cbn [fs].
    match goal with |- context [match stat (fs s1) ?p with Some _ => true | None => false end] =>
      destruct (fs s1 p) end.
    + run_step. reflexivity.
    + unfold bind at 1. rewrite get_module_file_urls_run.
      unfold bind at 1, logging at 1, emit_event at 1.
      cbn [self fs net trace]. unfold bind at 1. unfold PyDict.items.
      match goal with |- context [for_each ?l ?b ?st] =>
        destruct (install_loop_frame (self s1) l st) as (Hself & _);
        unfold install_target in Hself;
        destruct (for_each l b st) as [[[]|e] sf] end;
        cbn [snd] in *; exact Hself.
Qed.

Lemma list_modules_self (s : State) :
  self (snd (list_modules s)) = self (snd (get_modules_file_tree s)).
Proof.
  unfold list_modules. unfold bind at 1.
  destruct (get_modules_file_tree s) as [[[]|e] s1]; cbn [snd]; [|reflexivity].
  unfold bind at 1, get_self at 1.
  destruct (0 <? List.length (modules_avail_module_names (self s1)))%nat;
    run_step; reflexivity.
Qed.

(** X11: no method assigns [modules_repo] or [pipeline_dir]: whatever the
    arguments, the network and the file system, the object has the same
    repository reference and the same working directory after a call of
    any method as before it. *)
Theorem X11_methods_keep_repo_and_directory (s : State)
    (module dl_filename api_url : string) :
  same_identity (self s) (self (state_after get_modules_file_tree s))
  /\ same_identity (self s) (self (state_after list_modules s))
  /\ same_identity (self s) (self (state_after (install module) s))
  /\ same_identity (self s) (self (state_after (get_module_file_urls module) s))
  /\ same_identity (self s)
       (self (state_after (download_gh_file dl_filename api_url) s))
  /\ same_identity (self s) (self (state_after (update module) s))
  /\ same_identity (self s) (self (state_after (remove module) s))
  /\ same_identity (self s) (self (state_after check_modules s)).
Proof.
  destruct (tree_fetch_frame s) as (_ & _ & Hid & _). cbv zeta in Hid.
  unfold state_after in *.
  rewrite install_self, list_modules_self, get_module_file_urls_run.
  destruct (download_frame s dl_filename api_url) as (Hd & _). cbv zeta in Hd.
  rewrite Hd. cbn [snd].
  repeat split; try apply Hid.
Qed.

(** The second step of [os.path.join] onto a path that ends in a name. *)
Lemma join2_after_name (a : string) (c : ascii) (b rest : string) :
  PyStr.startswith rest "/" = false ->
  PyStr.endswith (String c b) "/" = false ->
  OsPath.join2 (a ++ String c b) rest = (a ++ String c b) ++ "/" ++ rest.
Proof.
  intros Hrest Hend. unfold OsPath.join2. rewrite Hrest.
  replace (String.eqb (a ++ String c b) "") with false
    by (destruct a; reflexivity).
  assert (E : PyStr.endswith (a ++ String c b) "/" = PyStr.endswith (String c b) "/").
  { unfold PyStr.endswith. rewrite length_append. cbn [length].
    replace (1 <=? length a + S (length b))%nat with true
      by (symmetry; apply Nat.leb_le; lia).
    replace (1 <=? S (length b))%nat with true by (symmetry; apply Nat.leb_le; lia).
    cbn [andb]. f_equal.
    replace (length a + S (length b) - 1) with (length a + length b) by lia.
    replace (S (length b) - 1) with (length b) by lia.
    clear. induction a as [|x a IH]; [reflexivity | exact IH]. }
  rewrite E, Hend. reflexivity.
Qed.

(** X12: the files of a module land in the directory [install] checked.
    For a working directory that is not empty and has no trailing
    separator, and a module name that does not start with a separator,
    the file of the listing path [software/<module>/<rest>] is written to
    the checked directory [<pipeline_dir>/modules/software/<module>]
    followed by [/<rest>]. *)
Theorem X12_install_target_inside_module_dir (o : PipelineModules)
    (module rest : string) :
  pipeline_dir o <> "" ->
  PyStr.endswith (pipeline_dir o) "/" = false ->
  PyStr.startswith module "/" = false ->
  OsPath.join (pipeline_dir o) ["modules"; "software"; module]
  = pipeline_dir o ++ "/modules/software/" ++ module
  /\ OsPath.join (pipeline_dir o) ["modules"; "software/" ++ module ++ "/" ++ rest]
     = OsPath.join (pipeline_dir o) ["modules"; "software"; module] ++ "/" ++ rest.
Proof.
  intros Hne Hend Hmod.
  assert (E1 : OsPath.join2 (pipeline_dir o) "modules" = pipeline_dir o ++ "/modules").
  { unfold OsPath.join2. cbn [PyStr.startswith Ascii.eqb Bool.eqb andb].
    rewrite Hend. apply String.eqb_neq in Hne. now rewrite Hne. }
  unfold OsPath.join. cbn [fold_left]. rewrite E1.
  rewrite (join2_after_name (pipeline_dir o) "/" "modules" "software")
    by reflexivity.
  rewrite (join2_after_name (pipeline_dir o) "/" "modules"
             ("software/" ++ module ++ "/" ++ rest)) by reflexivity.
  rewrite !append_assoc. cbn [append].
  replace (pipeline_dir o ++ "/modules/software")
    with (pipeline_dir o ++ String "/" "modules/software") by reflexivity.
  rewrite (join2_after_name (pipeline_dir o) "/" "modules/software" module Hmod)
    by reflexivity.
  rewrite !append_assoc. cbn [append]. split; reflexivity.
Qed.

Lemma X12_install_target_inside_module_dir_witness :
  OsPath.join "/work" ["modules"; "software/" ++ "fastqc" ++ "/" ++ "test/main.nf"]
  = OsPath.join "/work" ["modules"; "software"; "fastqc"] ++ "/" ++ "test/main.nf".
Proof.
  apply (X12_install_target_inside_module_dir
           (PipelineModules_init ModulesRepo_default "/work") "fastqc" "test/main.nf").
  - discriminate.
  - reflexivity.
  - reflexivity.
Defined.

(** X13: a module name that starts with a separator, as the listing path
    [software//x/main.nf] gives, makes [os.path.join] drop the working
    directory: the directory [install] checks is the module name itself,
    while the file of a listing path, which starts with [software/], is
    still put below the working directory. *)
Theorem X13_absolute_module_name_checked_elsewhere (o : PipelineModules)
    (module p : string) :
  PyStr.startswith module "/" = true ->
  PyStr.startswith p "software/" = true ->
  OsPath.join (pipeline_dir o) ["modules"; "software"; module] = module
  /\ starts_with (OsPath.join (pipeline_dir o) ["modules"; p])
       (OsPath.join (pipeline_dir o) ["modules"]).
Proof.
  intros Hmod Hp. split.
  - unfold OsPath.join. cbn [fold_left]. unfold OsPath.join2 at 1. now rewrite Hmod.
  - unfold OsPath.join. cbn [fold_left].
    unfold OsPath.join2 at 1.
    assert (Hps : PyStr.startswith p "/" = false).
    { apply startswith_iff in Hp. destruct Hp as [t ->]. reflexivity. }
    rewrite Hps.
    destruct (_ || _); [now exists p | now exists ("/" ++ p)].
Qed.

Lemma X13_absolute_module_name_checked_elsewhere_witness :
  OsPath.join "/work" ["modules"; "software"; "/x"] = "/x"
  /\ PyStr.slice "software//x/main.nf" 9 (-8) = "/x".
Proof.
  split; [|reflexivity].
  apply (X13_absolute_module_name_checked_elsewhere
           (PipelineModules_init ModulesRepo_default "/work") "/x"
           "software//x/main.nf"); reflexivity.
Defined.

(** * Further properties: what an installation writes *)

Section WrittenStays.

Local Open Scope list_scope.

Lemma keeps_evolves (f f' : FileSystem) : keeps f f' -> evolves f f'.
Proof.
  intros [Hc H]. split; [exact Hc|]. intros p n Hp.
  destruct (H p n Hp) as [Hs Hpl]. split; [exact Hpl|].
  destruct n; [exact Hs | eauto].
Qed.

Lemma evolves_refl (f : FileSystem) : evolves f f.
Proof. apply keeps_evolves, keeps_refl. Qed.

Lemma evolves_trans (f g h : FileSystem) :
  evolves f g -> evolves g h -> evolves f h.
Proof.
  intros [Hc1 H1] [Hc2 H2]. split; [congruence|]. intros p n Hp.
  destruct (H1 p n Hp) as [Hpl Hk]. destruct n as [|c].
  - destruct (H2 p Dir Hk) as [Hpl' Hk']. split; [congruence | exact Hk'].
  - destruct Hk as [c' Hk]. destruct (H2 p (File c') Hk) as [Hpl' Hk'].
    split; [congruence | exact Hk'].
Qed.

(** A file written where no directory was. *)
Lemma evolves_set_file (f : FileSystem) (k : Key) (data : list byte) :
  k <> [] -> node_at f k <> Some Dir -> evolves f (set_node f k (File data)).
Proof.
  intros Hk Hnd. split; [reflexivity|]. intros p n Hp.
  destruct (stat_after_open_other f k data p n Hk Hnd Hp) as (Hpl & Ho & Hs).
  split; [exact Hpl|].
  destruct (place f p) as [kp|] eqn:Ep.
  - destruct (key_eqb kp k) eqn:Ek.
    + apply key_eqb_eq in Ek. subst kp.
      destruct (Hs eq_refl) as [H [c ->]]. eauto.
    + apply key_eqb_neq in Ek.
      assert (H : set_node f k (File data) p = Some n)
        by (apply Ho; congruence).
      destruct n; [exact H | eauto].
  - assert (H : set_node f k (File data) p = Some n)
      by (apply Ho; discriminate).
    destruct n; [exact H | eauto].
Qed.

Lemma last_written_from (f : FileSystem) (k : Key) (new : list Event)
    (acc : option (list byte)) :
  fold_left
    (fun acc e =>
       match e with
       | WriteFile t data => if leads_to f k t then Some data else acc
       | _ => acc
       end)
    new acc
  = match last_written f k new with
    | Some data => Some data
    | None => acc
    end.
Proof.
  unfold last_written. revert acc.
  induction new as [|e new IH]; intros acc; [reflexivity|].
  cbn [fold_left]. rewrite IH. symmetry. rewrite IH.
  destruct (fold_left _ new None); [reflexivity|].
  destruct e; try reflexivity. now destruct (leads_to f k filename).
Qed.

Lemma last_written_app (f : FileSystem) (k : Key) (a b : list Event) :
  last_written f k (a ++ b)
  = match last_written f k b with
    | Some data => Some data
    | None => last_written f k a
    end.
Proof.
  unfold last_written at 1. rewrite fold_left_app.
  apply (last_written_from f k b).
Qed.

Lemma last_written_no_write (f : FileSystem) (k : Key) (new : list Event) :
  (forall t data, ~ In (WriteFile t data) new) -> last_written f k new = None.
Proof.
  induction new as [|e new IH]; intros H; [reflexivity|].
  change (e :: new) with ([e] ++ new). rewrite last_written_app.
  rewrite IH by (intros t d Hin; apply (H t d); now right).
  destruct e; try reflexivity. exfalso. apply (H filename content). now left.
Qed.

(** The last write leading to a place is one of the writes. *)
Lemma last_written_some (f : FileSystem) (k : Key) (new : list Event)
    (data : list byte) :
  last_written f k new = Some data ->
  exists t, In (WriteFile t data) new /\ leads_to f k t = true.
Proof.
  induction new as [|e new IH] using rev_ind; [discriminate|].
  rewrite last_written_app. intros H.
  destruct (last_written f k [e]) as [d|] eqn:E.
  - injection H as ->. destruct e; try discriminate.
    unfold last_written in E. cbn [fold_left] in E.
    destruct (leads_to f k filename) eqn:El; [|discriminate].
    injection E as ->. exists filename. split; [|exact El].
    apply in_or_app. right. now left.
  - destruct (IH H) as (t & Hin & Hl). exists t. split; [|exact Hl].
    apply in_or_app. now left.
Qed.

(** Where the written names lead does not change while they name
    files. *)
Lemma last_written_stable (f f' : FileSystem) (k : Key) (new : list Event) :
  evolves f f' ->
  (forall t data, In (WriteFile t data) new -> exists c, f t = Some (File c)) ->
  last_written f' k new = last_written f k new.
Proof.
  intros [_ He] Hw. induction new as [|e new IH] using rev_ind; [reflexivity|].
  rewrite !last_written_app.
  rewrite IH by (intros t d Hin; apply (Hw t d); apply in_or_app; now left).
  destruct e; try reflexivity.
  destruct (Hw filename content) as [c Hc]; [apply in_or_app; right; now left|].
  destruct (He _ _ Hc) as [Hpl _].
  unfold last_written. cbn [fold_left]. unfold leads_to. now rewrite Hpl.
Qed.

Lemma written_stays_same_fs (s s' : State) (new : list Event) :
  fs s' = fs s -> (forall t data, ~ In (WriteFile t data) new) ->
  written_stays s new s'.
Proof.
  intros Hfs Hno. unfold written_stays. rewrite Hfs.
  split; [apply evolves_refl|]. split.
  - intros q n k Hq _. now rewrite last_written_no_write.
  - intros t d Hin. now elim (Hno t d).
Qed.

Lemma written_stays_keeps (s s' : State) (new : list Event) :
  keeps (fs s) (fs s') -> (forall t data, ~ In (WriteFile t data) new) ->
  written_stays s new s'.
Proof.
  intros Hk Hno. split; [now apply keeps_evolves|]. split.
  - intros q n k Hq _. rewrite last_written_no_write by exact Hno.
    destruct Hk as [_ Hk]. now apply Hk.
  - intros t d Hin. now elim (Hno t d).
Qed.

(** One run after another. *)
Lemma written_stays_trans (s s1 s' : State) (new1 new' : list Event) :
  written_stays s new1 s1 -> written_stays s1 new' s' ->
  written_stays s (new1 ++ new') s'.
Proof.
  intros (He1 & Hq1 & Hw1) (He2 & Hq2 & Hw2).
  assert (Hst : forall k, last_written (fs s') k new1 = last_written (fs s1) k new1).
  { intros k. apply last_written_stable; [exact He2|].
    intros t d Hin. destruct (Hw1 t d Hin) as (k' & d' & _ & _ & H). eauto. }
  split; [exact (evolves_trans _ _ _ He1 He2)|]. split.
  - intros q n k Hq Hpl. rewrite last_written_app, Hst.
    destruct He1 as [_ He1]. destruct (He1 q n Hq) as [Hpl1 Hk1].
    assert (Hn1 : exists n1, fs s1 q = Some n1)
      by (destruct n; [eauto | destruct Hk1; eauto]).
    destruct Hn1 as [n1 Hn1].
    destruct He2 as [_ He2]. destruct (He2 q n1 Hn1) as [Hpl2 _].
    rewrite Hpl in Hpl2. symmetry in Hpl2.
    rewrite (Hq2 q n1 k Hn1 Hpl).
    destruct (last_written (fs s') k new') as [d|]; [reflexivity|].
    rewrite <- (Hq1 q n k Hq Hpl2). now symmetry.
  - intros t d Hin. apply in_app_or in Hin. destruct Hin as [Hin|Hin].
    + destruct (Hw1 t d Hin) as (k & d1 & Hpl1 & Hl1 & Hf1).
      destruct He2 as [_ He2]. destruct (He2 t _ Hf1) as [Hpl2 _].
      rewrite Hpl1 in Hpl2. exists k.
      rewrite last_written_app, Hst, Hl1, (Hq2 t _ k Hf1 Hpl2).
      destruct (last_written (fs s') k new') as [d2|]; eauto.
    + destruct (Hw2 t d Hin) as (k & d2 & Hpl2 & Hl2 & Hf2).
      exists k, d2. rewrite last_written_app, Hl2. auto.
Qed.

End WrittenStays.
(** What one run of [download_gh_file] does to the file system and to
    the trace. *)
Lemma download_written_stays (s : State) (dl_filename api_url : string) :
  let out := fst (download_gh_file dl_filename api_url s) in
  let s' := snd (download_gh_file dl_filename api_url s) in
  exists new,
    trace s' = (trace s ++ new)%list
    /\ written_stays s new s'
    /\ (forall t data, In (WriteFile t data) new ->
          t = dl_filename
          /\ exists content,
               net s api_url = mkResponse 200 (BlobJson content)
               /\ Base64.b64decode content = Ret data)
    /\ (out = Ret PyNone ->
        exists content data,
          net s api_url = mkResponse 200 (BlobJson content)
          /\ Base64.b64decode content = Ret data
          /\ In (HttpGet api_url) new
          /\ In (WriteFile dl_filename data) new).
Proof.
  destruct (make_target_directory_frame s dl_filename) as (_ & _ & Htr & Hkeep).
  cbv zeta in Htr, Hkeep.
  set (dirs := match fs s (OsPath.dirname dl_filename) with
               | Some _ => []
               | None => [MakeDirs (OsPath.dirname dl_filename)]
               end) in *.
  assert (Hdirs : forall t data, ~ In (WriteFile t data) dirs).
  { intros t d H. subst dirs. destruct (fs s (OsPath.dirname dl_filename));
      [destruct H | destruct H as [H|[]]; discriminate]. }
  destruct (download_gh_file_cases s dl_filename api_url)
    as [(e & _ & He)|[(e & He)|(c & data & k & Hn & Hdec & Hk & Hnd & Hp & Hs & He)]];
    cbv zeta in *; rewrite He; cbn [fst snd self net trace fs].
  - exists dirs. split; [exact Htr|]. split; [|split].
    + now apply written_stays_keeps.
    + intros t d H. now elim (Hdirs t d).
    + discriminate.
  - assert (Hno : forall t data, ~ In (WriteFile t data) (dirs ++ [HttpGet api_url])%list).
    { intros t d H. apply in_app_or in H. destruct H as [H|[H|[]]];
        [now elim (Hdirs t d) | discriminate]. }
    exists (dirs ++ [HttpGet api_url])%list.
    split; [now rewrite Htr, app_assoc|]. split; [|split].
    + now apply written_stays_keeps.
    + intros t d H. now elim (Hno t d).
    + discriminate.
  - set (made := snd (make_target_directory dl_filename s)) in *.
    set (f' := set_node (fs made) k (File data)).
    assert (Hpl : place f' dl_filename = Some k)
      by (apply place_set_node; assumption).
    assert (Hlw : forall k',
               last_written f' k' (dirs ++ [HttpGet api_url; WriteFile dl_filename data])%list
               = if key_eqb k k' then Some data else None).
    { intros k'. rewrite last_written_app, (last_written_no_write _ _ dirs Hdirs).
      unfold last_written. cbn [fold_left]. unfold leads_to. rewrite Hpl.
      now destruct (key_eqb k k'). }
    exists (dirs ++ [HttpGet api_url; WriteFile dl_filename data])%list.
    split; [now rewrite Htr, app_assoc|]. split; [|split].
    + split; [|split].
      * apply (evolves_trans _ (fs made)); [now apply keeps_evolves|].
        now apply evolves_set_file.
      * intros q n kq Hq Hplq. rewrite Hlw. cbn [fs] in *. fold f' in Hplq |- *.
        destruct Hkeep as [_ Hkeep]. destruct (Hkeep q n Hq) as [Hq1 _].
        destruct (stat_after_open_other (fs made) k data q n Hk Hnd Hq1)
          as (Hpl' & Ho & Hsame). fold f' in Hpl', Ho, Hsame.
        rewrite Hplq in Hpl'. symmetry in Hpl'.
        destruct (key_eqb k kq) eqn:Ek.
        -- apply key_eqb_eq in Ek. subst kq. now apply Hsame.
        -- apply key_eqb_neq in Ek. apply Ho. congruence.
      * intros t d H. apply in_app_or in H.
        destruct H as [H|[H|[H|[]]]]; [now elim (Hdirs t d) | discriminate |].
        injection H as <- <-. exists k, data. cbn [fs]. fold f'.
        split; [exact Hpl|]. split; [now rewrite Hlw, key_eqb_refl|].
        now apply stat_after_open.
    + intros t d H. apply in_app_or in H.
      destruct H as [H|[H|[H|[]]]]; [now elim (Hdirs t d) | discriminate |].
      injection H as <- <-. split; [reflexivity|]. now exists c.
    + intros _. exists c, data. split; [exact Hn|]. split; [exact Hdec|].
      split; apply in_or_app; right; simpl; auto.
Qed.

Lemma download_returns_none (s : State) (dl_filename api_url : string)
    (v : PyVal) :
  fst (download_gh_file dl_filename api_url s) = Ret v -> v = PyNone.
Proof.
  destruct (download_gh_file_cases s dl_filename api_url)
    as [(e & _ & He)|[(e & He)|(c & d & k & _ & _ & _ & _ & _ & _ & He)]];
    cbv zeta in He; rewrite He; cbn [fst]; congruence.
Qed.

(** The download loop of [install]: what it writes stays, every write
    is the decoded content of the blob of one of the items, and when the
    loop goes through every item has been fetched and written. *)
Lemma install_loop_written (o : PipelineModules) (items : list (string * string))
    (st : State) :
  let r :=
    for_each items
      (fun item =>
         bind (download_gh_file (install_target o (fst item)) (snd item))
           (fun _ => ret tt))
      st in
  exists new,
    trace (snd r) = (trace st ++ new)%list
    /\ written_stays st new (snd r)
    /\ (forall t data, In (WriteFile t data) new ->
          exists item content,
            In item items /\ t = install_target o (fst item)
            /\ net st (snd item) = mkResponse 200 (BlobJson content)
            /\ Base64.b64decode content = Ret data)
    /\ (fst r = Ret tt ->
        forall item, In item items ->
          exists content data,
            net st (snd item) = mkResponse 200 (BlobJson content)
            /\ Base64.b64decode content = Ret data
            /\ In (HttpGet (snd item)) new
            /\ In (WriteFile (install_target o (fst item)) data) new).
Proof.
  revert st. induction items as [|item items IH]; intros st.
  - cbn [for_each]. unfold ret. cbn [fst snd]. exists [].
    split; [now rewrite app_nil_r|]. split; [|split].
    + apply written_stays_same_fs; [reflexivity | intros t d []].
    + intros t d [].
    + intros _ it [].
  - set (body := fun item0 : string * string =>
                   bind (download_gh_file (install_target o (fst item0)) (snd item0))
                     (fun _ => ret tt)) in *.
    assert (E : for_each (item :: items) body st
                = (let (out, s1) :=
                     download_gh_file (install_target o (fst item)) (snd item) st in
                   match out with
                   | Ret _ => for_each items body s1
                   | Raise e => (Raise e, s1)
                   end)).
    { cbn [for_each]. unfold body at 1. unfold bind.
      destruct (download_gh_file (install_target o (fst item)) (snd item) st)
        as [[v|e] s1]; reflexivity. }
    cbv zeta. rewrite E. clear E.
    destruct (download_written_stays st (install_target o (fst item)) (snd item))
      as (new1 & Htr1 & Hws1 & Hw1 & Hret1).
    destruct (download_frame st (install_target o (fst item)) (snd item))
      as (_ & Hnet1 & _).
    pose proof (download_returns_none st (install_target o (fst item)) (snd item))
      as Hnone.
    destruct (download_gh_file (install_target o (fst item)) (snd item) st)
      as [[v|e] s1]; cbn [fst snd] in *.
    + destruct (IH s1) as (new' & Htr' & Hws' & Hw' & Hret').
      cbv zeta in Htr', Hws', Hw', Hret'.
      exists (new1 ++ new')%list.
      split; [now rewrite Htr', Htr1, app_assoc|]. split; [|split].
      * exact (written_stays_trans _ _ _ _ _ Hws1 Hws').
      * intros t d H. apply in_app_or in H. destruct H as [H|H].
        -- destruct (Hw1 t d H) as (-> & c & Hc & Hd).
           exists item, c. split; [now left|]. auto.
        -- destruct (Hw' t d H) as (it & c & Hit & Ht & Hc & Hd).
           exists it, c. split; [now right|]. rewrite <- Hnet1. auto.
      * intros Hout it [<-|Hit].
        -- assert (Hv : Ret v = Ret PyNone) by (f_equal; now apply Hnone).
           destruct (Hret1 Hv) as (c & d & Hc & Hd & Hg & Hwr).
           exists c, d. split; [exact Hc|]. split; [exact Hd|].
           split; apply in_or_app; now left.
        -- destruct (Hret' Hout it Hit) as (c & d & Hc & Hd & Hg & Hwr).
           exists c, d. rewrite <- Hnet1. split; [exact Hc|]. split; [exact Hd|].
           split; apply in_or_app; now right.
    + exists new1. split; [exact Htr1|]. split; [exact Hws1|]. split.
      * intros t d H. destruct (Hw1 t d H) as (-> & c & Hc & Hd).
        exists item, c. split; [now left|]. auto.
      * discriminate.
Qed.
(** * Further properties: a complete installation *)

(** [install] that returns [None] after a successful fetch has gone
    through the download loop. *)
Lemma install_none_run (s : State) (module tree_sha : string)
    (tree : list FileTreeEntry) :
  net s (tree_api_url (modules_repo (self s)))
  = mkResponse 200 (TreeJson tree_sha tree false) ->
  outcome_of (install module) s = Ret PyNone ->
  PyStr.mem module (modules_avail_module_names (fetched (self s) tree_sha tree))
  = true
  /\ fs s (module_dir (self s) module) = None
  /\ exists m1 m2 sf,
       for_each (module_file_urls tree module)
         (fun item =>
            bind (download_gh_file (install_target (self s) (fst item)) (snd item))
              (fun _ => ret tt))
         (mkState (fetched (self s) tree_sha tree) (fs s) (net s)
            (trace s ++ [HttpGet (tree_api_url (modules_repo (self s)));
                         Log DEBUG m1; Log DEBUG m2])%list)
       = (Ret tt, sf)
       /\ install module s = (Ret PyNone, sf).
Proof.
  intros Hnet Hout. unfold outcome_of in Hout.
  destruct (PyStr.mem module
              (modules_avail_module_names (fetched (self s) tree_sha tree)))
    eqn:Hmem.
  - destruct (fs s (module_dir (self s) module)) as [n|] eqn:Hdir.
    + destruct (install_present_run s module tree_sha tree Hnet Hmem)
        as (m1 & m2 & m3 & E); [congruence|]. rewrite E in Hout. discriminate.
    + split; [reflexivity|]. split; [reflexivity|].
      destruct (install_proceeds_run s module tree_sha tree Hnet Hmem Hdir)
        as (m1 & m2 & E).
      exists m1, m2. rewrite E in Hout |- *.
      match goal with |- context [for_each ?l ?b ?st] =>
        destruct (for_each l b st) as [[[]|e] sf] end;
        cbn [fst] in Hout; [|discriminate].
      exists sf. split; reflexivity.
  - destruct (install_unknown_run s module tree_sha tree Hnet Hmem)
      as (m1 & m2 & E). rewrite E in Hout. discriminate.
Qed.

Lemma place_of_stat (f : FileSystem) (p : string) (n : Node) :
  f p = Some n -> exists k, place f p = Some k.
Proof.
  unfold stat. destruct (place f p) as [k|]; [eauto | discriminate].
Qed.

Lemma leads_to_place (f : FileSystem) (k : Key) (t : string) :
  leads_to f k t = true -> place f t = Some k.
Proof.
  unfold leads_to. destruct (place f t) as [k'|]; [|discriminate].
  intros H. apply key_eqb_eq in H. now subst.
Qed.

(** X14: a complete installation.  When the fetch succeeds and [install]
    returns [None], every file of the module has been fetched and
    written: for every path the module maps to an address, the answer to
    that address was 200 with content that decodes, the request and the
    write of the decoded bytes to [os.path.join(pipeline_dir, "modules",
    path)] are in the trace, that name names a file afterwards, and
    every part of the name before a separator names a directory.  The
    file holds the bytes of the last write that led to its place: its
    own bytes, when no other file of the module leads to the same
    place. *)
Theorem X14_install_writes_every_file (s : State) (module tree_sha : string)
    (tree : list FileTreeEntry) :
  net s (tree_api_url (modules_repo (self s)))
  = mkResponse 200 (TreeJson tree_sha tree false) ->
  outcome_of (install module) s = Ret PyNone ->
  let s' := state_after (install module) s in
  let target p := OsPath.join (pipeline_dir (self s)) ["modules"; p] in
  self s' = fetched (self s) tree_sha tree
  /\ net s' = net s
  /\ exists new,
       trace s' = (trace s ++ new)%list
       /\ forall p u, In (p, u) (module_file_urls tree module) ->
            exists content data,
              net s u = mkResponse 200 (BlobJson content)
              /\ Base64.b64decode content = Ret data
              /\ In (HttpGet u) new
              /\ In (WriteFile (target p) data) new
              /\ (exists k data',
                    place (fs s') (target p) = Some k
                    /\ last_written (fs s') k new = Some data'
                    /\ fs s' (target p) = Some (File data'))
              /\ (forall a b, target p = a ++ "/" ++ b -> a <> "" ->
                    fs s' a = Some Dir)
              /\ ((forall p' u', In (p', u') (module_file_urls tree module) ->
                      p' <> p ->
                      place (fs s') (target p') <> place (fs s') (target p)) ->
                  fs s' (target p) = Some (File data)).
Proof.
  intros Hnet Hout s' target.
  destruct (install_none_run s module tree_sha tree Hnet Hout)
    as (_ & _ & m1 & m2 & sf & Hloop & Hrun).
  subst s'. unfold state_after. rewrite Hrun. cbn [snd].
  set (st := mkState (fetched (self s) tree_sha tree) (fs s) (net s)
               (trace s ++ [HttpGet (tree_api_url (modules_repo (self s)));
                            Log DEBUG m1; Log DEBUG m2])%list) in *.
  destruct (install_loop_frame (self s) (module_file_urls tree module) st)
    as (Hself & Hn & _).
  destruct (install_loop_written (self s) (module_file_urls tree module) st)
    as (new & Htr & (_ & _ & Hw) & Hbound & Hall).
  cbv zeta in Hself, Hn, Htr, Hw, Hbound, Hall. rewrite Hloop in *.
  cbn [fst snd] in *.
  split; [exact Hself|]. split; [exact Hn|].
  set (pre := [HttpGet (tree_api_url (modules_repo (self s)));
               Log DEBUG m1; Log DEBUG m2]).
  assert (Hpre : forall f k, last_written f k (pre ++ new)%list = last_written f k new).
  { intros f k. rewrite last_written_app.
    destruct (last_written f k new); reflexivity. }
  exists (pre ++ new)%list. split; [now rewrite Htr, app_assoc|].
  intros p u Hpu. destruct (Hall eq_refl (p, u) Hpu) as (c & d & Hc & Hd & Hg & Hwr).
  cbn [fst snd net] in *. change (install_target (self s) p) with (target p) in Hwr.
  destruct (Hw _ _ Hwr) as (k & d' & Hpl & Hl & Hf).
  exists c, d. split; [exact Hc|]. split; [exact Hd|].
  split; [apply in_or_app; now right|]. split; [apply in_or_app; now right|].
  split; [exists k, d'; rewrite Hpre; auto|]. split.
  - intros a b E Ha. rewrite E in Hf. exact (stat_prefix_dir _ a b _ Ha Hf).
  - intros Hother. rewrite Hf. do 2 f_equal.
    destruct (last_written_some _ _ _ _ Hl) as (t' & Hin' & Hlead).
    destruct (Hbound _ _ Hin') as ([p' u'] & c' & Hit & Ht' & Hc' & Hd').
    cbn [fst snd net] in *. apply leads_to_place in Hlead.
    destruct (String.eqb_spec p' p) as [->|Hne].
    + assert (Hnd : NoDup (PyDict.keys (module_file_urls tree module)))
        by (apply fold_urls_nodup; constructor).
      pose proof (in_items_get _ _ _ Hnd Hit) as G1.
      pose proof (in_items_get _ _ _ Hnd Hpu) as G2.
      assert (u' = u) by congruence. subst u'. congruence.
    + exfalso. apply (Hother p' u' Hit Hne).
      change (target p') with (install_target (self s) p').
      rewrite <- Ht'. congruence.
Qed.

Lemma X14_install_writes_every_file_witness :
  fs (state_after (install "fastqc") (demo_state demo_fs (demo_net false)))
     "/work/modules/software/fastqc/meta.yml"
  = Some (File demo_bytes).
Proof.
  destruct (X14_install_writes_every_file
              (demo_state demo_fs (demo_net false)) "fastqc" "5f1e0a" demo_tree)
    as (_ & _ & new & _ & H).
  - reflexivity.
  - reflexivity.
  - destruct (H "software/fastqc/meta.yml" (blob_url "04"))
      as (c & d & Hc & Hd & _ & _ & _ & _ & Hown).
    + simpl. tauto.
    + vm_compute in Hc. injection Hc as <-. vm_compute in Hd. injection Hd as <-.
      apply Hown. intros p' u' Hin Hne. vm_compute in Hin.
      destruct Hin as [E|[E|[E|[]]]]; injection E as <- <-;
        try (now elim Hne); vm_compute; discriminate.
Defined.

(** * Further properties: how a download fails *)

(** [download_gh_file] with the directory in place, up to the answer. *)
Lemma download_in_place_run (s : State) (dl_filename api_url : string) :
  fs s (OsPath.dirname dl_filename) <> None ->
  let r := net s api_url in
  let s1 := mkState (self s) (fs s) (net s) (trace s ++ [HttpGet api_url])%list in
  download_gh_file dl_filename api_url s
  = if negb (status_code r =? 200)%Z then
      (Raise (SystemError
                ("Could not fetch " ++ name (modules_repo (self s)) ++ " file: "
                 ++ str_of_int (status_code r) ++ PyStr.nl ++ " " ++ api_url)),
       s1)
    else
      match json r with
      | BlobJson content =>
          match Base64.b64decode content with
          | Ret file_contents =>
              match open_wb_write dl_filename file_contents s1 with
              | (Ret _, s2) => (Ret PyNone, s2)
              | (Raise e, s2) => (Raise e, s2)
              end
          | Raise e => (Raise e, s1)
          end
      | _ => (Raise (KeyError "content"), s1)
      end.
Proof.
  intros Hd r s1.
  unfold download_gh_file, bind at 1, get_self at 1.
  unfold bind at 1, os_path_exists at 1, bind at 1, get_fs at 1, ret at 1.
  destruct (fs s (OsPath.dirname dl_filename)) as [n|]; [|contradiction].
  cbn [negb]. unfold bind at 1, ret at 1.
  unfold bind at 1, requests_get at 1, bind at 1, emit_event at 1.
  cbn [net self fs trace]. fold r. fold s1.
  destruct (negb (status_code r =? 200)%Z).
  - reflexivity.
  - unfold bind at 1, ret at 1.
    destruct (json r) as [h tr tc|content|]; try reflexivity.
    destruct (Base64.b64decode content); reflexivity.
Qed.

(** X15: how [download_gh_file] fails once the directory of the file is
    there.  An answer other than 200 raises [SystemError]; a 200 answer
    without a [content] raises [KeyError]; a content that does not decode
    raises the decoder's exception.  In all three the one request has
    been made and the file system is as before. *)
Theorem X15_download_failures (s : State) (dl_filename api_url : string) :
  fs s (OsPath.dirname dl_filename) <> None ->
  let r := net s api_url in
  let out := outcome_of (download_gh_file dl_filename api_url) s in
  let s' := state_after (download_gh_file dl_filename api_url) s in
  let untouched :=
    fs s' = fs s /\ trace s' = (trace s ++ [HttpGet api_url])%list in
  (status_code r <> 200%Z -> (exists msg, out = Raise (SystemError msg)) /\ untouched)
  /\ (status_code r = 200%Z -> (forall c, json r <> BlobJson c) ->
      out = Raise (KeyError "content") /\ untouched)
  /\ (forall c e, status_code r = 200%Z -> json r = BlobJson c ->
        Base64.b64decode c = Raise e -> out = Raise e /\ untouched).
Proof.
  intros Hd r out s' untouched. subst out s' untouched.
  unfold outcome_of, state_after.
  rewrite (download_in_place_run s dl_filename api_url Hd). fold r.
  split; [|split].
  - intros Hst. apply Z.eqb_neq in Hst. rewrite Hst. cbn [negb fst snd fs trace].
    split; [eexists; reflexivity | split; reflexivity].
  - intros Hst Hj. apply Z.eqb_eq in Hst. rewrite Hst. cbn [negb].
    destruct (json r) as [h tr tc|c|]; cbn [fst snd fs trace].
    + repeat split.
    + exfalso. now apply (Hj c).
    + repeat split.
  - intros c e Hst Hj Hdec. apply Z.eqb_eq in Hst. rewrite Hst, Hj, Hdec.
    cbn [negb fst snd fs trace]. repeat split.
Qed.

Lemma X15_download_failures_witness :
  outcome_of (download_gh_file "/work/notes.txt" (blob_url "03"))
    (demo_state demo_fs demo_net_bad_content)
  = Raise (BinasciiError "Incorrect padding")
  /\ exists msg,
       outcome_of (download_gh_file "/work/notes.txt" (blob_url "03"))
         (demo_state demo_fs ghost_net)
       = Raise (SystemError msg).
Proof.
  split.
  - destruct (X15_download_failures (demo_state demo_fs demo_net_bad_content)
                "/work/notes.txt" (blob_url "03")) as (_ & _ & H).
    + vm_compute. discriminate.
    + apply (H "SGk" (BinasciiError "Incorrect padding")); reflexivity.
  - destruct (X15_download_failures (demo_state demo_fs ghost_net)
                "/work/notes.txt" (blob_url "03")) as (H & _).
    + vm_compute. discriminate.
    + apply H. vm_compute. discriminate.
Defined.

(** * Further properties: installing twice *)

(** The target of a listing path of a module, for ordinary arguments. *)
Lemma install_target_plain (o : PipelineModules) (module rest : string) :
  pipeline_dir o <> "" ->
  PyStr.endswith (pipeline_dir o) "/" = false ->
  PyStr.startswith module "/" = false ->
  install_target o ("software/" ++ module ++ "/" ++ rest)
  = module_dir o module ++ "/" ++ rest.
Proof.
  intros Hne Hend Hmod.
  rewrite (module_dir_plain o module Hne Hend Hmod).
  assert (E1 : OsPath.join2 (pipeline_dir o) "modules" = pipeline_dir o ++ "/modules").
  { unfold OsPath.join2. cbn [PyStr.startswith Ascii.eqb Bool.eqb andb].
    rewrite Hend. apply String.eqb_neq in Hne. now rewrite Hne. }
  unfold install_target, OsPath.join. cbn [fold_left]. rewrite E1.
  rewrite (join2_after_name (pipeline_dir o) "/" "modules"
             ("software/" ++ module ++ "/" ++ rest)) by reflexivity.
  rewrite !append_assoc. reflexivity.
Qed.

Lemma in_keys_item {V : Type} (d : PyDict.t V) (k : string) :
  In k (PyDict.keys d) -> exists v, In (k, v) d.
Proof.
  unfold PyDict.keys. intros H. apply in_map_iff in H.
  destruct H as ([k' v] & <- & H). now exists v.
Qed.

(** X16: a module installed once is refused the second time.  When the
    fetch succeeds and [install] has returned [None] for a module that
    has a file below [software/<module>/], with an ordinary working
    directory and module name, a second [install] of the same module on
    the same object and network returns [False], makes no request but
    the one for the tree, and leaves the file system as the first
    installation left it. *)
Theorem X16_second_install_is_refused (s : State) (module tree_sha : string)
    (tree : list FileTreeEntry) (f0 : FileTreeEntry) (rest : string) :
  net s (tree_api_url (modules_repo (self s)))
  = mkResponse 200 (TreeJson tree_sha tree false) ->
  outcome_of (install module) s = Ret PyNone ->
  pipeline_dir (self s) <> "" ->
  PyStr.endswith (pipeline_dir (self s)) "/" = false ->
  PyStr.startswith module "/" = false ->
  In f0 tree -> type_ f0 = "blob" ->
  path f0 = "software/" ++ module ++ "/" ++ rest ->
  let s1 := state_after (install module) s in
  let s2 := state_after (install module) s1 in
  fs s1 (OsPath.join (pipeline_dir (self s)) ["modules"; "software"; module])
  = Some Dir
  /\ outcome_of (install module) s1 = Ret (PyBool false)
  /\ fs s2 = fs s1
  /\ exists new,
       trace s2 = (trace s1 ++ new)%list
       /\ filter is_http_get new = [HttpGet (tree_api_url (modules_repo (self s)))]
       /\ existsb touches_files new = false.
Proof.
  intros Hnet Hout Hp1 Hp2 Hm2 Hf0 Hblob Hpath s1 s2.
  destruct (install_none_run s module tree_sha tree Hnet Hout)
    as (Hmem1 & _ & m1 & m2 & sf & Hloop & Hrun).
  assert (Es1 : s1 = sf) by (subst s1; unfold state_after; now rewrite Hrun).
  set (st := mkState (fetched (self s) tree_sha tree) (fs s) (net s)
               (trace s ++ [HttpGet (tree_api_url (modules_repo (self s)));
                            Log DEBUG m1; Log DEBUG m2])%list) in *.
  destruct (install_loop_frame (self s) (module_file_urls tree module) st)
    as (Hself & Hn & _).
  destruct (install_loop_written (self s) (module_file_urls tree module) st)
    as (new & _ & (_ & _ & Hw) & _ & Hall).
  cbv zeta in Hself, Hn, Hw, Hall. rewrite Hloop in *. cbn [fst snd] in *.
  cbn [self net] in Hself, Hn.
  (* the file of [f0] was written, so the directory of the module is there *)
  assert (Hkey : exists u, In (path f0, u) (module_file_urls tree module)).
  { apply in_keys_item. apply PyDictFacts.in_keys_iff.
    rewrite module_file_urls_get.
    destruct (last_selected tree module (path f0)) eqn:E; [discriminate|].
    exfalso. apply (last_selected_none _ _ _ E f0 Hf0); [|reflexivity].
    apply selected_iff. split; [|exact Hblob].
    rewrite Hpath. exists ("/" ++ rest). now rewrite append_assoc. }
  destruct Hkey as (u & Hu).
  destruct (Hall eq_refl _ Hu) as (c & d & _ & _ & _ & Hwr).
  destruct (Hw _ _ Hwr) as (k & d' & _ & _ & Hf). cbn [fst] in Hf.
  rewrite Hpath, (install_target_plain (self s) module rest Hp1 Hp2 Hm2) in Hf.
  assert (Hd : fs sf (module_dir (self s) module) = Some Dir).
  { apply (stat_prefix_dir _ _ rest (File d')); [|exact Hf].
    rewrite (module_dir_plain (self s) module Hp1 Hp2 Hm2).
    destruct (pipeline_dir (self s)); [contradiction | discriminate]. }
  (* so the second call stops at the directory test *)
  assert (Hrepo : modules_repo (self sf) = modules_repo (self s))
    by now rewrite Hself.
  assert (Hnet2 : net sf (tree_api_url (modules_repo (self sf)))
                  = mkResponse 200 (TreeJson tree_sha tree false))
    by now rewrite Hrepo, Hn.
  assert (Hmem : PyStr.mem module
                   (modules_avail_module_names (fetched (self sf) tree_sha tree))
                 = true).
  { apply mem_iff. cbn [fetched modules_avail_module_names].
    apply in_or_app. left. rewrite Hself. now apply mem_iff. }
  assert (Hdir2 : fs sf (module_dir (self sf) module) <> None).
  { replace (module_dir (self sf) module) with (module_dir (self s) module)
      by (unfold module_dir; now rewrite Hself).
    rewrite Hd. discriminate. }
  destruct (install_present_run sf module tree_sha tree Hnet2 Hmem Hdir2)
    as (x1 & x2 & x3 & E).
  subst s2. rewrite Es1. clear Es1. unfold outcome_of, state_after. rewrite E.
  cbn [fst snd fs trace]. rewrite Hrepo.
  split; [exact Hd|]. split; [reflexivity|]. split; [reflexivity|].
  eexists. split; [reflexivity|]. split; reflexivity.
Qed.

Lemma X16_second_install_is_refused_witness :
  outcome_of (install "fastqc")
    (state_after (install "fastqc") (demo_state demo_fs (demo_net false)))
  = Ret (PyBool false).
Proof.
  destruct (X16_second_install_is_refused
              (demo_state demo_fs (demo_net false)) "fastqc" "5f1e0a" demo_tree
              (mkEntry "software/fastqc/main.nf" "blob" (blob_url "03") "03")
              "main.nf") as (_ & H & _);
    [ reflexivity | reflexivity | discriminate | reflexivity | reflexivity
    | simpl; tauto | reflexivity | reflexivity | exact H ].
Defined.

(** * Further properties: what an installation leaves standing *)

(** [install], whatever the answer to the tree request: it stops with
    log lines only and the file system as it was, or it goes into the
    download loop from a state with the file system as it was. *)
Lemma install_runs (s : State) (module : string) :
  let s1 := snd (get_modules_file_tree s) in
  (exists logs,
     fs (snd (install module s)) = fs s
     /\ trace (snd (install module s)) = (trace s1 ++ logs)%list
     /\ forallb is_log logs = true)
  \/ (exists st logs,
        fs st = fs s
        /\ trace st = (trace s1 ++ logs)%list
        /\ forallb is_log logs = true
        /\ snd (install module s)
           = snd (for_each (module_file_urls (modules_file_tree (self s1)) module)
                    (fun item =>
                       bind (download_gh_file (install_target (self s1) (fst item))
                               (snd item))
                         (fun _ => ret tt))
                    st)).
Proof.
  destruct (tree_fetch_frame s) as (Hfs & _ & _ & _).
  unfold state_after in Hfs. cbv zeta.
  destruct (install module s) as [out s'] eqn:E. cbn [snd].
  unfold install in E. unfold bind at 1 in E.
  destruct (get_modules_file_tree s) as [[[]|e] s1]; cbn [snd] in *.
  - unfold bind at 1, get_self at 1 in E.
    destruct (negb (PyStr.mem module (modules_avail_module_names (self s1)))).
    + left. revert E. run_step. intros E. injection E as <- <-.
      eexists. split; [exact Hfs|]. cbn [trace].
      rewrite <- app_assoc. split; reflexivity.
    + unfold bind at 1, logging at 1, emit_event at 1 in E.
      unfold bind at 1, os_path_exists at 1, bind at 1, get_fs at 1, ret at 1 in E.
      cbn [fs] in E.
      match type of E with context [match stat (fs s1) ?p with Some _ => true | None => false end] =>
        destruct (fs s1 p) end.
      * left. revert E. run_step. intros E. injection E as <- <-.
        eexists. split; [exact Hfs|]. cbn [trace].
        rewrite <- !app_assoc. split; reflexivity.
      * right. unfold bind at 1 in E. rewrite get_module_file_urls_run in E.
        unfold bind at 1, logging at 1, emit_event at 1 in E.
        cbn [self fs net trace] in E. unfold bind at 1 in E.
        unfold PyDict.items in E.
        match type of E with context [for_each ?l ?b ?st0] =>
          exists st0;
          change (for_each l b st0)
            with (for_each l
                    (fun item =>
                       bind (download_gh_file (install_target (self s1) (fst item))
                               (snd item))
                         (fun _ => ret tt))
                    st0) in E;
          destruct (for_each l
                      (fun item =>
                         bind (download_gh_file (install_target (self s1) (fst item))
                                 (snd item))
                           (fun _ => ret tt))
                      st0) as [[[]|e] sf]
        end; cbn [snd]; unfold ret in E; injection E as <- <-;
          (eexists; split; [exact Hfs|]; cbn [trace]; rewrite <- app_assoc;
           split; [reflexivity|]; split; reflexivity).
  - left. injection E as <- <-. exists []. rewrite app_nil_r. auto.
Qed.

Lemma logs_no_write (logs : list Event) :
  forallb is_log logs = true -> forall t data, ~ In (WriteFile t data) logs.
Proof.
  intros H t d Hin. rewrite forallb_forall in H. specialize (H _ Hin).
  discriminate.
Qed.

(** What [install] writes stays, whether it returns or raises. *)
Lemma install_written_stays (s : State) (module : string) :
  let s' := snd (install module s) in
  exists new,
    trace s' = (trace s ++ new)%list /\ written_stays s new s'.
Proof.
  destruct (tree_fetch_frame s) as (_ & _ & _ & logs0 & Htr0 & Hl0).
  unfold state_after in Htr0.
  assert (Hno0 : forall t d,
             ~ In (WriteFile t d)
                 (HttpGet (tree_api_url (modules_repo (self s))) :: logs0)).
  { intros t d [H|H]; [discriminate | now apply (logs_no_write logs0 Hl0 t d)]. }
  destruct (install_runs s module)
    as [(logs & Hfs & Htr & Hl)|(st & logs & Hfs & Htr & Hl & Hrun)];
    cbv zeta in *.
  - exists ((HttpGet (tree_api_url (modules_repo (self s))) :: logs0) ++ logs)%list.
    split; [now rewrite Htr, Htr0, app_assoc|].
    apply written_stays_same_fs; [exact Hfs|].
    intros t d H. apply in_app_or in H. destruct H as [H|H];
      [now apply (Hno0 t d) | now apply (logs_no_write logs Hl t d)].
  - rewrite Hrun.
    match goal with |- context [for_each ?l ?b st] =>
      destruct (install_loop_written (self (snd (get_modules_file_tree s))) l st)
        as (new & Htr' & Hws & _) end.
    cbv zeta in Htr', Hws.
    exists (((HttpGet (tree_api_url (modules_repo (self s))) :: logs0) ++ logs)
            ++ new)%list.
    split; [now rewrite Htr', Htr, Htr0, !app_assoc|].
    apply (written_stays_trans s st); [|exact Hws].
    apply written_stays_same_fs; [exact Hfs|].
    intros t d H. apply in_app_or in H. destruct H as [H|H];
      [now apply (Hno0 t d) | now apply (logs_no_write logs Hl t d)].
Qed.

(** X17: [install] removes nothing.  Whether it returns or raises, every
    name that named a directory before the call names a directory after
    it, and every name that named a file names a file; the file holds
    the bytes it held, unless [install] wrote through a name that leads
    to the same place, and then it holds the bytes of such a write. *)
Theorem X17_install_keeps_other_files (s : State) (module : string) :
  let s' := state_after (install module) s in
  exists new,
    trace s' = (trace s ++ new)%list
    /\ (forall q, fs s q = Some Dir -> fs s' q = Some Dir)
    /\ (forall q content, fs s q = Some (File content) ->
          fs s' q = Some (File content)
          \/ exists t data,
               In (WriteFile t data) new
               /\ place (fs s') t = place (fs s') q
               /\ fs s' q = Some (File data)).
Proof.
  cbv zeta. unfold state_after.
  destruct (install_written_stays s module) as (new & Htr & (He & Hq & _)).
  cbv zeta in *. exists new. split; [exact Htr|]. destruct He as [_ He]. split.
  - intros q H. now destruct (He q Dir H).
  - intros q c H. destruct (He q _ H) as [Hpl _].
    destruct (place_of_stat _ _ _ H) as [k Hk]. rewrite Hk in Hpl.
    rewrite (Hq q _ k H Hpl).
    destruct (last_written _ k new) as [d|] eqn:El; [|now left].
    right. destruct (last_written_some _ _ _ _ El) as (t & Hin & Hlead).
    apply leads_to_place in Hlead. exists t, d. rewrite Hlead, Hpl. auto.
Qed.

Lemma X17_install_keeps_other_files_witness :
  fs (state_after (install "fastqc") (demo_state demo_fs_notes (demo_net false)))
     "/work/notes.txt"
  = Some (File [x6f; x6c; x64])
  /\ fs (state_after (install "fastqc") (demo_state demo_fs_notes (demo_net false)))
        "/work/modules/software/fastqc/main.nf"
     = Some (File demo_bytes).
Proof.
  destruct (X17_install_keeps_other_files
              (demo_state demo_fs_notes (demo_net false)) "fastqc")
    as (new & Htr & _ & Hfile).
  cbn [demo_state trace app] in Htr. subst new. split; [|reflexivity].
  destruct (Hfile "/work/notes.txt" [x6f; x6c; x64] eq_refl)
    as [H|(t & data & Hin & Hpl & _)]; [exact H|].
  exfalso. vm_compute in Hin.
  repeat (destruct Hin as [E|Hin];
          [first [discriminate E
                 | injection E as <- <-; vm_compute in Hpl; discriminate Hpl]|]).
  destruct Hin.
Defined.

(** X18: no rollback.  Whether [install] returns or one of its downloads
    raises, every file it has written is there afterwards: the name
    written through names a file, which holds the bytes of the last
    write of the call that led to its place. *)
Theorem X18_install_keeps_files_written_before_a_failure (s : State)
    (module : string) :
  let s' := state_after (install module) s in
  exists new,
    trace s' = (trace s ++ new)%list
    /\ forall t data, In (WriteFile t data) new ->
         exists k data',
           place (fs s') t = Some k
           /\ last_written (fs s') k new = Some data'
           /\ fs s' t = Some (File data').
Proof.
  cbv zeta. unfold state_after.
  destruct (install_written_stays s module) as (new & Htr & (_ & _ & Hw)).
  exists new. split; [exact Htr | exact Hw].
Qed.

Lemma X18_install_keeps_files_written_before_a_failure_witness :
  fs (state_after (install "fastqc") (demo_state demo_fs demo_net_main_only))
     "/work/modules/software/fastqc/main.nf"
  = Some (File demo_bytes)
  /\ exists msg,
       outcome_of (install "fastqc") (demo_state demo_fs demo_net_main_only)
       = Raise (SystemError msg).
Proof.
  split.
  - destruct (X18_install_keeps_files_written_before_a_failure
                (demo_state demo_fs demo_net_main_only) "fastqc")
      as (new & Htr & H).
    cbn [demo_state trace app] in Htr. subst new.
    destruct (H "/work/modules/software/fastqc/main.nf" demo_bytes)
      as (k & d & Hp & Hl & Hf).
    + vm_compute. tauto.
    + vm_compute in Hp. injection Hp as <-. vm_compute in Hl.
      injection Hl as <-. exact Hf.
  - eexists. vm_compute. reflexivity.
Defined.

(** * Absolute path names of proper names *)







Section PlainPaths.

Local Open Scope list_scope.

















End PlainPaths.

(** * The library calls on absolute path names of proper names *)

Section PlainCalls.

Local Open Scope list_scope.








End PlainCalls.

(** * Downloading to the path name of a place *)

Section PlainDownload.

Local Open Scope list_scope.





End PlainDownload.

(** * Further properties: a download to a place with the way clear *)

Section PlacesTo.

Local Open Scope list_scope.



End PlacesTo.



(** * The targets of [install] as places *)

Section InstallPlaces.

Local Open Scope list_scope.











End InstallPlaces.

(** * Further properties: an install with the way clear *)

Section InstallLoop.

Local Open Scope list_scope.




End InstallLoop.


(** * Examples *)

Example startswith_ex : PyStr.startswith "software/fastqc/main.nf" "software/" = true.
Proof. reflexivity. Qed.

Example endswith_ex : PyStr.endswith "software/fastqc/main.nf" "/main.nf" = true.
Proof. reflexivity. Qed.

Example contains_ex : PyStr.contains "/test/" "software/fastqc/test/main.nf" = true.
Proof. reflexivity. Qed.

Example slice_ex : PyStr.slice "software/fastqc/main.nf" 9 (-8) = "fastqc".
Proof. reflexivity. Qed.

Example slice_overlap_ex : PyStr.slice "software/main.nf" 9 (-8) = "".
Proof. reflexivity. Qed.

Example join_ex :
  OsPath.join "/home/u/pipe" ["modules"; "software"; "fastqc"]
  = "/home/u/pipe/modules/software/fastqc".
Proof. reflexivity. Qed.

Example join_abs_ex : OsPath.join "/home/u" ["modules"; "/x"] = "/x".
Proof. reflexivity. Qed.

Example dirname_ex : OsPath.dirname "/a/b/c.txt" = "/a/b".
Proof. reflexivity. Qed.

Example dirname_root_ex : OsPath.dirname "/c.txt" = "/".
Proof. reflexivity. Qed.

Example dirname_none_ex : OsPath.dirname "c.txt" = "".
Proof. reflexivity. Qed.

Example dirname_slashes_ex : OsPath.dirname "a//b" = "a".
Proof. reflexivity. Qed.

Example b64encode_ex : Base64.b64encode demo_bytes = "SGkhCgA=".
Proof. reflexivity. Qed.

Example b64decode_ex :
  Base64.b64decode ("SGkh" ++ PyStr.nl ++ "CgA=") = Ret demo_bytes.
Proof. reflexivity. Qed.

Example b64decode_bad_padding_ex :
  Base64.b64decode "SGk" = Raise (BinasciiError "Incorrect padding").
Proof. reflexivity. Qed.

Example module_names_ex : module_names demo_tree = ["fastqc"; "samtools/sort"].
Proof. reflexivity. Qed.

Example module_file_urls_ex :
  PyDict.keys (module_file_urls demo_tree "fastqc")
  = ["software/fastqc/main.nf"; "software/fastqc/meta.yml";
     "software/fastqc/test/main.nf"].
Proof. reflexivity. Qed.

Example install_trace_ex :
  filter touches_files
    (trace (state_after (install "fastqc") (demo_state demo_fs (demo_net false))))
  = [ MakeDirs "/work/modules/software/fastqc";
      WriteFile "/work/modules/software/fastqc/main.nf" demo_bytes;
      WriteFile "/work/modules/software/fastqc/meta.yml" demo_bytes;
      MakeDirs "/work/modules/software/fastqc/test";
      WriteFile "/work/modules/software/fastqc/test/main.nf" demo_bytes ].
Proof. reflexivity. Qed.

Example list_modules_twice_ex :
  filter (fun e => match e with Print _ => true | _ => false end)
    (trace (state_after (bind list_modules (fun _ => list_modules))
              (demo_state demo_fs (demo_net false))))
  = [ Print ("fastqc" ++ PyStr.nl ++ "samtools/sort");
      Print ("fastqc" ++ PyStr.nl ++ "samtools/sort" ++ PyStr.nl
             ++ "fastqc" ++ PyStr.nl ++ "samtools/sort") ].
Proof. reflexivity. Qed.

Example b64decode_one_more_ex :
  Base64.b64decode "SGkhC"
  = Raise (BinasciiError
             "Invalid base64-encoded string: number of data characters (5) cannot be 1 more than a multiple of 4").
Proof. reflexivity. Qed.
